(** * fsp-observer: contract signatures and typed protocol events

    A shallow embedding of [configuration/types.py],
    [configuration/config.py] and [observer/types.py], together with
    the library functions these modules call (keccak-256, EIP-55
    checksums, EIP-191 hashing, [bytes.hex], [bytes.fromhex],
    [int.to_bytes], [int]).

    Python [str] values are modelled as [string] (the sequence of the
    bytes of their UTF-8 encoding) and [bytes] values as [list byte]. *)

From Stdlib Require Import ZArith NArith Lia.
From Stdlib Require Import Strings.String Strings.Ascii Strings.Byte.
From Stdlib Require Import DecimalString.
From stdpp Require Import base option list gmap strings.

Local Set Warnings "-register-all".
Local Open Scope string_scope.
Local Open Scope list_scope.

(** ** Keccak-256

    [Web3.keccak] and [eth_utils.crypto.keccak] compute the original
    Keccak-256 (rate 1088 bits, capacity 512, padding byte 0x01). *)

Module Keccak.

Definition mask64 : N := 0xFFFFFFFFFFFFFFFF%N.

Definition rotl64 (x n : N) : N :=
  N.lor (N.land (N.shiftl x n) mask64) (N.shiftr x (64 - n)).

Definition round_constants : list N :=
  [ 0x0000000000000001; 0x0000000000008082; 0x800000000000808A;
    0x8000000080008000; 0x000000000000808B; 0x0000000080000001;
    0x8000000080008081; 0x8000000000008009; 0x000000000000008A;
    0x0000000000000088; 0x0000000080008009; 0x000000008000000A;
    0x000000008000808B; 0x800000000000008B; 0x8000000000008089;
    0x8000000000008003; 0x8000000000008002; 0x8000000000000080;
    0x000000000000800A; 0x800000008000000A; 0x8000000080008081;
    0x8000000000008080; 0x0000000080000001; 0x8000000080008008 ]%N.

(** Rotation offsets, lane [(x, y)] at index [x + 5 * y]. *)
Definition rotation_offsets : list N :=
  [  0;  1; 62; 28; 27;
    36; 44;  6; 55; 20;
     3; 10; 43; 25; 39;
    41; 45; 15; 21;  8;
    18;  2; 61; 56; 14 ]%N.

Definition lane (st : list N) (i : nat) : N := nth i st 0%N.

Definition column (st : list N) (x : nat) : N :=
  N.lxor (lane st x)
    (N.lxor (lane st (x + 5))
       (N.lxor (lane st (x + 10))
          (N.lxor (lane st (x + 15)) (lane st (x + 20))))).

Definition theta (st : list N) : list N :=
  let c := map (column st) (seq 0 5) in
  let d := map (fun x => N.lxor (lane c ((x + 4) mod 5))
                           (rotl64 (lane c ((x + 1) mod 5)) 1))
               (seq 0 5) in
  imap (fun i a => N.lxor a (lane d (i mod 5))) st.

(** [B[y, 2x + 3y] = rotl (A[x, y], r[x, y])], read from the
    destination lane [(X, Y)]: its source is [((X + 3Y) mod 5, X)]. *)
Definition rho_pi (st : list N) : list N :=
  map (fun j =>
         let X := j mod 5 in
         let Y := j / 5 in
         let src := (X + 3 * Y) mod 5 + 5 * X in
         rotl64 (lane st src) (lane rotation_offsets src))
      (seq 0 25).

Definition chi (st : list N) : list N :=
  map (fun j =>
         let x := j mod 5 in
         let y := j / 5 in
         let b1 := lane st ((x + 1) mod 5 + 5 * y) in
         let b2 := lane st ((x + 2) mod 5 + 5 * y) in
         N.lxor (lane st j) (N.land (N.lxor b1 mask64) b2))
      (seq 0 25).

Definition iota (rc : N) (st : list N) : list N :=
  match st with
  | [] => []
  | a :: rest => N.lxor a rc :: rest
  end.

Definition keccak_round (st : list N) (rc : N) : list N :=
  iota rc (chi (rho_pi (theta st))).

Definition keccak_f (st : list N) : list N :=
  fold_left keccak_round round_constants st.

(** XOR one byte into the state at byte offset [pos] of the rate
    (lanes are little-endian). *)
Definition xor_byte (st : list N) (pos : nat) (b : N) : list N :=
  alter (fun a => N.lxor a (N.shiftl b (8 * N.of_nat (pos mod 8))))
        (pos / 8)%nat st.

Definition rate : nat := 136.

Definition finish (st : list N) (pos : nat) : list N :=
  keccak_f (xor_byte (xor_byte st pos 0x01%N) (rate - 1) 0x80%N).

Fixpoint absorb (st : list N) (pos : nat) (msg : list byte) : list N :=
  match msg with
  | [] => finish st pos
  | b :: rest =>
      let st' := xor_byte st pos (Byte.to_N b) in
      if Nat.eqb (S pos) rate then absorb (keccak_f st') 0 rest
      else absorb st' (S pos) rest
  end.

Definition byte_of_N (n : N) : byte :=
  match Byte.of_N (n mod 256) with
  | Some b => b
  | None => x00
  end.

Definition lane_bytes (a : N) : list byte :=
  map (fun k => byte_of_N (N.shiftr a (8 * N.of_nat k))) (seq 0 8).

Definition squeeze (st : list N) : list byte :=
  flat_map lane_bytes (firstn 4 st).

Definition keccak256 (msg : list byte) : list byte :=
  squeeze (absorb (repeat 0%N 25) 0 msg).

End Keccak.

(** ** Hexadecimal encoding of bytes *)

Definition hex_digit (n : N) : ascii :=
  match n with
  | 0 => "0" | 1 => "1" | 2 => "2" | 3 => "3" | 4 => "4"
  | 5 => "5" | 6 => "6" | 7 => "7" | 8 => "8" | 9 => "9"
  | 10 => "a" | 11 => "b" | 12 => "c" | 13 => "d" | 14 => "e"
  | _ => "f"
  end%N%char.

(** [bytes.hex()]: two lowercase digits per byte, no prefix.
    ([HexBytes.hex] of hexbytes 1.x, the version that goes with the
    [eth_typing] ABI types imported by the sources, is [bytes.hex].) *)
Fixpoint hex (bs : list byte) : string :=
  match bs with
  | [] => ""
  | b :: rest =>
      String (hex_digit (Byte.to_N b / 16))
        (String (hex_digit (Byte.to_N b mod 16)) (hex rest))
  end.

(** [str.encode("utf-8")] on the byte-string model. *)
Definition encode (s : string) : list byte := list_byte_of_string s.

Definition keccak_text (s : string) : list byte := Keccak.keccak256 (encode s).

(** ** Python results

    A call either returns a value or raises; the exception classes are
    the ones the modelled code can raise. *)

Inductive PyError : Type :=
  | KeyError (key : string)
  | TypeError
  | ValueError
  | OverflowError
  | AttributeError
  | AssertionError
  | ValidationError
  | OSError (path : string)
  | ContractLogicError (name : string).

Inductive result (A : Type) : Type :=
  | Ok (a : A)
  | Err (e : PyError).
Arguments Ok {A} a.
Arguments Err {A} e.

Definition bind {A B : Type} (r : result A) (k : A -> result B) : result B :=
  match r with
  | Ok a => k a
  | Err e => Err e
  end.

Notation "x <- r ;; k" := (bind r (fun x => k))
  (at level 100, r at next level, right associativity,
   format "'[v' x  <-  r  ;;  '/' k ']'").

Definition is_ok {A : Type} (r : result A) : bool :=
  match r with Ok _ => true | Err _ => false end.

(** [d[key]] on an optional key of a typed dict. *)
Definition getitem {A : Type} (key : string) (field : option A) : result A :=
  match field with
  | Some a => Ok a
  | None => Err (KeyError key)
  end.

(** [assert key in d]. *)
Definition assert_in {A : Type} (field : option A) : result unit :=
  match field with
  | Some _ => Ok tt
  | None => Err AssertionError
  end.

(** ** Python string primitives *)

(** [s.removeprefix(p)]. *)
Definition removeprefix (p s : string) : string :=
  if String.prefix p s
  then substring (String.length p) (String.length s - String.length p) s
  else s.

(** [s[:n]]. *)
Fixpoint str_take (n : nat) (s : string) : string :=
  match n, s with
  | S n', String c rest => String c (str_take n' rest)
  | _, _ => ""
  end.

(** [sep.join(parts)]. *)
Fixpoint join (sep : string) (parts : list string) : string :=
  match parts with
  | [] => ""
  | [p] => p
  | p :: rest => p +:+ sep +:+ join sep rest
  end.

Definition is_hex_char (c : ascii) : bool :=
  let n := N_of_ascii c in
  ((48 <=? n) && (n <=? 57) || (97 <=? n) && (n <=? 102)
   || (65 <=? n) && (n <=? 70))%N.

Definition hex_value (c : ascii) : N :=
  let n := N_of_ascii c in
  if ((48 <=? n) && (n <=? 57))%N then n - 48
  else if ((97 <=? n) && (n <=? 102))%N then n - 87
  else n - 55.

Definition lower_char (c : ascii) : ascii :=
  let n := N_of_ascii c in
  if ((65 <=? n) && (n <=? 90))%N then ascii_of_N (n + 32) else c.

Definition upper_char (c : ascii) : ascii :=
  let n := N_of_ascii c in
  if ((97 <=? n) && (n <=? 122))%N then ascii_of_N (n - 32) else c.

Fixpoint str_map (f : ascii -> ascii) (s : string) : string :=
  match s with
  | "" => ""
  | String c rest => String (f c) (str_map f rest)
  end.

Fixpoint str_forallb (p : ascii -> bool) (s : string) : bool :=
  match s with
  | "" => true
  | String c rest => p c && str_forallb p rest
  end.

Definition lower : string -> string := str_map lower_char.

(** ** EIP-55 checksummed addresses ([eth_utils.address]) *)

Definition remove_0x_prefix (s : string) : string :=
  if String.prefix "0x" s || String.prefix "0X" s
  then substring 2 (String.length s - 2) s
  else s.

(** [is_hex_address]: an optional [0x] prefix and 40 hex digits. *)
Definition is_hex_address (s : string) : bool :=
  let body := remove_0x_prefix s in
  Nat.eqb (String.length body) 40 && str_forallb is_hex_char body.

(** The character-wise choice of [to_checksum_address]: digit [i] of
    the address is upper-cased when digit [i] of the hash is above 7. *)
Fixpoint checksum_chars (addr hash : string) : string :=
  match addr, hash with
  | String a addr', String h hash' =>
      String (if (7 <? hex_value h)%N then upper_char a else a)
             (checksum_chars addr' hash')
  | _, _ => ""
  end.

Definition to_checksum_address (value : string) : result string :=
  if is_hex_address value then
    let norm := lower (remove_0x_prefix value) in
    Ok ("0x" +:+ checksum_chars norm (hex (keccak_text norm)))
  else Err ValueError.

(** [is_checksum_address]. *)
Definition is_checksum_address (value : string) : bool :=
  match to_checksum_address value with
  | Ok c => String.eqb value c
  | Err _ => false
  end.

(** ** configuration/types.py *)

(** [str.removeprefix("0x")]. *)
Definition un_prefix_0x (to_unprefixed : string) : string :=
  removeprefix "0x" to_unprefixed.

(** An ABI parameter ([eth_typing.ABIComponent]): its [name], its
    [type] string and, for tuple types, the optional [components]
    key. *)
Inductive ABIComponent : Type :=
  mkABIComponent {
    comp_name : string;
    comp_type : string;
    comp_components : option (list ABIComponent)
  }.

(** An ABI entry ([eth_typing.ABIElement]); [ABIEvent] and
    [ABIFunction] are entries whose [type] is ["event"] and
    ["function"].  Every key the code tests for presence is optional. *)
Record ABIElement : Type :=
  mkABIElement {
    el_type : option string;
    el_name : option string;
    el_inputs : option (list ABIComponent)
  }.

(** The inner [for index2, tuple_component in enumerate(...)] loop of
    [event_signature]; [params] is the accumulator. *)
Fixpoint components_loop (index2 : nat) (components : list ABIComponent)
    (params : string) : string :=
  match components with
  | [] => params
  | tuple_component :: rest =>
      let params := if Nat.ltb 0 index2 then params +:+ "," else params in
      let params := params +:+ comp_type tuple_component in
      components_loop (S index2) rest params
  end.

(** The outer [for index, input in enumerate(event_abi["inputs"])]
    loop. *)
Fixpoint inputs_loop (index : nat) (inputs : list ABIComponent)
    (params : string) : result string :=
  match inputs with
  | [] => Ok params
  | input :: rest =>
      let params := if Nat.ltb 0 index then params +:+ "," else params in
      if String.eqb (comp_type input) "tuple[]" then
        let params := params +:+ "(" in
        components <- getitem "components" (comp_components input) ;;
        let params := components_loop 0 components params in
        inputs_loop (S index) rest (params +:+ ")[]")
      else if String.eqb (comp_type input) "tuple" then
        let params := params +:+ "(" in
        components <- getitem "components" (comp_components input) ;;
        let params := components_loop 0 components params in
        inputs_loop (S index) rest (params +:+ ")")
      else
        inputs_loop (S index) rest (params +:+ comp_type input)
  end.

(** The text that [event_signature] hashes. *)
Definition event_canonical (event_abi : ABIElement) : result string :=
  inputs <- getitem "inputs" (el_inputs event_abi) ;;
  params <- inputs_loop 0 inputs "" ;;
  name <- getitem "name" (el_name event_abi) ;;
  Ok (name +:+ "(" +:+ params +:+ ")").

Definition event_signature (event_abi : ABIElement) : result string :=
  text <- event_canonical event_abi ;;
  Ok (un_prefix_0x (hex (keccak_text text))).

Definition function_signature (function_name : string) : string :=
  str_take 8 (hex (keccak_text function_name)).

(** The classes of the module.  The back-reference of an event or a
    function to its owning contract is kept as the contract's name;
    [init] is the attrs constructor followed by
    [__attrs_post_init__]. *)

Module Event.

Record t : Type :=
  mk {
    name : string;
    abi : ABIElement;
    contract : string;
    signature : string
  }.

Definition init (name : string) (abi : ABIElement) (contract : string)
  : result t :=
  signature <- event_signature abi ;;
  Ok (mk name abi contract signature).

End Event.

Module Function.

Record t : Type :=
  mk {
    name : string;
    abi : ABIElement;
    contract : string;
    signature : string
  }.

(** [to_full_name], on the fields it reads. *)
Definition to_full_name (name : string) (abi : ABIElement) : result string :=
  _ <- assert_in (el_inputs abi) ;;
  abi_inputs <- getitem "inputs" (el_inputs abi) ;;
  let inputs := map comp_type abi_inputs in
  Ok (name +:+ "(" +:+ join "," inputs +:+ ")").

Definition init (name : string) (abi : ABIElement) (contract : string)
  : result t :=
  full_name <- to_full_name name abi ;;
  Ok (mk name abi contract (function_signature full_name)).

End Function.

Module Contract.

Record t : Type :=
  mk {
    name : string;
    address : string;
    abi : list ABIElement;
    events : gmap string Event.t;
    functions : gmap string Function.t
  }.

(** The loop of [__attrs_post_init__] over the ABI entries. *)
Fixpoint entries_loop (contract : string) (abi : list ABIElement)
    (events : gmap string Event.t) (functions : gmap string Function.t)
  : result (gmap string Event.t * gmap string Function.t) :=
  match abi with
  | [] => Ok (events, functions)
  | entry :: rest =>
      _ <- assert_in (el_type entry) ;;
      type <- getitem "type" (el_type entry) ;;
      if String.eqb type "event" then
        _ <- assert_in (el_name entry) ;;
        name <- getitem "name" (el_name entry) ;;
        event <- Event.init name entry contract ;;
        entries_loop contract rest (<[name := event]> events) functions
      else if String.eqb type "function" then
        _ <- assert_in (el_name entry) ;;
        name <- getitem "name" (el_name entry) ;;
        function <- Function.init name entry contract ;;
        entries_loop contract rest events (<[name := function]> functions)
      else
        entries_loop contract rest events functions
  end.

(** [Contract(name, address, file_location)]: the converter
    [abi_from_file_location], which reads the artifact file, loads the
    ABI, then [__attrs_post_init__] fills the two tables. *)
Definition init
    (abi_from_file_location : string -> result (list ABIElement))
    (name address file_location : string) : result t :=
  abi <- abi_from_file_location file_location ;;
  tables <- entries_loop name abi ∅ ∅ ;;
  Ok (mk name address abi tables.1 tables.2).

End Contract.

Definition FLARE_CONTRACT_REGISTRY_ADDRESS : result string :=
  to_checksum_address "0xaD67FE66660Fb8dFE9d6b1b4240d8650e30F6019".

Module Contracts.

Record t : Type :=
  mk {
    VoterRegistry : Contract.t;
    FlareSystemsCalculator : Contract.t;
    FlareSystemsManager : Contract.t;
    Relay : Contract.t;
    Submission : Contract.t;
    FdcHub : Contract.t;
    FastUpdater : Contract.t
  }.

(** [cls.__attrs_attrs__], in declaration order. *)
Definition attr_names : list string :=
  [ "VoterRegistry"; "FlareSystemsCalculator"; "FlareSystemsManager";
    "Relay"; "Submission"; "FdcHub"; "FastUpdater" ].

(** [cls] called on the keyword arguments: a missing one is a
    [TypeError]. *)
Definition kwarg (kwargs : gmap string Contract.t) (name : string)
  : result Contract.t :=
  match kwargs !! name with
  | Some c => Ok c
  | None => Err TypeError
  end.

Definition init (kwargs : gmap string Contract.t) : result t :=
  c1 <- kwarg kwargs "VoterRegistry" ;;
  c2 <- kwarg kwargs "FlareSystemsCalculator" ;;
  c3 <- kwarg kwargs "FlareSystemsManager" ;;
  c4 <- kwarg kwargs "Relay" ;;
  c5 <- kwarg kwargs "Submission" ;;
  c6 <- kwarg kwargs "FdcHub" ;;
  c7 <- kwarg kwargs "FastUpdater" ;;
  Ok (mk c1 c2 c3 c4 c5 c6 c7).

Section Environment.

(** The two collaborators of [get_contracts]: the artifact files read
    by [abi_from_file_location] and the on-chain registry answering
    [getContractAddressByName(name).call()]. *)
Variable abi_from_file_location : string -> result (list ABIElement).
Variable getContractAddressByName : string -> result string.

(** The body of the loop of [get_contracts]: the registry call, the
    checksum conversion and the construction of the contract. *)
Definition resolve (name : string) : result Contract.t :=
  raw <- getContractAddressByName name ;;
  address <- to_checksum_address raw ;;
  Contract.init abi_from_file_location name address
    ("configuration/artifacts/" +:+ name +:+ ".json").

(** The [for name in attr_names] loop of [get_contracts]. *)
Fixpoint names_loop (names : list string) (kwargs : gmap string Contract.t)
  : result (gmap string Contract.t) :=
  match names with
  | [] => Ok kwargs
  | name :: rest =>
      contract <- resolve name ;;
      names_loop rest (<[name := contract]> kwargs)
  end.

Definition get_contracts : result t :=
  kwargs <- names_loop attr_names ∅ ;;
  init kwargs.

End Environment.

End Contracts.

(** ** Python values and conversions

    What a decoded log carries in [args]: [dict[str, Any]]. *)

Inductive PyVal : Type :=
  | PNone
  | PBool (b : bool)
  | PInt (n : Z)
  | PStr (s : string)
  | PBytes (bs : list byte)
  | PList (items : list PyVal).

(** [d[key]] on a dict. *)
Definition lookup_key (d : gmap string PyVal) (key : string) : result PyVal :=
  match d !! key with
  | Some v => Ok v
  | None => Err (KeyError key)
  end.

Definition is_digit (c : ascii) : bool :=
  let n := N_of_ascii c in ((48 <=? n) && (n <=? 57))%N.

(** [Py_ISSPACE], the whitespace of [bytes]. *)
Definition is_space (c : ascii) : bool :=
  let n := N_of_ascii c in ((n =? 32) || (9 <=? n) && (n <=? 13))%N.

(** *** Characters of a text

    A [str] is a sequence of code points.  In the UTF-8 encoding a
    character is one leading byte followed by its continuation bytes,
    the bytes [0x80] to [0xBF]. *)

Definition is_continuation (c : ascii) : bool :=
  let n := N_of_ascii c in ((128 <=? n) && (n <? 192))%N.

Fixpoint split_characters (current : string) (s : string) : list string :=
  match s with
  | "" => match current with "" => [] | _ => [current] end
  | String c rest =>
      if is_continuation c
      then split_characters (current +:+ String c "") rest
      else
        match current with
        | "" => split_characters (String c "") rest
        | _ => current :: split_characters (String c "") rest
        end
  end.

(** The characters of a text, each as the text of its own bytes. *)
Definition characters (s : string) : list string := split_characters "" s.

Definition leading_bits (n : N) : N :=
  (if n <? 128 then n
   else if n <? 224 then n - 192
   else if n <? 240 then n - 224
   else n - 240)%N.

Fixpoint continuation_bits (acc : N) (s : string) : N :=
  match s with
  | "" => acc
  | String c rest => continuation_bits (64 * acc + (N_of_ascii c - 128))%N rest
  end.

(** [ord(character)]. *)
Definition code_point (character : string) : N :=
  match character with
  | "" => 0%N
  | String c rest => continuation_bits (leading_bits (N_of_ascii c)) rest
  end.

(** [Py_UNICODE_ISSPACE] on the code points from 127 on. *)
Definition is_whitespace_code_point (cp : N) : bool :=
  ((cp =? 0x85) || (cp =? 0xA0) || (cp =? 0x1680)
   || ((0x2000 <=? cp) && (cp <=? 0x200A))
   || (cp =? 0x2028) || (cp =? 0x2029) || (cp =? 0x202F)
   || (cp =? 0x205F) || (cp =? 0x3000))%N.

(** The code points of the digit zero of the decimal digit sets other
    than ASCII (Unicode 14.0, the tables of CPython 3.11); the digits
    of a set follow its zero in order. *)
Definition decimal_zeros : list N :=
  [ 0x660; 0x6F0; 0x7C0; 0x966; 0x9E6; 0xA66; 0xAE6; 0xB66; 0xBE6;
    0xC66; 0xCE6; 0xD66; 0xDE6; 0xE50; 0xED0; 0xF20; 0x1040; 0x1090;
    0x17E0; 0x1810; 0x1946; 0x19D0; 0x1A80; 0x1A90; 0x1B50; 0x1BB0;
    0x1C40; 0x1C50; 0xA620; 0xA8D0; 0xA900; 0xA9D0; 0xA9F0; 0xAA50;
    0xABF0; 0xFF10; 0x104A0; 0x10D30; 0x11066; 0x110F0; 0x11136;
    0x111D0; 0x112F0; 0x11450; 0x114D0; 0x11650; 0x116C0; 0x11730;
    0x118E0; 0x11950; 0x11C50; 0x11D50; 0x11DA0; 0x16A60; 0x16AC0;
    0x16B50; 0x1D7CE; 0x1D7D8; 0x1D7E2; 0x1D7EC; 0x1D7F6; 0x1E140;
    0x1E2F0; 0x1E950; 0x1FBF0 ]%N.

(** [Py_UNICODE_TODECIMAL] on the code points from 127 on. *)
Definition to_decimal (cp : N) : option N :=
  match List.find (fun zero => (zero <=? cp) && (cp <? zero + 10))%N
          decimal_zeros with
  | Some zero => Some (cp - zero)%N
  | None => None
  end.

(** What [int] makes of a [str] before it parses it: a code point
    below 127 is kept, whitespace becomes a space, a decimal digit
    its ASCII digit, and the text ends in [?] at the first character
    that is none of these. *)
Fixpoint transform_decimal_and_space_to_ascii (text : list string)
  : string :=
  match text with
  | [] => ""
  | character :: rest =>
      let cp := code_point character in
      if (cp <? 127)%N
      then String (ascii_of_N cp) (transform_decimal_and_space_to_ascii rest)
      else if is_whitespace_code_point cp
      then String " " (transform_decimal_and_space_to_ascii rest)
      else
        match to_decimal cp with
        | Some digit =>
            String (ascii_of_N (48 + digit))
              (transform_decimal_and_space_to_ascii rest)
        | None => "?"
        end
  end.

Fixpoint lstrip (space : ascii -> bool) (s : string) : string :=
  match s with
  | "" => ""
  | String c rest => if space c then lstrip space rest else s
  end.

(** The digits of a decimal literal: single underscores may separate
    digits and only whitespace may follow.  Returns the value and the
    number of digits. *)
Fixpoint int_digits (s : string) (acc : Z) (count : nat)
    (after_digit : bool) : option (Z * nat) :=
  match s with
  | "" => if after_digit then Some (acc, count) else None
  | String c rest =>
      if is_digit c then
        int_digits rest (10 * acc + Z.of_N (N_of_ascii c - 48))
                   (S count) true
      else if Ascii.eqb c "_" then
        if after_digit then int_digits rest acc count false else None
      else if is_space c then
        if after_digit && str_forallb is_space rest then Some (acc, count)
        else None
      else None
  end.

(** [sys.get_int_max_str_digits()], the default limit on the digits
    of a parsed literal. *)
Definition int_max_str_digits : nat := 4300.

(** [PyLong_FromString] in base 10: what [int] makes of the bytes of
    a literal. *)
Definition int_of_text (text : string) : result Z :=
  let s := lstrip is_space text in
  let '(sign, digits) :=
    match s with
    | String "-" rest => ((-1)%Z, rest)
    | String "+" rest => (1%Z, rest)
    | _ => (1%Z, s)
    end in
  match int_digits digits 0 0 false with
  | Some (v, count) =>
      if Nat.leb count int_max_str_digits then Ok (sign * v)%Z
      else Err ValueError
  | None => Err ValueError
  end.

(** [int(v)]. *)
Definition py_int (v : PyVal) : result Z :=
  match v with
  | PInt n => Ok n
  | PBool b => Ok (Z.b2z b)
  | PStr s =>
      int_of_text (transform_decimal_and_space_to_ascii (characters s))
  | PBytes bs => int_of_text (string_of_list_byte bs)
  | PNone | PList _ => Err TypeError
  end.

(** [v.hex()]: the values of [args] that have the method are the
    [bytes] ones. *)
Definition py_hex (v : PyVal) : result string :=
  match v with
  | PBytes bs => Ok (hex bs)
  | _ => Err AttributeError
  end.

(** [for v in value]. *)
Definition py_iter (value : PyVal) : result (list PyVal) :=
  match value with
  | PList items => Ok items
  | PBytes bs => Ok (map (fun b => PInt (Z.of_N (Byte.to_N b))) bs)
  | PStr s => Ok (map PStr (characters s))
  | PNone | PBool _ | PInt _ => Err TypeError
  end.

(** A list comprehension [[f(v) for v in items]]. *)
Fixpoint comprehension {A B : Type} (f : A -> result B) (items : list A)
  : result (list B) :=
  match items with
  | [] => Ok []
  | v :: rest =>
      b <- f v ;;
      bs <- comprehension f rest ;;
      Ok (b :: bs)
  end.

(** [l[lo:hi]] for non-negative bounds. *)
Definition slice {A : Type} (lo hi : nat) (l : list A) : list A :=
  firstn (hi - lo) (skipn lo l).

(** [value[lo:hi]]. *)
Definition py_slice (lo hi : nat) (value : PyVal) : result PyVal :=
  match value with
  | PBytes bs => Ok (PBytes (slice lo hi bs))
  | PList items => Ok (PList (slice lo hi items))
  | PStr s => Ok (PStr (String.concat "" (slice lo hi (characters s))))
  | PNone | PBool _ | PInt _ => Err TypeError
  end.

(** The [length] big-endian base-256 digits of [n]. *)
Fixpoint big_endian (length : nat) (n : Z) : list byte :=
  match length with
  | O => []
  | S k => big_endian k (n / 256) ++ [Keccak.byte_of_N (Z.to_N (n mod 256))]
  end.

(** [n.to_bytes(length, "big")]. *)
Definition to_bytes (n : Z) (length : nat) : result (list byte) :=
  if ((0 <=? n) && (n <? 256 ^ Z.of_nat length))%Z
  then Ok (big_endian length n)
  else Err OverflowError.

(** [bytes.fromhex(s)]: pairs of hex digits, whitespace allowed
    between the pairs. *)
Fixpoint fromhex (s : string) : result (list byte) :=
  match s with
  | "" => Ok []
  | String c rest =>
      if is_space c then fromhex rest
      else
        match rest with
        | "" => Err ValueError
        | String c' rest' =>
            if is_hex_char c && is_hex_char c' then
              bs <- fromhex rest' ;;
              Ok (Keccak.byte_of_N (16 * hex_value c + hex_value c') :: bs)
            else Err ValueError
        end
  end.

(** ** EIP-191 messages ([eth_account.messages]) *)

Record SignableMessage : Type :=
  mkSignableMessage {
    version : list byte;
    header : list byte;
    body : list byte
  }.

(** [str(n)] for a length. *)
Definition str_of_nat (n : nat) : string :=
  NilZero.string_of_uint (Nat.to_uint n).

(** [encode_defunct(primitive)]. *)
Definition encode_defunct (primitive : list byte) : SignableMessage :=
  mkSignableMessage
    (encode "E")
    (encode "thereum Signed Message:" ++ [x0a]
       ++ encode (str_of_nat (length primitive)))
    primitive.

(** [_hash_eip191_message]. *)
Definition _hash_eip191_message (m : SignableMessage) : result (list byte) :=
  if Nat.eqb (length (version m)) 1 then
    Ok (Keccak.keccak256 ([x19] ++ version m ++ header m ++ body m))
  else Err ValidationError.

(** ** observer/types.py *)

Module ProtocolMessageRelayed.

Record t : Type :=
  mk {
    protocol_id : Z;
    voting_round_id : Z;
    is_secure_random : bool;
    merkle_root : string;
    timestamp : Z
  }.

(** The bytes [to_message] hashes; the four operands are evaluated
    left to right. *)
Definition message_bytes (self : t) : result (list byte) :=
  b1 <- to_bytes (protocol_id self) 1 ;;
  b2 <- to_bytes (voting_round_id self) 4 ;;
  b3 <- to_bytes (Z.b2z (is_secure_random self)) 1 ;;
  b4 <- fromhex (merkle_root self) ;;
  Ok (b1 ++ b2 ++ b3 ++ b4).

Definition to_message (self : t) : result (list byte) :=
  message <- message_bytes self ;;
  _hash_eip191_message (encode_defunct (Keccak.keccak256 message)).

End ProtocolMessageRelayed.

(** [web3.types.EventData], on the keys the decoders read. *)
Record EventData : Type :=
  mkEventData {
    args : gmap string PyVal;
    address : string;
    blockNumber : Z;
    logIndex : Z;
    transactionHash : list byte
  }.

(** attrs does not validate field types: a field that [from_dict]
    fills with a raw [args] value holds whatever the log carried. *)

Module VoterRegistered.

Record t : Type :=
  mk {
    reward_epoch_id : Z;
    voter : PyVal;
    signing_policy_address : PyVal;
    submit_address : PyVal;
    submit_signatures_address : PyVal;
    public_key : string;
    registration_weight : Z
  }.

Definition from_dict (d : gmap string PyVal) : result t :=
  v1 <- lookup_key d "rewardEpochId" ;;
  reward_epoch_id <- py_int v1 ;;
  voter <- lookup_key d "voter" ;;
  signing_policy_address <- lookup_key d "signingPolicyAddress" ;;
  submit_address <- lookup_key d "submitAddress" ;;
  submit_signatures_address <- lookup_key d "submitSignaturesAddress" ;;
  v2 <- lookup_key d "publicKeyPart1" ;;
  part1 <- py_hex v2 ;;
  v3 <- lookup_key d "publicKeyPart2" ;;
  part2 <- py_hex v3 ;;
  let public_key := part1 +:+ part2 in
  v4 <- lookup_key d "registrationWeight" ;;
  registration_weight <- py_int v4 ;;
  Ok (mk reward_epoch_id voter signing_policy_address submit_address
        submit_signatures_address public_key registration_weight).

End VoterRegistered.

Module AttestationRequest.

Section Collaborators.

(** Classes of [py_flare_common] that the decoder only passes around:
    [VotingEpoch], supplied by the caller and stored as it is, and
    [AttestationType] and [AttestationSource], built from a slice of
    the payload by their constructors. *)
Variable VotingEpoch : Type.
Variable AttestationType : Type.
Variable AttestationSource : Type.
Variable AttestationType_init : PyVal -> result AttestationType.
Variable AttestationSource_init : PyVal -> result AttestationSource.

Record t : Type :=
  mk {
    log_index : Z;
    block : Z;
    voting_epoch_id : VotingEpoch;
    data : PyVal
  }.

Definition attestation_type (self : t) : result AttestationType :=
  prefix <- py_slice 0 32 (data self) ;;
  AttestationType_init prefix.

Definition source_id (self : t) : result AttestationSource :=
  middle <- py_slice 32 64 (data self) ;;
  AttestationSource_init middle.

Definition from_dict (data : EventData) (voting_epoch : VotingEpoch)
  : result t :=
  let d := args data in
  payload <- lookup_key d "data" ;;
  Ok (mk (logIndex data) (blockNumber data) voting_epoch payload).

End Collaborators.

Arguments log_index {VotingEpoch} _.
Arguments block {VotingEpoch} _.
Arguments voting_epoch_id {VotingEpoch} _.
Arguments data {VotingEpoch} _.
Arguments attestation_type {VotingEpoch AttestationType} _ _.
Arguments source_id {VotingEpoch AttestationSource} _ _.
Arguments from_dict {VotingEpoch} _ _.

End AttestationRequest.

Module FastUpdateFeedsSubmitted.

Record t : Type :=
  mk {
    voting_round_id : Z;
    emitter_address : string;
    transaction_hash : list byte;
    signing_policy_address : PyVal
  }.

Definition from_dict (data : EventData) : result t :=
  let d := args data in
  let address := address data in
  let tx_hash := transactionHash data in
  v <- lookup_key d "votingRoundId" ;;
  voting_round_id <- py_int v ;;
  signing_policy_address <- lookup_key d "signingPolicyAddress" ;;
  Ok (mk voting_round_id address tx_hash signing_policy_address).

End FastUpdateFeedsSubmitted.

Module FastUpdateFeeds.

Record t : Type :=
  mk {
    voting_round_id : Z;
    emitter_address : string;
    transaction_hash : list byte;
    feeds : list Z;
    decimals : list Z
  }.

Definition from_dict (data : EventData) : result t :=
  let d := args data in
  let address := address data in
  let tx_hash := transactionHash data in
  v <- lookup_key d "votingEpochId" ;;
  voting_round_id <- py_int v ;;
  raw_feeds <- lookup_key d "feeds" ;;
  feed_items <- py_iter raw_feeds ;;
  feeds <- comprehension py_int feed_items ;;
  raw_decimals <- lookup_key d "decimals" ;;
  decimal_items <- py_iter raw_decimals ;;
  decimals <- comprehension py_int decimal_items ;;
  Ok (mk voting_round_id address tx_hash feeds decimals).

End FastUpdateFeeds.
(** ** Vocabulary of the specification

    Predicates and reference functions used to state the properties;
    none of them is called by the embedded code. *)

(** A digit of [bytes.hex()] output. *)
Definition is_lower_hex (c : ascii) : bool :=
  let n := N_of_ascii c in
  ((48 <=? n) && (n <=? 57) || (97 <=? n) && (n <=? 102))%N.

(** The string has no occurrence of the character. *)
Definition free_of (c : ascii) (s : string) : bool :=
  str_forallb (fun x => negb (Ascii.eqb x c)) s.

(** Hexadecimal text of exactly [n] bytes: [2 * n] hex digits. *)
Definition is_hex_string (n : nat) (s : string) : bool :=
  Nat.eqb (String.length s) (2 * n) && str_forallb is_hex_char s.

(** [int.from_bytes(bs, "big")]. *)
Definition from_big_endian (bs : list byte) : Z :=
  fold_left (fun acc b => (256 * acc + Z.of_N (Byte.to_N b))%Z) bs 0%Z.

(** The EIP-191 personal-sign digest of a payload: keccak-256 of
    [0x19], the text [Ethereum Signed Message:], a line feed, the
    decimal length of the payload, and the payload. *)
Definition personal_sign_digest (payload : list byte) : list byte :=
  Keccak.keccak256
    ([x19] ++ encode "Ethereum Signed Message:" ++ [x0a]
       ++ encode (str_of_nat (length payload)) ++ payload).

Definition ZERO_ADDRESS : string :=
  "0x0000000000000000000000000000000000000000".

(** A name followed by the parenthesised, comma-joined type list. *)
Definition signature_text (name : string) (types : list string) : string :=
  name +:+ "(" +:+ join "," types +:+ ")".

(** The ERC-20 [transfer] function, as an ABI entry. *)
Definition transfer_abi : ABIElement :=
  mkABIElement (Some "function") (Some "transfer")
    (Some [ mkABIComponent "to" "address" None;
            mkABIComponent "amount" "uint256" None ]).

(** The text that follows the first element of a comma-joined list. *)
Definition join_rest (parts : list string) : string :=
  match parts with
  | [] => ""
  | _ => "," +:+ join "," parts
  end.

Definition is_tuple_type (type : string) : bool :=
  String.eqb type "tuple[]" || String.eqb type "tuple".

(** What [event_signature] reads of a parameter: its type and, for
    the two tuple types, the types of its components. *)
Definition type_shape (input : ABIComponent) : string * list string :=
  (comp_type input,
   if is_tuple_type (comp_type input)
   then map comp_type (default [] (comp_components input))
   else []).

(** The text [event_signature] emits for a parameter of that shape. *)
Definition shape_text (shape : string * list string) : string :=
  if String.eqb shape.1 "tuple[]" then "(" +:+ join "," shape.2 +:+ ")[]"
  else if String.eqb shape.1 "tuple" then "(" +:+ join "," shape.2 +:+ ")"
  else shape.1.

(** A tuple parameter carries its [components] key. *)
Definition has_components (input : ABIComponent) : bool :=
  if is_tuple_type (comp_type input)
  then bool_decide (is_Some (comp_components input))
  else true.

(** A type name: not empty, without comma or parenthesis. *)
Definition plain (type : string) : bool :=
  negb (String.eqb type "") && free_of "," type
  && free_of "(" type && free_of ")" type.

(** A well-formed event parameter: a plain type name, or a tuple type
    with its components, each named by a plain type name. *)
Definition valid_input (input : ABIComponent) : bool :=
  if is_tuple_type (comp_type input) then
    match comp_components input with
    | Some components => forallb (fun c => plain (comp_type c)) components
    | None => false
    end
  else plain (comp_type input).

(** The canonical type of a parameter as section 4.1 of the
    specification words it: a tuple contributes the parenthesised,
    comma-joined canonical types of its components, a tuple array the
    same followed by [[]], at any depth. *)
Fixpoint spec_canonical_type (input : ABIComponent) : string :=
  match input with
  | mkABIComponent _ type components =>
      let inner :=
        match components with
        | Some cs => join "," (map spec_canonical_type cs)
        | None => ""
        end in
      let group := "(" +:+ inner +:+ ")" in
      if String.eqb type "tuple[]" then group +:+ "[]"
      else if String.eqb type "tuple" then group
      else type
  end.

(** A parameter none of whose components is itself a tuple. *)
Definition flat_input (input : ABIComponent) : bool :=
  forallb (fun c => negb (is_tuple_type (comp_type c)))
          (default [] (comp_components input)).

Definition event_entry (name : string) (inputs : list ABIComponent)
  : ABIElement :=
  mkABIElement (Some "event") (Some name) (Some inputs).

(** An event with a tuple array whose first component is a tuple. *)
Definition nested_inputs : list ABIComponent :=
  [ mkABIComponent "items" "tuple[]"
      (Some [ mkABIComponent "pair" "tuple"
                (Some [ mkABIComponent "amount" "uint256" None;
                        mkABIComponent "owner" "address" None ]);
              mkABIComponent "flag" "bool" None ]) ].

(** The ERC-20 [Transfer] event parameters, and the same parameters
    with the first two exchanged. *)
Definition transfer_inputs : list ABIComponent :=
  [ mkABIComponent "from" "address" None;
    mkABIComponent "to" "address" None;
    mkABIComponent "value" "uint256" None ].

Definition transfer_inputs_reordered : list ABIComponent :=
  [ mkABIComponent "to" "address" None;
    mkABIComponent "from" "address" None;
    mkABIComponent "value" "uint256" None ].

(** Two parameters of different types, in both orders. *)
Definition deposit_inputs : list ABIComponent :=
  [ mkABIComponent "owner" "address" None;
    mkABIComponent "amount" "uint256" None ].

Definition deposit_inputs_reordered : list ABIComponent :=
  [ mkABIComponent "amount" "uint256" None;
    mkABIComponent "owner" "address" None ].

(** A log whose payload is 10 bytes long. *)
Definition short_payload : list byte :=
  [x01; x02; x03; x04; x05; x06; x07; x08; x09; x0a].

Definition short_log : EventData :=
  mkEventData
    (<["data" := PBytes short_payload]> (<["fee" := PInt 1]> ∅))
    "0xaD67FE66660Fb8dFE9d6b1b4240d8650e30F6019" 100 3 [xab; xcd].

(** A log whose payload is 65 bytes long: 32 bytes [0x11], 32 bytes
    [0x22] and one byte more. *)
Definition long_payload : list byte :=
  repeat x11 32 ++ repeat x22 32 ++ [x33].

Definition long_log : EventData :=
  mkEventData
    (<["data" := PBytes long_payload]> (<["fee" := PInt 1]> ∅))
    "0xaD67FE66660Fb8dFE9d6b1b4240d8650e30F6019" 100 3 [xab; xcd].

(** What the accessors of an attestation request rely on: a
    constructor that accepts nothing but a bytes value of 32 bytes,
    and raises on every other argument. *)
Definition accepts_only_32_bytes {A : Type} (init : PyVal -> result A)
  : Prop :=
  forall v a, init v = Ok a -> exists bs, v = PBytes bs /\ length bs = 32.

(** A constructor of that kind: it keeps a 32-byte value and raises
    [ValueError] on a bytes value of any other length. *)
Definition checked_bytes32 (v : PyVal) : result (list byte) :=
  match v with
  | PBytes bs => if Nat.eqb (length bs) 32 then Ok bs else Err ValueError
  | _ => Err TypeError
  end.

(** A registry that answers the zero address for [Relay] and a
    deployed address for every other name; every artifact holds an
    empty ABI. *)
Definition mock_registry (name : string) : result string :=
  if String.eqb name "Relay" then Ok ZERO_ADDRESS
  else Ok "0xad67fe66660fb8dfe9d6b1b4240d8650e30f6019".

Definition mock_artifacts (file_location : string)
  : result (list ABIElement) :=
  Ok [].

Definition artifact_location (name : string) : string :=
  "configuration/artifacts/" +:+ name +:+ ".json".

(** The merkle root of 32 zero bytes, and the message of section 8 of
    the specification. *)
Definition zero_root : string :=
  "0000000000000000000000000000000000000000000000000000000000000000".

Definition golden_message : ProtocolMessageRelayed.t :=
  ProtocolMessageRelayed.mk 200 123456 true zero_root 0.

(** The same message with a protocol id that does not fit one byte. *)
Definition oversized_message : ProtocolMessageRelayed.t :=
  ProtocolMessageRelayed.mk 256 123456 true zero_root 0.

(** The same message with an empty merkle root. *)
Definition rootless_message : ProtocolMessageRelayed.t :=
  ProtocolMessageRelayed.mk 200 123456 true "" 0.

(** A value in checksummed-address form. *)
Definition checksummed (value : PyVal) : bool :=
  match value with
  | PStr s => is_checksum_address s
  | _ => false
  end.

(** The [args] of a [VoterRegistered] log whose addresses are written
    in lowercase. *)
Definition lowercase_voter_args : gmap string PyVal :=
  <["rewardEpochId" := PInt 5]>
  (<["voter" := PStr "0xad67fe66660fb8dfe9d6b1b4240d8650e30f6019"]>
  (<["signingPolicyAddress"
     := PStr "0xad67fe66660fb8dfe9d6b1b4240d8650e30f6019"]>
  (<["submitAddress" := PStr "0xad67fe66660fb8dfe9d6b1b4240d8650e30f6019"]>
  (<["submitSignaturesAddress"
     := PStr "0xad67fe66660fb8dfe9d6b1b4240d8650e30f6019"]>
  (<["publicKeyPart1" := PBytes [x01; xab]]>
  (<["publicKeyPart2" := PBytes [xcd; x02]]>
  (<["registrationWeight" := PInt 1000]> ∅))))))).

(** [FastUpdateFeeds] logs: one keyed by [votingEpochId], as the
    decoder reads it, and one keyed by [votingRoundId]. *)
Definition feeds_args (round_key : string) : gmap string PyVal :=
  <[round_key := PInt 42]>
  (<["feeds" := PList [PInt 100; PInt 200]]>
  (<["decimals" := PList [PInt 2; PInt 3]]> ∅)).

Definition feeds_log (round_key : string) : EventData :=
  mkEventData (feeds_args round_key)
    "0xaD67FE66660Fb8dFE9d6b1b4240d8650e30F6019" 100 3 [xab; xcd].

(** ** configuration/types.py: configuration records *)

Module NotificationDiscord.

Record t : Type := mk { webhook_url : list string }.

End NotificationDiscord.

Module NotificationSlack.

Record t : Type := mk { webhook_url : list string }.

End NotificationSlack.

Module TelegramBot.

Record t : Type := mk { bot_token : string; chat_id : string }.

End TelegramBot.

Module NotificationTelegram.

Record t : Type := mk { bot : list TelegramBot.t }.

End NotificationTelegram.

Module NotificationGeneric.

Record t : Type := mk { webhook_url : list string }.

End NotificationGeneric.

Module Notification.

Record t : Type :=
  mk {
    discord : NotificationDiscord.t;
    slack : NotificationSlack.t;
    telegram : NotificationTelegram.t;
    generic : NotificationGeneric.t
  }.

End Notification.

(** The four timing modules of [py_flare_common.fsp.epoch.timing]. *)
Inductive TimingModule : Type :=
  | coston
  | songbird
  | coston2
  | flare.

Module Epoch.

(** What a timing module exports and [Epoch] holds: the two epoch
    functions and the two factories of [py_flare_common]. *)
Record t (VotingEpochFn RewardEpochFn VotingEpochFactory
          RewardEpochFactory : Type) : Type :=
  mk {
    voting_epoch : VotingEpochFn;
    reward_epoch : RewardEpochFn;
    voting_epoch_factory : VotingEpochFactory;
    reward_epoch_factory : RewardEpochFactory
  }.

Arguments mk {_ _ _ _} _ _ _ _.
Arguments voting_epoch {_ _ _ _} _.
Arguments reward_epoch {_ _ _ _} _.
Arguments voting_epoch_factory {_ _ _ _} _.
Arguments reward_epoch_factory {_ _ _ _} _.

End Epoch.

Module Configuration.

Record t (Epoch : Type) : Type :=
  mk {
    identity_address : string;
    chain_id : Z;
    contracts : Contracts.t;
    rpc_url : string;
    p_chain_rpc_url : string;
    epoch : Epoch;
    notification : Notification.t;
    fee_threshold : Z
  }.

Arguments mk {_} _ _ _ _ _ _ _ _.

(** The attrs constructor, called with keyword arguments: every
    attribute is required, and a keyword that the call does not pass
    is a [TypeError]. *)
Definition init {Epoch : Type}
    (identity_address : option string) (chain_id : option Z)
    (contracts : option Contracts.t) (rpc_url : option string)
    (p_chain_rpc_url : option string) (epoch : option Epoch)
    (notification : option Notification.t) (fee_threshold : option Z)
  : result (t Epoch) :=
  match identity_address, chain_id, contracts, rpc_url,
        p_chain_rpc_url, epoch, notification, fee_threshold with
  | Some a, Some c, Some cs, Some r, Some p, Some e, Some n, Some f =>
      Ok (mk a c cs r p e n f)
  | _, _, _, _, _, _, _, _ => Err TypeError
  end.

End Configuration.

(** ** configuration/config.py *)

Module ChainId.

Definition COSTON : Z := 16.
Definition SONGBIRD : Z := 19.
Definition COSTON2 : Z := 114.
Definition FLARE : Z := 14.

Definition id_to_name (chain_id : Z) : result string :=
  if (chain_id =? COSTON)%Z then Ok "coston"
  else if (chain_id =? SONGBIRD)%Z then Ok "songbird"
  else if (chain_id =? COSTON2)%Z then Ok "coston2"
  else if (chain_id =? FLARE)%Z then Ok "flare"
  else Err ValueError.

Definition all : list Z := [COSTON; SONGBIRD; COSTON2; FLARE].

End ChainId.

(** What [config.py] raises: [ConfigError], told apart by its message,
    or an exception propagating from a call. *)
Inductive ConfigError : Type :=
  | RpcUrlNotSet
  | UnableToConnect (rpc_url : string)
  | UnknownChain (chain_id : Z)
  | IdentityAddressNotSet.

Inductive outcome (A : Type) : Type :=
  | Returned (a : A)
  | RaisedConfigError (e : ConfigError)
  | Raised (e : PyError).
Arguments Returned {A} a.
Arguments RaisedConfigError {A} e.
Arguments Raised {A} e.

(** A call whose exceptions propagate. *)
Definition propagate {A B : Type} (r : result A) (k : A -> outcome B)
  : outcome B :=
  match r with
  | Ok a => k a
  | Err e => Raised e
  end.

(** The [match chain_id] of [get_epoch]: the timing module of the
    chain. *)
Definition timing_module (chain_id : Z) : result TimingModule :=
  if (chain_id =? ChainId.COSTON)%Z then Ok coston
  else if (chain_id =? ChainId.SONGBIRD)%Z then Ok songbird
  else if (chain_id =? ChainId.COSTON2)%Z then Ok coston2
  else if (chain_id =? ChainId.FLARE)%Z then Ok flare
  else Err ValueError.

(** [s.split(sep)] for a one-character separator. *)
Fixpoint split (sep : ascii) (s : string) : list string :=
  match s with
  | "" => [""]
  | String c rest =>
      if Ascii.eqb c sep then "" :: split sep rest
      else
        match split sep rest with
        | part :: parts => String c part :: parts
        | [] => [String c ""]
        end
  end.

(** The pattern of [get_notification_config] for a webhook variable:
    an empty list, extended by the comma-separated values when the
    variable is set. *)
Definition webhooks (value : option string) : list string :=
  match value with
  | Some webhook => [] ++ split "," webhook
  | None => []
  end.

Definition get_notification_config (environ : gmap string string)
  : Notification.t :=
  let discord := webhooks (environ !! "NOTIFICATION_DISCORD_WEBHOOK") in
  let slack := webhooks (environ !! "NOTIFICATION_SLACK_WEBHOOK") in
  let telegram_bot_token := environ !! "NOTIFICATION_TELEGRAM_BOT_TOKEN" in
  let telegram_chat_id := environ !! "NOTIFICATION_TELEGRAM_CHAT_ID" in
  let telegram :=
    match telegram_bot_token, telegram_chat_id with
    | Some token, Some chat =>
        let bot_tokens := split "," token in
        let chat_ids := split "," chat in
        map (fun tc => TelegramBot.mk tc.1 tc.2) (combine bot_tokens chat_ids)
    | _, _ => []
    end in
  let generic := webhooks (environ !! "NOTIFICATION_GENERIC_WEBHOOK") in
  Notification.mk (NotificationDiscord.mk discord)
    (NotificationSlack.mk slack) (NotificationTelegram.mk telegram)
    (NotificationGeneric.mk generic).

Section Config.

Variable VotingEpochFn : Type.
Variable RewardEpochFn : Type.
Variable VotingEpochFactory : Type.
Variable RewardEpochFactory : Type.

(** The attributes of the timing modules. *)
Variable module_voting_epoch : TimingModule -> VotingEpochFn.
Variable module_reward_epoch : TimingModule -> RewardEpochFn.
Variable module_voting_epoch_factory : TimingModule -> VotingEpochFactory.
Variable module_reward_epoch_factory : TimingModule -> RewardEpochFactory.

Definition get_epoch (chain_id : Z)
  : result (Epoch.t VotingEpochFn RewardEpochFn VotingEpochFactory
              RewardEpochFactory) :=
  module <- timing_module chain_id ;;
  Ok (Epoch.mk (module_voting_epoch module) (module_reward_epoch module)
        (module_voting_epoch_factory module)
        (module_reward_epoch_factory module)).

(** The process environment, and the node behind an RPC url: whether
    [Web3(HTTPProvider(rpc_url)).is_connected()], its [eth.chain_id],
    its contract registry; and the artifact files. *)
Variable environ : gmap string string.
Variable is_connected : string -> bool.
Variable eth_chain_id : string -> Z.
Variable abi_from_file_location : string -> result (list ABIElement).
Variable getContractAddressByName : string -> string -> result string.

Definition get_config
  : outcome (Configuration.t
               (Epoch.t VotingEpochFn RewardEpochFn VotingEpochFactory
                  RewardEpochFactory)) :=
  match environ !! "RPC_URL" with
  | None => RaisedConfigError RpcUrlNotSet
  | Some rpc_url =>
      if negb (is_connected rpc_url)
      then RaisedConfigError (UnableToConnect rpc_url)
      else
        let chain_id := eth_chain_id rpc_url in
        if negb (bool_decide (chain_id ∈ ChainId.all))
        then RaisedConfigError (UnknownChain chain_id)
        else
          match environ !! "IDENTITY_ADDRESS" with
          | None => RaisedConfigError IdentityAddressNotSet
          | Some identity_address =>
              propagate (to_checksum_address identity_address)
                (fun identity =>
              propagate (Contracts.get_contracts abi_from_file_location
                           (getContractAddressByName rpc_url))
                (fun contracts =>
              propagate (get_epoch chain_id)
                (fun epoch =>
              let notification := get_notification_config environ in
              propagate
                (Configuration.init
                   (Some identity) (Some chain_id) (Some contracts)
                   (Some rpc_url) None (Some epoch) (Some notification)
                   None)
                Returned)))
          end
  end.

End Config.
(** ** observer/types.py: the other decoders *)

Module SigningPolicyInitialized.

Record t : Type :=
  mk {
    reward_epoch_id : Z;
    start_voting_round_id : Z;
    threshold : Z;
    seed : Z;
    voters : PyVal;
    weights : list Z;
    signing_policy_bytes : PyVal;
    timestamp : Z
  }.

Definition from_dict (d : gmap string PyVal) : result t :=
  v1 <- lookup_key d "rewardEpochId" ;;
  reward_epoch_id <- py_int v1 ;;
  v2 <- lookup_key d "startVotingRoundId" ;;
  start_voting_round_id <- py_int v2 ;;
  v3 <- lookup_key d "threshold" ;;
  threshold <- py_int v3 ;;
  v4 <- lookup_key d "seed" ;;
  seed <- py_int v4 ;;
  voters <- lookup_key d "voters" ;;
  raw_weights <- lookup_key d "weights" ;;
  weight_items <- py_iter raw_weights ;;
  weights <- comprehension py_int weight_items ;;
  signing_policy_bytes <- lookup_key d "signingPolicyBytes" ;;
  v5 <- lookup_key d "timestamp" ;;
  timestamp <- py_int v5 ;;
  Ok (mk reward_epoch_id start_voting_round_id threshold seed voters
        weights signing_policy_bytes timestamp).

End SigningPolicyInitialized.

Module VoterRemoved.

Record t : Type :=
  mk {
    reward_epoch_id : Z;
    voter : PyVal
  }.

Definition from_dict (d : gmap string PyVal) : result t :=
  v <- lookup_key d "rewardEpochId" ;;
  reward_epoch_id <- py_int v ;;
  voter <- lookup_key d "voter" ;;
  Ok (mk reward_epoch_id voter).

End VoterRemoved.

Module VoterRegistrationInfo.

Record t : Type :=
  mk {
    reward_epoch_id : Z;
    voter : PyVal;
    delegation_address : PyVal;
    delegation_fee_bips : Z;
    w_nat_weight : Z;
    w_nat_capped_weight : Z;
    node_ids : list string;
    node_weights : list Z
  }.

Definition from_dict (d : gmap string PyVal) : result t :=
  v1 <- lookup_key d "rewardEpochId" ;;
  reward_epoch_id <- py_int v1 ;;
  voter <- lookup_key d "voter" ;;
  delegation_address <- lookup_key d "delegationAddress" ;;
  v2 <- lookup_key d "delegationFeeBIPS" ;;
  delegation_fee_bips <- py_int v2 ;;
  v3 <- lookup_key d "wNatWeight" ;;
  w_nat_weight <- py_int v3 ;;
  v4 <- lookup_key d "wNatCappedWeight" ;;
  w_nat_capped_weight <- py_int v4 ;;
  raw_ids <- lookup_key d "nodeIds" ;;
  id_items <- py_iter raw_ids ;;
  node_ids <- comprehension py_hex id_items ;;
  raw_weights <- lookup_key d "nodeWeights" ;;
  weight_items <- py_iter raw_weights ;;
  node_weights <- comprehension py_int weight_items ;;
  Ok (mk reward_epoch_id voter delegation_address delegation_fee_bips
        w_nat_weight w_nat_capped_weight node_ids node_weights).

End VoterRegistrationInfo.

Module VotePowerBlockSelected.

Record t : Type :=
  mk {
    reward_epoch_id : Z;
    vote_power_block : Z;
    timestamp : Z
  }.

Definition from_dict (d : gmap string PyVal) : result t :=
  v1 <- lookup_key d "rewardEpochId" ;;
  reward_epoch_id <- py_int v1 ;;
  v2 <- lookup_key d "votePowerBlock" ;;
  vote_power_block <- py_int v2 ;;
  v3 <- lookup_key d "timestamp" ;;
  timestamp <- py_int v3 ;;
  Ok (mk reward_epoch_id vote_power_block timestamp).

End VotePowerBlockSelected.

Module RandomAcquisitionStarted.

Record t : Type :=
  mk {
    reward_epoch_id : Z;
    timestamp : Z
  }.

Definition from_dict (d : gmap string PyVal) : result t :=
  v1 <- lookup_key d "rewardEpochId" ;;
  reward_epoch_id <- py_int v1 ;;
  v2 <- lookup_key d "timestamp" ;;
  timestamp <- py_int v2 ;;
  Ok (mk reward_epoch_id timestamp).

End RandomAcquisitionStarted.

Module VoterPreRegistered.

Record t : Type :=
  mk {
    block : Z;
    emitter_address : string;
    transaction_hash : list byte;
    voter : PyVal;
    reward_epoch_id : Z
  }.

Definition from_dict (data : EventData) : result t :=
  let d := args data in
  let block := blockNumber data in
  let address := address data in
  let tx_hash := transactionHash data in
  block <- py_int (PInt block) ;;
  voter <- lookup_key d "voter" ;;
  v <- lookup_key d "rewardEpochId" ;;
  reward_epoch_id <- py_int v ;;
  Ok (mk block address tx_hash voter reward_epoch_id).

End VoterPreRegistered.

(** ** Vocabulary of the further properties *)

(** The entry of an ABI that a table of [Contract] keeps under a
    name: the last entry of that type and name. *)
Definition entry_matches (type name : string) (entry : ABIElement) : bool :=
  bool_decide (el_type entry = Some type)
  && bool_decide (el_name entry = Some name).

Fixpoint last_entry (type name : string) (abi : list ABIElement)
  : option ABIElement :=
  match abi with
  | [] => None
  | entry :: rest =>
      match last_entry type name rest with
      | Some later => Some later
      | None => if entry_matches type name entry then Some entry else None
      end
  end.

(** An entry that [Contract.__attrs_post_init__] accepts. *)
Definition entry_ok (entry : ABIElement) : bool :=
  match el_type entry with
  | None => false
  | Some type =>
      if String.eqb type "event" then
        bool_decide (is_Some (el_name entry))
        && match el_inputs entry with
           | Some inputs => forallb has_components inputs
           | None => false
           end
      else if String.eqb type "function" then
        bool_decide (is_Some (el_name entry))
        && bool_decide (is_Some (el_inputs entry))
      else true
  end.

(** The name under which a timing module is imported. *)
Definition module_name (module : TimingModule) : string :=
  match module with
  | coston => "coston"
  | songbird => "songbird"
  | coston2 => "coston2"
  | flare => "flare"
  end.

(** The number of occurrences of a character. *)
Fixpoint count_char (c : ascii) (s : string) : nat :=
  match s with
  | "" => 0
  | String x rest => (if Ascii.eqb x c then 1 else 0) + count_char c rest
  end.

Definition in_range (n : Z) (length : nat) : Prop :=
  (0 <= n < 256 ^ Z.of_nat length)%Z.

(** An environment with an RPC url, a reachable Flare node, a valid
    identity address and loadable artifacts. *)
Definition good_environ : gmap string string :=
  <["RPC_URL" := "http://localhost:9650/ext/C/rpc"]>
  (<["IDENTITY_ADDRESS" := "0xad67fe66660fb8dfe9d6b1b4240d8650e30f6019"]>
  (<["NOTIFICATION_DISCORD_WEBHOOK" := "https://a.example,https://b.example"]>
  (<["NOTIFICATION_TELEGRAM_BOT_TOKEN" := "t1,t2,t3"]>
  (<["NOTIFICATION_TELEGRAM_CHAT_ID" := "c1,c2"]> ∅)))).

Definition good_registry (rpc_url name : string) : result string :=
  Ok "0xad67fe66660fb8dfe9d6b1b4240d8650e30f6019".

(** An ABI with an overloaded function, an event and a constructor. *)
Definition overloaded_abi : list ABIElement :=
  [ mkABIElement (Some "constructor") None (Some []);
    mkABIElement (Some "function") (Some "submit")
      (Some [ mkABIComponent "a" "uint256" None ]);
    mkABIElement (Some "event") (Some "Submitted")
      (Some [ mkABIComponent "who" "address" None ]);
    mkABIElement (Some "function") (Some "submit")
      (Some [ mkABIComponent "a" "uint256" None;
              mkABIComponent "b" "bytes" None ]) ].

(** The items that a comma-separated variable stands for: none when
    the variable is not set; otherwise a non-empty list of comma-free
    items that joins back to the text. *)
Definition comma_separated (value : option string) (items : list string)
  : Prop :=
  match value with
  | None => items = []
  | Some text =>
      items = split "," text
      /\ items <> []
      /\ join "," items = text
      /\ Forall (fun item => free_of "," item = true) items
      /\ length items = S (count_char "," text)
  end.

(** The [args] of a [SigningPolicyInitialized] log with no voter and
    two weights. *)
Definition signing_policy_args : gmap string PyVal :=
  <["rewardEpochId" := PInt 5]>
  (<["startVotingRoundId" := PInt 9]>
  (<["threshold" := PInt 3]>
  (<["seed" := PInt 7]>
  (<["voters" := PList []]>
  (<["weights" := PList [PInt 1; PInt 2]]>
  (<["signingPolicyBytes" := PBytes []]>
  (<["timestamp" := PInt 11]> ∅))))))).

(** The [args] of a [VoterRegistrationInfo] log with two node ids. *)
Definition registration_info_args : gmap string PyVal :=
  <["rewardEpochId" := PInt 5]>
  (<["voter" := PStr "0xad67fe66660fb8dfe9d6b1b4240d8650e30f6019"]>
  (<["delegationAddress"
     := PStr "0xad67fe66660fb8dfe9d6b1b4240d8650e30f6019"]>
  (<["delegationFeeBIPS" := PInt 2000]>
  (<["wNatWeight" := PInt 10]>
  (<["wNatCappedWeight" := PInt 9]>
  (<["nodeIds" := PList [PBytes [x0a; x0b]; PBytes [xff]]]>
  (<["nodeWeights" := PList [PInt 4; PInt 6]]> ∅))))))).

(** * Known values

    The library models reproduce published digests and the checksummed
    registry address written in [configuration/types.py]. *)

Example keccak_empty :
  hex (keccak_text "") =
  "c5d2460186f7233c927e7db2dcc703c0e500b653ca82273b7bfad8045d85a470".
Proof. vm_compute. reflexivity. Qed.

Example keccak_transfer_topic :
  hex (keccak_text "Transfer(address,address,uint256)") =
  "ddf252ad1be2c89b69c2b068fc378daa952ba7f163c4a11628f55a4df523b3ef".
Proof. vm_compute. reflexivity. Qed.

Example keccak_transfer_selector :
  hex (firstn 4 (keccak_text "transfer(address,uint256)")) = "a9059cbb".
Proof. vm_compute. reflexivity. Qed.

Example registry_address_checksum :
  to_checksum_address "0xad67fe66660fb8dfe9d6b1b4240d8650e30f6019"
  = Ok "0xaD67FE66660Fb8dFE9d6b1b4240d8650e30F6019".
Proof. vm_compute. reflexivity. Qed.

Example to_bytes_round : to_bytes 123456 4 = Ok [x00; x01; xe2; x40].
Proof. reflexivity. Qed.

Example fromhex_mixed : fromhex "0aFf 10" = Ok [x0a; xff; x10].
Proof. reflexivity. Qed.

Example int_of_text_examples :
  py_int (PStr " -1_000 ") = Ok (-1000)%Z
  /\ py_int (PStr "1__0") = Err ValueError
  /\ py_int (PStr "0x10") = Err ValueError
  /\ py_int (PBytes [x34; x32]) = Ok 42%Z.
Proof. repeat split; reflexivity. Qed.

Example int_of_unicode_text :
  py_int (PStr (String "028" "42")) = Err ValueError
  /\ py_int (PStr "٣٤") = Ok 34%Z
  /\ py_int (PStr (String "194" (String "160" "7"))) = Ok 7%Z
  /\ py_iter (PStr "a٣") = Ok [PStr "a"; PStr "٣"]
  /\ py_slice 1 2 (PStr "a٣b") = Ok (PStr "٣").
Proof. repeat split; reflexivity. Qed.

(** * Properties *)

(** ** Strings *)

Lemma str_app_nil_l (s : string) : "" +:+ s = s.
Proof. reflexivity. Qed.

Lemma str_app_cons (c : ascii) (s t : string) :
  String c s +:+ t = String c (s +:+ t).
Proof. reflexivity. Qed.

Lemma str_app_nil_r (s : string) : s +:+ "" = s.
Proof.
  induction s as [|c s IH]; [reflexivity|].
  rewrite str_app_cons, IH. reflexivity.
Qed.

Lemma str_app_assoc (s t u : string) : (s +:+ t) +:+ u = s +:+ t +:+ u.
Proof.
  induction s as [|c s IH]; [reflexivity|].
  rewrite !str_app_cons, IH. reflexivity.
Qed.

Lemma str_length_app (s t : string) :
  String.length (s +:+ t) = String.length s + String.length t.
Proof.
  induction s as [|c s IH]; [reflexivity|].
  rewrite str_app_cons. simpl. rewrite IH. reflexivity.
Qed.

Lemma str_forallb_app (p : ascii -> bool) (s t : string) :
  str_forallb p (s +:+ t) = str_forallb p s && str_forallb p t.
Proof.
  induction s as [|c s IH]; [reflexivity|].
  rewrite str_app_cons. simpl. rewrite IH. apply andb_assoc.
Qed.

Lemma str_forallb_impl (p q : ascii -> bool) (s : string) :
  (forall c, p c = true -> q c = true) ->
  str_forallb p s = true -> str_forallb q s = true.
Proof.
  intros Hpq. induction s as [|c s IH]; [reflexivity|].
  simpl. intros [Hc Hs]%andb_true_iff.
  rewrite (Hpq c Hc), (IH Hs). reflexivity.
Qed.

Lemma encode_app (s t : string) : encode (s +:+ t) = encode s ++ encode t.
Proof.
  unfold encode, list_byte_of_string.
  induction s as [|c s IH]; [reflexivity|].
  rewrite str_app_cons. simpl. rewrite IH. reflexivity.
Qed.

(** ** Hexadecimal encoding *)

Lemma hex_app (a b : list byte) : hex (a ++ b) = hex a +:+ hex b.
Proof.
  induction a as [|x a IH]; [reflexivity|].
  simpl. rewrite IH. reflexivity.
Qed.

Lemma hex_length (bs : list byte) : String.length (hex bs) = 2 * length bs.
Proof. induction bs as [|b bs IH]; simpl; [reflexivity|lia]. Qed.

Lemma hex_take (n : nat) (bs : list byte) :
  str_take (2 * n) (hex bs) = hex (firstn n bs).
Proof.
  revert bs. induction n as [|n IH]; intros bs.
  - destruct bs; reflexivity.
  - destruct bs as [|b bs]; [reflexivity|].
    replace (2 * S n) with (S (S (2 * n))) by lia.
    simpl hex. simpl str_take. rewrite <- IH. reflexivity.
Qed.

Lemma hex_byte_lower (b : byte) :
  is_lower_hex (hex_digit (Byte.to_N b / 16)) = true
  /\ is_lower_hex (hex_digit (Byte.to_N b mod 16)) = true.
Proof. destruct b; split; reflexivity. Qed.

Lemma hex_lower (bs : list byte) : str_forallb is_lower_hex (hex bs) = true.
Proof.
  induction bs as [|b bs IH]; [reflexivity|].
  destruct (hex_byte_lower b) as [H1 H2].
  simpl. rewrite H1, H2, IH. reflexivity.
Qed.

Lemma unhex_byte (b : byte) :
  Keccak.byte_of_N
    (16 * hex_value (hex_digit (Byte.to_N b / 16))
     + hex_value (hex_digit (Byte.to_N b mod 16))) = b
  /\ is_hex_char (hex_digit (Byte.to_N b / 16)) = true
  /\ is_hex_char (hex_digit (Byte.to_N b mod 16)) = true
  /\ is_space (hex_digit (Byte.to_N b / 16)) = false.
Proof. destruct b; repeat split; reflexivity. Qed.

(** [bytes.fromhex] inverts [bytes.hex]. *)
Lemma fromhex_hex (bs : list byte) : fromhex (hex bs) = Ok bs.
Proof.
  induction bs as [|b bs IH]; [reflexivity|].
  destruct (unhex_byte b) as (Hb & H1 & H2 & H3).
  simpl. rewrite H3, H1, H2, IH. simpl. rewrite Hb. reflexivity.
Qed.

Lemma hex_inj (a b : list byte) : hex a = hex b -> a = b.
Proof.
  intros H. pose proof (fromhex_hex a) as Ha.
  rewrite H, fromhex_hex in Ha. congruence.
Qed.

Lemma lower_hex_not_x (s : string) :
  str_forallb is_lower_hex s = true -> free_of "x" s = true.
Proof.
  apply str_forallb_impl. intros c.
  destruct c as [[] [] [] [] [] [] [] []]; vm_compute; congruence.
Qed.

Lemma prefix_0x_free (s : string) :
  free_of "x" s = true -> String.prefix "0x" s = false.
Proof.
  destruct s as [|c1 [|c2 s]]; [reflexivity| |].
  - intros _. cbn [String.prefix]. destruct (ascii_dec "0" c1); reflexivity.
  - unfold free_of. cbn [str_forallb String.prefix].
    intros [_ [Hx _]%andb_true_iff]%andb_true_iff.
    destruct (ascii_dec "0" c1); [|reflexivity].
    destruct (ascii_dec "x" c2) as [<-|]; [discriminate|reflexivity].
Qed.

Lemma un_prefix_0x_hex (bs : list byte) : un_prefix_0x (hex bs) = hex bs.
Proof.
  unfold un_prefix_0x, removeprefix.
  rewrite prefix_0x_free; [reflexivity|].
  apply lower_hex_not_x, hex_lower.
Qed.

(** ** Keccak-256 digests are 32 bytes long *)

Lemma keccak_round_length (st : list N) (rc : N) :
  length (Keccak.keccak_round st rc) = 25.
Proof.
  unfold Keccak.keccak_round, Keccak.iota, Keccak.chi.
  match goal with |- context [map ?f (seq 0 25)] =>
    generalize f; intros g end.
  reflexivity.
Qed.

Lemma keccak_f_length (st : list N) : length (Keccak.keccak_f st) = 25.
Proof.
  unfold Keccak.keccak_f.
  assert (forall l, l <> [] ->
            length (fold_left Keccak.keccak_round l st) = 25) as H.
  { intros l. destruct l as [|rc l _] using rev_ind; [congruence|].
    intros _. rewrite fold_left_app. apply keccak_round_length. }
  apply H. discriminate.
Qed.

Lemma absorb_length (msg : list byte) (st : list N) (pos : nat) :
  length (Keccak.absorb st pos msg) = 25.
Proof.
  revert st pos. induction msg as [|b msg IH]; intros st pos.
  - apply keccak_f_length.
  - cbn [Keccak.absorb]. destruct (Nat.eqb (S pos) Keccak.rate); apply IH.
Qed.

Lemma keccak256_length (msg : list byte) :
  length (Keccak.keccak256 msg) = 32.
Proof.
  unfold Keccak.keccak256, Keccak.squeeze.
  pose proof (absorb_length msg (repeat 0%N 25) 0) as H.
  destruct (Keccak.absorb _ _ _) as [|a [|b [|c [|d st]]]];
    try discriminate.
  reflexivity.
Qed.

(** ** Function selectors *)

Lemma join_free_of (c : ascii) (parts : list string) :
  free_of c "," = true ->
  Forall (fun p => free_of c p = true) parts ->
  free_of c (join "," parts) = true.
Proof.
  intros Hsep. induction 1 as [|p parts Hp _ IH]; [reflexivity|].
  destruct parts as [|q parts]; [exact Hp|].
  change (join "," (p :: q :: parts))
    with (p +:+ "," +:+ join "," (q :: parts)).
  unfold free_of in *. rewrite !str_forallb_app, Hp, Hsep, IH. reflexivity.
Qed.

Lemma function_signature_hex (text : string) :
  function_signature text = hex (firstn 4 (keccak_text text)).
Proof. unfold function_signature. apply (hex_take 4). Qed.

(** C2: the selector of a function entry is the hex encoding of the
    first 4 bytes of the keccak-256 digest of its full name, 8
    lowercase hex digits without any [0x] prefix, where the full name
    is the function name followed by the parenthesised comma-joined
    input types, with no space added.  (An entry without an [inputs]
    key has no selector: the constructor fails.) *)
Theorem function_selector_is_keccak_prefix
    (name contract : string) (abi : ABIElement)
    (inputs : list ABIComponent) :
  el_inputs abi = Some inputs ->
  let full_name := signature_text name (map comp_type inputs) in
  let selector := firstn 4 (Keccak.keccak256 (encode full_name)) in
  Function.to_full_name name abi = Ok full_name
  /\ Function.init name abi contract
     = Ok (Function.mk name abi contract (hex selector))
  /\ function_signature full_name = hex selector
  /\ length selector = 4
  /\ String.length (hex selector) = 8
  /\ str_forallb is_lower_hex (hex selector) = true
  /\ String.prefix "0x" (hex selector) = false
  /\ free_of "x" (hex selector) = true
  /\ (free_of " " name = true ->
      Forall (fun i => free_of " " (comp_type i) = true) inputs ->
      free_of " " full_name = true).
Proof.
  intros Hin full_name selector.
  assert (Function.to_full_name name abi = Ok full_name) as Hfull.
  { unfold Function.to_full_name. rewrite Hin. reflexivity. }
  assert (length selector = 4) as Hlen.
  { unfold selector. rewrite length_firstn, keccak256_length. reflexivity. }
  split; [exact Hfull|].
  split.
  { unfold Function.init. rewrite Hfull. cbn [bind].
    rewrite function_signature_hex. reflexivity. }
  split; [apply function_signature_hex|].
  split; [exact Hlen|].
  split; [rewrite hex_length, Hlen; reflexivity|].
  split; [apply hex_lower|].
  split; [apply prefix_0x_free, lower_hex_not_x, hex_lower|].
  split; [apply lower_hex_not_x, hex_lower|].
  intros Hname Htypes. unfold full_name, signature_text, free_of.
  rewrite !str_forallb_app. fold (free_of " " name). rewrite Hname.
  fold (free_of " " (join "," (map comp_type inputs))).
  rewrite join_free_of; [reflexivity|reflexivity|].
  apply Forall_map. exact Htypes.
Qed.

Lemma function_selector_is_keccak_prefix_witness :
  el_inputs transfer_abi
  = Some [ mkABIComponent "to" "address" None;
           mkABIComponent "amount" "uint256" None ]
  /\ Function.init "transfer" transfer_abi "Token"
     = Ok (Function.mk "transfer" transfer_abi "Token" "a9059cbb").
Proof.
  split; [reflexivity|].
  exact (proj1 (proj2 (function_selector_is_keccak_prefix
                         "transfer" "Token" transfer_abi _ eq_refl))).
Defined.

(** An entry without an [inputs] key has no selector: the assertion of
    [Function.to_full_name] fails and no [Function] is built. *)
Lemma Function_init_without_inputs (name contract : string)
    (abi : ABIElement) :
  el_inputs abi = None ->
  Function.init name abi contract = Err AssertionError.
Proof.
  intros H. unfold Function.init, Function.to_full_name. rewrite H. reflexivity.
Qed.

(** ** The loops of [event_signature] *)

Lemma join_cons (p : string) (parts : list string) :
  join "," (p :: parts) = p +:+ join_rest parts.
Proof.
  destruct parts as [|q parts]; [|reflexivity].
  symmetry. apply str_app_nil_r.
Qed.

Lemma components_loop_acc (components : list ABIComponent) (k : nat)
    (acc : string) :
  components_loop (S k) components acc
  = acc +:+ components_loop (S k) components "".
Proof.
  revert k acc. induction components as [|c cs IH]; intros k acc.
  - symmetry. apply str_app_nil_r.
  - cbn [components_loop Nat.ltb Nat.leb].
    rewrite (IH _ ((acc +:+ ",") +:+ comp_type c)).
    rewrite (IH _ (("" +:+ ",") +:+ comp_type c)).
    rewrite !str_app_assoc. reflexivity.
Qed.

Lemma components_loop_rest (components : list ABIComponent) (k : nat) :
  components_loop (S k) components ""
  = join_rest (map comp_type components).
Proof.
  revert k. induction components as [|c cs IH]; intros k; [reflexivity|].
  cbn [components_loop Nat.ltb Nat.leb].
  rewrite components_loop_acc, IH.
  cbn [map join_rest]. rewrite join_cons, !str_app_assoc. reflexivity.
Qed.

Lemma components_loop_join (components : list ABIComponent) (acc : string) :
  components_loop 0 components acc
  = acc +:+ join "," (map comp_type components).
Proof.
  destruct components as [|c cs].
  - symmetry. apply str_app_nil_r.
  - cbn [components_loop Nat.ltb Nat.leb map].
    rewrite components_loop_acc, components_loop_rest, join_cons.
    apply str_app_assoc.
Qed.

(** One iteration of the outer loop appends the text of the
    parameter's shape. *)
Lemma inputs_loop_cons (index : nat) (input : ABIComponent)
    (rest : list ABIComponent) (acc : string) :
  has_components input = true ->
  inputs_loop index (input :: rest) acc
  = inputs_loop (S index) rest
      ((if Nat.ltb 0 index then acc +:+ "," else acc)
         +:+ shape_text (type_shape input)).
Proof.
  unfold has_components, type_shape, shape_text, is_tuple_type.
  cbn [inputs_loop fst snd]. intros Hc.
  destruct (String.eqb (comp_type input) "tuple[]");
    [|destruct (String.eqb (comp_type input) "tuple")];
    cbn [orb] in *; [| |reflexivity].
  all: apply bool_decide_eq_true in Hc as [cs Hcs]; rewrite Hcs;
    cbn [getitem bind default]; rewrite components_loop_join;
    rewrite !str_app_assoc; reflexivity.
Qed.

Lemma inputs_loop_acc (inputs : list ABIComponent) (k : nat) (acc : string) :
  forallb has_components inputs = true ->
  inputs_loop (S k) inputs acc
  = Ok (acc +:+ join_rest (map (fun i => shape_text (type_shape i)) inputs)).
Proof.
  revert k acc. induction inputs as [|i inputs IH]; intros k acc.
  - intros _. cbn [inputs_loop map join_rest]. rewrite str_app_nil_r.
    reflexivity.
  - cbn [forallb]. intros [Hi Hrest]%andb_true_iff.
    rewrite inputs_loop_cons by exact Hi. rewrite IH by exact Hrest.
    cbn [Nat.ltb Nat.leb map join_rest]. rewrite join_cons.
    rewrite !str_app_assoc. reflexivity.
Qed.

Lemma inputs_loop_join (inputs : list ABIComponent) :
  forallb has_components inputs = true ->
  inputs_loop 0 inputs ""
  = Ok (join "," (map (fun i => shape_text (type_shape i)) inputs)).
Proof.
  destruct inputs as [|i inputs]; [reflexivity|].
  cbn [forallb]. intros [Hi Hrest]%andb_true_iff.
  rewrite inputs_loop_cons by exact Hi.
  rewrite inputs_loop_acc by exact Hrest.
  cbn [Nat.ltb Nat.leb map]. rewrite join_cons. reflexivity.
Qed.

(** The loops compute the comma-joined texts of the parameters, in
    declaration order. *)
Lemma event_canonical_join (name : string) (inputs : list ABIComponent) :
  forallb has_components inputs = true ->
  event_canonical (event_entry name inputs)
  = Ok (signature_text name
          (map (fun i => shape_text (type_shape i)) inputs)).
Proof.
  intros H. unfold event_canonical, event_entry. cbn [el_inputs getitem bind].
  rewrite inputs_loop_join by exact H. reflexivity.
Qed.

(** A tuple parameter without its [components] key makes the
    canonicalizer raise. *)
Lemma inputs_loop_missing_components (inputs : list ABIComponent)
    (k : nat) (acc : string) :
  forallb has_components inputs = false ->
  inputs_loop k inputs acc = Err (KeyError "components").
Proof.
  revert k acc. induction inputs as [|i inputs IH]; intros k acc;
    [discriminate|].
  cbn [forallb]. destruct (has_components i) eqn:Hi.
  - cbn [andb]. intros Hrest. rewrite inputs_loop_cons by exact Hi.
    apply IH, Hrest.
  - intros _. revert Hi. unfold has_components, is_tuple_type.
    cbn [inputs_loop].
    destruct (String.eqb (comp_type i) "tuple[]");
      [|destruct (String.eqb (comp_type i) "tuple")];
      cbn [orb]; [| |discriminate].
    all: intros Hc; apply bool_decide_eq_false in Hc;
      destruct (comp_components i); [exfalso; apply Hc; eauto|reflexivity].
Qed.

(** On flat parameters the emitted text is the canonical type. *)
Lemma shape_text_flat (input : ABIComponent) :
  flat_input input = true ->
  shape_text (type_shape input) = spec_canonical_type input.
Proof.
  destruct input as [name type components].
  unfold flat_input, shape_text, type_shape, is_tuple_type.
  cbn [comp_type comp_components fst snd spec_canonical_type].
  intros Hflat.
  assert (forall cs, forallb (fun c => negb (is_tuple_type (comp_type c))) cs
                     = true ->
                     map spec_canonical_type cs = map comp_type cs) as Hmap.
  { clear. induction cs as [|c cs IH]; [reflexivity|].
    cbn [forallb]. intros [Hc Hcs]%andb_true_iff.
    cbn [map]. rewrite (IH Hcs). f_equal.
    destruct c as [cname ctype ccomps]. unfold is_tuple_type in Hc.
    cbn [comp_type spec_canonical_type] in *.
    destruct (String.eqb ctype "tuple[]"); [discriminate|].
    destruct (String.eqb ctype "tuple"); [discriminate|reflexivity]. }
  destruct (String.eqb type "tuple[]") eqn:E1.
  { cbn [orb]. destruct components as [cs|]; cbn [default] in *;
      [rewrite (Hmap cs Hflat)|]; rewrite !str_app_assoc; reflexivity. }
  destruct (String.eqb type "tuple") eqn:E2; [|reflexivity].
  cbn [orb]. destruct components as [cs|]; cbn [default] in *;
    [rewrite (Hmap cs Hflat)|]; reflexivity.
Qed.

(** On entries whose tuples are flat, [event_signature] hashes the
    canonical signature of the event. *)
Lemma event_signature_flat (name : string) (inputs : list ABIComponent) :
  forallb has_components inputs = true ->
  forallb flat_input inputs = true ->
  event_signature (event_entry name inputs)
  = Ok (hex (keccak_text
               (signature_text name (map spec_canonical_type inputs)))).
Proof.
  intros Hc Hflat. unfold event_signature.
  rewrite event_canonical_join by exact Hc. cbn [bind].
  rewrite un_prefix_0x_hex. do 4 f_equal.
  induction inputs as [|i inputs IH]; [reflexivity|].
  cbn [forallb] in *.
  apply andb_true_iff in Hc as [_ Hc]. apply andb_true_iff in Hflat as [Hi Hf].
  cbn [map]. rewrite (shape_text_flat i Hi), (IH Hc Hf). reflexivity.
Qed.

(** ** Nested tuples *)

(** C1: on an event whose tuple array has a tuple among its components
    [event_signature] emits the component's literal type string
    [tuple]; the recursive expansion that the canonical form requires
    is not performed, and the derived signature is not the hash of the
    canonical signature. *)
Theorem event_signature_nested_tuple_not_expanded :
  event_canonical (event_entry "Nested" nested_inputs)
  = Ok "Nested((tuple,bool)[])"
  /\ signature_text "Nested" (map spec_canonical_type nested_inputs)
     = "Nested(((uint256,address),bool)[])"
  /\ event_signature (event_entry "Nested" nested_inputs)
     = Ok "bc4b5815ec2860a3e38ee758795c628050f959aded1a11ea675948430f6a659d"
  /\ hex (keccak_text "Nested(((uint256,address),bool)[])")
     = "838fedda59c2bc6bd7eafc3d76ad9629373a170d5058678ebe80f44401b6a6ac"
  /\ event_signature (event_entry "Nested" nested_inputs)
     <> Ok (hex (keccak_text
                   (signature_text "Nested"
                      (map spec_canonical_type nested_inputs)))).
Proof.
  repeat split; try (vm_compute; reflexivity).
  vm_compute. discriminate.
Qed.

(** ** Order sensitivity of the canonical signature *)

Lemma free_of_app (d : ascii) (a b : string) :
  free_of d (a +:+ b) = free_of d a && free_of d b.
Proof. apply str_forallb_app. Qed.

Lemma free_of_cons (d c : ascii) (s : string) :
  free_of d (String c s) = negb (Ascii.eqb c d) && free_of d s.
Proof. reflexivity. Qed.

Lemma free_of_delim (d : ascii) (a r : string) :
  free_of d (a +:+ String d r) = false.
Proof.
  rewrite free_of_app, free_of_cons, Ascii.eqb_refl.
  cbn [negb andb]. apply andb_false_r.
Qed.

(** Two texts that agree up to their first delimiter. *)
Lemma app_delim_inj (d : ascii) (a a' r r' : string) :
  free_of d a = true -> free_of d a' = true ->
  a +:+ String d r = a' +:+ String d r' ->
  a = a' /\ r = r'.
Proof.
  revert a'. induction a as [|c a IH]; intros [|c' a'] Ha Ha' Heq.
  - rewrite !str_app_nil_l in Heq. injection Heq as ->. auto.
  - rewrite str_app_nil_l, str_app_cons in Heq. injection Heq as <- _.
    rewrite free_of_cons, Ascii.eqb_refl in Ha'. discriminate.
  - rewrite str_app_nil_l, str_app_cons in Heq. injection Heq as -> _.
    rewrite free_of_cons, Ascii.eqb_refl in Ha. discriminate.
  - rewrite !str_app_cons in Heq. injection Heq as -> Heq.
    rewrite free_of_cons in Ha, Ha'.
    apply andb_true_iff in Ha as [_ Ha].
    apply andb_true_iff in Ha' as [_ Ha'].
    destruct (IH a' Ha Ha' Heq) as [-> ->]. auto.
Qed.

Lemma join_rest_cons (p : string) (parts : list string) :
  join_rest (p :: parts) = String "," (join "," (p :: parts)).
Proof. reflexivity. Qed.

(** A comma-free text followed by the rest of a comma-joined list. *)
Lemma app_join_rest_inj (a a' : string) (ps ps' : list string) :
  free_of "," a = true -> free_of "," a' = true ->
  a +:+ join_rest ps = a' +:+ join_rest ps' ->
  a = a' /\ join_rest ps = join_rest ps'.
Proof.
  intros Ha Ha' Heq. destruct ps as [|p ps], ps' as [|p' ps'].
  - cbn [join_rest] in Heq. rewrite !str_app_nil_r in Heq. auto.
  - cbn [join_rest] in Heq. rewrite str_app_nil_r in Heq. subst a.
    change ("," +:+ join "," (p' :: ps'))
      with (String "," (join "," (p' :: ps'))) in Ha.
    rewrite free_of_delim in Ha. discriminate.
  - cbn [join_rest] in Heq. rewrite str_app_nil_r in Heq. subst a'.
    change ("," +:+ join "," (p :: ps))
      with (String "," (join "," (p :: ps))) in Ha'.
    rewrite free_of_delim in Ha'. discriminate.
  - rewrite !join_rest_cons in *.
    destruct (app_delim_inj _ _ _ _ _ Ha Ha' Heq) as [-> ->]. auto.
Qed.

Lemma plain_inv (type : string) :
  plain type = true ->
  type <> "" /\ free_of "," type = true
  /\ free_of "(" type = true /\ free_of ")" type = true.
Proof.
  unfold plain.
  intros [[[H1 H2]%andb_true_iff H3]%andb_true_iff H4]%andb_true_iff.
  repeat split; try assumption.
  intros ->. discriminate.
Qed.

Lemma join_rest_inj (ps ps' : list string) :
  (join "," ps = join "," ps' -> ps = ps') ->
  join_rest ps = join_rest ps' -> ps = ps'.
Proof.
  intros IH. destruct ps as [|p ps], ps' as [|p' ps']; try discriminate.
  - reflexivity.
  - rewrite !join_rest_cons. intros [= H]. apply IH, H.
Qed.

(** Comma-joining plain type names loses nothing. *)
Lemma join_plain_inj (ts ts' : list string) :
  forallb plain ts = true -> forallb plain ts' = true ->
  join "," ts = join "," ts' -> ts = ts'.
Proof.
  revert ts'. induction ts as [|t ts IH]; intros [|t' ts'] Hts Hts' Heq.
  - reflexivity.
  - cbn [forallb] in Hts'. apply andb_true_iff in Hts' as [Ht' _].
    apply plain_inv in Ht' as (Hne & _). rewrite join_cons in Heq.
    destruct t'; [congruence|discriminate].
  - cbn [forallb] in Hts. apply andb_true_iff in Hts as [Ht _].
    apply plain_inv in Ht as (Hne & _). rewrite join_cons in Heq.
    destruct t; [congruence|discriminate].
  - cbn [forallb] in Hts, Hts'.
    apply andb_true_iff in Hts as [Ht Hts].
    apply andb_true_iff in Hts' as [Ht' Hts'].
    rewrite !join_cons in Heq.
    apply plain_inv in Ht as (_ & Hc & _).
    apply plain_inv in Ht' as (_ & Hc' & _).
    destruct (app_join_rest_inj _ _ _ _ Hc Hc' Heq) as [-> Hrest].
    f_equal. apply join_rest_inj; [apply IH; assumption|exact Hrest].
Qed.

Lemma join_plain_free_of (d : ascii) (ts : list string) :
  free_of d "," = true ->
  (forall t, plain t = true -> free_of d t = true) ->
  forallb plain ts = true -> free_of d (join "," ts) = true.
Proof.
  intros Hsep Hd Hts. apply join_free_of; [exact Hsep|].
  apply Forall_forall. intros t Hin. apply Hd.
  rewrite forallb_forall in Hts. apply Hts, list_elem_of_In, Hin.
Qed.

Lemma forallb_comp_type (p : string -> bool) (cs : list ABIComponent) :
  forallb p (map comp_type cs) = forallb (fun c => p (comp_type c)) cs.
Proof.
  induction cs as [|c cs IH]; [reflexivity|].
  cbn [map forallb]. rewrite IH. reflexivity.
Qed.

(** The two kinds of well-formed parameters and their texts. *)
Lemma valid_input_cases (input : ABIComponent) :
  valid_input input = true ->
  (plain (comp_type input) = true
   /\ type_shape input = (comp_type input, [])
   /\ shape_text (type_shape input) = comp_type input)
  \/ (exists (types : list string) (suffix : string),
        forallb plain types = true
        /\ type_shape input = ("tuple" +:+ suffix, types)
        /\ shape_text (type_shape input)
           = String "(" (join "," types +:+ String ")" suffix)
        /\ (suffix = "" \/ suffix = "[]")).
Proof.
  unfold valid_input, type_shape, shape_text, is_tuple_type.
  cbn [fst snd].
  destruct (String.eqb_spec (comp_type input) "tuple[]") as [E1|E1].
  { cbn [orb]. destruct (comp_components input) as [cs|]; [|discriminate].
    intros Hcs. right. exists (map comp_type cs), "[]".
    cbn [default]. rewrite E1.
    split; [rewrite forallb_comp_type; exact Hcs|].
    split; [reflexivity|]. split; [|auto].
    rewrite str_app_cons, str_app_nil_l. reflexivity. }
  destruct (String.eqb_spec (comp_type input) "tuple") as [E2|E2].
  { cbn [orb]. destruct (comp_components input) as [cs|]; [|discriminate].
    intros Hcs. right. exists (map comp_type cs), "".
    cbn [default]. rewrite E2.
    split; [rewrite forallb_comp_type; exact Hcs|].
    split; [reflexivity|]. split; [|auto].
    rewrite str_app_cons, str_app_nil_l. reflexivity. }
  cbn [orb]. intros Hp. left. auto.
Qed.

Lemma valid_has_components (inputs : list ABIComponent) :
  forallb valid_input inputs = true -> forallb has_components inputs = true.
Proof.
  rewrite !forallb_forall. intros H i Hi. specialize (H i Hi).
  unfold valid_input, has_components in *.
  destruct (is_tuple_type (comp_type i)); [|reflexivity].
  destruct (comp_components i); [|discriminate].
  apply bool_decide_eq_true. eauto.
Qed.

(** The text of a well-formed parameter, followed by the rest of the
    comma-joined list, determines the parameter's shape. *)
Lemma shape_text_prefix_inj (i i' : ABIComponent) (ps ps' : list string) :
  valid_input i = true -> valid_input i' = true ->
  shape_text (type_shape i) +:+ join_rest ps
  = shape_text (type_shape i') +:+ join_rest ps' ->
  type_shape i = type_shape i' /\ join_rest ps = join_rest ps'.
Proof.
  intros Hi Hi'.
  destruct (valid_input_cases i Hi)
    as [(Hp & Hs & Ht)|(ts & suf & Hts & Hs & Ht & Hsuf)];
  destruct (valid_input_cases i' Hi')
    as [(Hp' & Hs' & Ht')|(ts' & suf' & Hts' & Hs' & Ht' & Hsuf')];
  rewrite Ht, Ht', Hs, Hs'; intros Heq.
  - apply plain_inv in Hp as (_ & Hc & _).
    apply plain_inv in Hp' as (_ & Hc' & _).
    destruct (app_join_rest_inj _ _ _ _ Hc Hc' Heq) as [-> ->]. auto.
  - apply plain_inv in Hp as (Hne & _ & Hopen & _).
    destruct (comp_type i) as [|c t]; [congruence|].
    rewrite !str_app_cons in Heq. injection Heq as -> _.
    rewrite free_of_cons, Ascii.eqb_refl in Hopen. discriminate.
  - apply plain_inv in Hp' as (Hne & _ & Hopen & _).
    destruct (comp_type i') as [|c t]; [congruence|].
    rewrite !str_app_cons in Heq. injection Heq as <- _.
    rewrite free_of_cons, Ascii.eqb_refl in Hopen. discriminate.
  - rewrite !str_app_cons, !str_app_assoc, !str_app_cons in Heq.
    injection Heq as Heq.
    assert (forall l, forallb plain l = true ->
                      free_of ")" (join "," l) = true) as Hclose.
    { intros l. apply join_plain_free_of; [reflexivity|].
      intros t Hp. apply plain_inv in Hp. tauto. }
    destruct (app_delim_inj _ _ _ _ _ (Hclose _ Hts) (Hclose _ Hts') Heq)
      as [Hjoin Hrest].
    apply (join_plain_inj _ _ Hts Hts') in Hjoin as ->.
    assert (free_of "," suf = true) as Hc
      by (destruct Hsuf as [-> | ->]; reflexivity).
    assert (free_of "," suf' = true) as Hc'
      by (destruct Hsuf' as [-> | ->]; reflexivity).
    destruct (app_join_rest_inj _ _ _ _ Hc Hc' Hrest) as [-> ->]. auto.
Qed.

Lemma shape_text_nonempty (i : ABIComponent) :
  valid_input i = true -> shape_text (type_shape i) <> "".
Proof.
  intros Hi.
  destruct (valid_input_cases i Hi)
    as [(Hp & _ & ->)|(ts & suf & _ & _ & -> & _)]; [|discriminate].
  apply plain_inv in Hp. tauto.
Qed.

(** The comma-joined parameter texts determine the sequence of
    shapes. *)
Lemma shape_texts_inj (inputs inputs' : list ABIComponent) :
  forallb valid_input inputs = true ->
  forallb valid_input inputs' = true ->
  join "," (map (fun i => shape_text (type_shape i)) inputs)
  = join "," (map (fun i => shape_text (type_shape i)) inputs') ->
  map type_shape inputs = map type_shape inputs'.
Proof.
  revert inputs'.
  induction inputs as [|i inputs IH]; intros [|i' inputs'] Hv Hv' Heq.
  - reflexivity.
  - cbn [forallb] in Hv'. apply andb_true_iff in Hv' as [Hi' _].
    apply shape_text_nonempty in Hi'. cbn [map] in Heq.
    rewrite join_cons in Heq.
    destruct (shape_text (type_shape i')); [congruence|discriminate].
  - cbn [forallb] in Hv. apply andb_true_iff in Hv as [Hi _].
    apply shape_text_nonempty in Hi. cbn [map] in Heq.
    rewrite join_cons in Heq.
    destruct (shape_text (type_shape i)); [congruence|discriminate].
  - cbn [forallb] in Hv, Hv'.
    apply andb_true_iff in Hv as [Hi Hv].
    apply andb_true_iff in Hv' as [Hi' Hv'].
    cbn [map] in *. rewrite !join_cons in Heq.
    destruct (shape_text_prefix_inj _ _ _ _ Hi Hi' Heq) as [-> Hrest].
    f_equal.
    assert (map (fun i => shape_text (type_shape i)) inputs
            = map (fun i => shape_text (type_shape i)) inputs') as Hmap.
    { apply join_rest_inj; [|exact Hrest]. intros Hjoin.
      specialize (IH inputs' Hv Hv' Hjoin).
      rewrite <- !(map_map type_shape shape_text), IH. reflexivity. }
    apply IH; [assumption..|]. rewrite Hmap. reflexivity.
Qed.

Lemma str_app_inj_r (a b c : string) : a +:+ c = b +:+ c -> a = b.
Proof.
  revert b. induction a as [|x a IH]; intros [|y b] H.
  - reflexivity.
  - exfalso. apply (f_equal String.length) in H.
    rewrite str_app_nil_l, str_length_app in H. simpl in H. lia.
  - exfalso. apply (f_equal String.length) in H.
    rewrite str_app_nil_l, str_length_app in H. simpl in H. lia.
  - rewrite !str_app_cons in H. injection H as -> H. f_equal. apply IH, H.
Qed.

Lemma signature_text_inj (name : string) (ts ts' : list string) :
  signature_text name ts = signature_text name ts' ->
  join "," ts = join "," ts'.
Proof.
  unfold signature_text. intros H.
  apply String.app_inj in H. apply String.app_inj in H.
  apply str_app_inj_r in H. exact H.
Qed.

(** C8 (amended): the canonicalizer takes parameters and tuple
    components in declaration order, and the canonical signature text
    of a well-formed event determines the sequence of parameter types
    and tuple component types: two entries of the same name have the
    same text exactly when these sequences are equal.  Hence a
    reordering that changes the sequence of types changes the text, a
    reordering of equally typed parameters does not, and the derived
    signatures coincide exactly when keccak-256 agrees on the two
    texts. *)
Theorem event_signature_order_sensitive
    (name : string) (inputs inputs' : list ABIComponent) :
  forallb valid_input inputs = true ->
  forallb valid_input inputs' = true ->
  exists text text' : string,
    event_canonical (event_entry name inputs) = Ok text
    /\ event_canonical (event_entry name inputs') = Ok text'
    /\ text = signature_text name
                (map (fun i => shape_text (type_shape i)) inputs)
    /\ (text = text' <-> map type_shape inputs = map type_shape inputs')
    /\ event_signature (event_entry name inputs)
       = Ok (hex (keccak_text text))
    /\ (event_signature (event_entry name inputs)
        = event_signature (event_entry name inputs')
        <-> keccak_text text = keccak_text text').
Proof.
  intros Hv Hv'.
  pose proof (event_canonical_join name inputs (valid_has_components _ Hv))
    as Hc.
  pose proof (event_canonical_join name inputs' (valid_has_components _ Hv'))
    as Hc'.
  eexists _, _. split; [exact Hc|]. split; [exact Hc'|].
  split; [reflexivity|]. split; [|split].
  - split.
    + intros H. apply signature_text_inj in H.
      apply shape_texts_inj; assumption.
    + intros H. rewrite <- !(map_map type_shape shape_text), H. reflexivity.
  - unfold event_signature. rewrite Hc. cbn [bind].
    rewrite un_prefix_0x_hex. reflexivity.
  - unfold event_signature. rewrite Hc, Hc'. cbn [bind].
    rewrite !un_prefix_0x_hex. split.
    + intros [= H]. apply hex_inj, H.
    + intros ->. reflexivity.
Qed.

Lemma event_signature_order_sensitive_witness :
  forallb valid_input deposit_inputs = true
  /\ forallb valid_input deposit_inputs_reordered = true
  /\ event_canonical (event_entry "Deposit" deposit_inputs)
     = Ok "Deposit(address,uint256)"
  /\ event_canonical (event_entry "Deposit" deposit_inputs_reordered)
     = Ok "Deposit(uint256,address)"
  /\ event_signature (event_entry "Deposit" deposit_inputs)
     <> event_signature (event_entry "Deposit" deposit_inputs_reordered).
Proof.
  split; [reflexivity|]. split; [reflexivity|].
  destruct (event_signature_order_sensitive "Deposit"
              deposit_inputs deposit_inputs_reordered eq_refl eq_refl)
    as (text & text' & Hc & Hc' & _ & _ & _ & Hsig).
  split; [reflexivity|]. split; [reflexivity|].
  intros H. apply Hsig in H.
  injection Hc as <-. injection Hc' as <-.
  vm_compute in H. discriminate H.
Defined.

(** C8 (as stated) fails: exchanging the two [address] parameters of
    [Transfer] gives a different entry with the same canonical text
    and the same signature. *)
Lemma event_signature_reordering_same_types :
  transfer_inputs <> transfer_inputs_reordered
  /\ Permutation transfer_inputs transfer_inputs_reordered
  /\ forallb valid_input transfer_inputs = true
  /\ event_canonical (event_entry "Transfer" transfer_inputs)
     = Ok "Transfer(address,address,uint256)"
  /\ event_canonical (event_entry "Transfer" transfer_inputs_reordered)
     = Ok "Transfer(address,address,uint256)"
  /\ event_signature (event_entry "Transfer" transfer_inputs)
     = event_signature (event_entry "Transfer" transfer_inputs_reordered).
Proof.
  split; [discriminate|]. split; [apply perm_swap|].
  repeat split; reflexivity.
Qed.

(** ** Attestation requests *)

(** C3 (amended): decoding an attestation request never looks at the
    length of the payload: for every log whose [args] carry a bytes
    payload under [data], [from_dict] succeeds and stores the payload
    as it is.  The length matters only when an accessor is called:
    [attestation_type] is what the constructor makes of the slice
    [data[0:32]] and [source_id] what it makes of [data[32:64]]; byte
    [k] of the first slice is byte [k] of the payload and byte [k] of
    the second is byte [32 + k], as far as the payload reaches, and
    with at least 64 bytes both slices are 32 bytes long.  With
    constructors that accept nothing but 32 bytes, an accessor never
    returns a value made of a truncated slice: [attestation_type]
    returns only on a payload of at least 32 bytes and [source_id]
    only on one of at least 64 bytes; on a shorter payload the
    accessor raises what the constructor raises. *)
Theorem attestation_request_slices
    (VotingEpoch AttestationType AttestationSource : Type)
    (AttestationType_init : PyVal -> result AttestationType)
    (AttestationSource_init : PyVal -> result AttestationSource)
    (log : EventData) (voting_epoch : VotingEpoch)
    (payload : list byte) :
  args log !! "data" = Some (PBytes payload) ->
  exists (request : AttestationRequest.t VotingEpoch) (type source : list byte),
    AttestationRequest.from_dict log voting_epoch = Ok request
    /\ request = AttestationRequest.mk VotingEpoch (logIndex log)
                   (blockNumber log) voting_epoch (PBytes payload)
    /\ AttestationRequest.attestation_type AttestationType_init request
       = AttestationType_init (PBytes type)
    /\ AttestationRequest.source_id AttestationSource_init request
       = AttestationSource_init (PBytes source)
    /\ (forall k, k < 32 -> type !! k = payload !! k)
    /\ (forall k, k < 32 -> source !! k = payload !! (32 + k))
    /\ length type = Nat.min 32 (length payload)
    /\ length source = Nat.min 32 (length payload - 32)
    /\ (64 <= length payload -> length type = 32 /\ length source = 32)
    /\ (accepts_only_32_bytes AttestationType_init ->
        (forall t,
           AttestationRequest.attestation_type AttestationType_init request
           = Ok t ->
           32 <= length payload /\ length type = 32)
        /\ (length payload < 32 ->
            exists e,
              AttestationRequest.attestation_type AttestationType_init
                request
              = Err e
              /\ AttestationType_init (PBytes payload) = Err e))
    /\ (accepts_only_32_bytes AttestationSource_init ->
        (forall s,
           AttestationRequest.source_id AttestationSource_init request
           = Ok s ->
           64 <= length payload /\ length source = 32)
        /\ (length payload < 64 ->
            exists e,
              AttestationRequest.source_id AttestationSource_init request
              = Err e)).
Proof.
  intros Hdata.
  exists (AttestationRequest.mk VotingEpoch (logIndex log) (blockNumber log)
            voting_epoch (PBytes payload)),
         (slice 0 32 payload), (slice 32 64 payload).
  split.
  { unfold AttestationRequest.from_dict, lookup_key. rewrite Hdata.
    reflexivity. }
  split; [reflexivity|]. split; [reflexivity|]. split; [reflexivity|].
  unfold AttestationRequest.attestation_type, AttestationRequest.source_id.
  cbn [AttestationRequest.data py_slice bind].
  unfold slice. cbn [Nat.sub skipn].
  split; [intros k Hk; apply lookup_take_lt, Hk|].
  split.
  { intros k Hk. rewrite lookup_take_lt by exact Hk. apply lookup_drop. }
  rewrite !length_take, !length_drop.
  split; [lia|]. split; [lia|]. split; [intros H64; split; lia|].
  split.
  - intros Honly. split.
    + intros t Ht. apply Honly in Ht as (bs & [= <-] & Hlen).
      rewrite length_take, length_drop in Hlen. lia.
    + intros Hshort.
      rewrite drop_0, firstn_all2 by lia.
      destruct (AttestationType_init (PBytes payload)) as [t|e] eqn:Hinit.
      * apply Honly in Hinit as (bs & [= <-] & Hlen). lia.
      * exists e. split; reflexivity.
  - intros Honly. split.
    + intros s Hs. apply Honly in Hs as (bs & [= <-] & Hlen).
      rewrite length_take, length_drop in Hlen. lia.
    + intros Hshort.
      destruct (AttestationSource_init (PBytes (take 32 (drop 32 payload))))
        as [s|e] eqn:Hinit.
      * apply Honly in Hinit as (bs & [= <-] & Hlen).
        rewrite length_take, length_drop in Hlen. lia.
      * exists e. reflexivity.
Qed.

Lemma checked_bytes32_accepts_only_32_bytes :
  accepts_only_32_bytes checked_bytes32.
Proof.
  intros v a. destruct v as [| | | |bs|]; try discriminate.
  cbn [checked_bytes32].
  destruct (Nat.eqb (length bs) 32) eqn:Hlen; [|discriminate].
  intros _. exists bs. split; [reflexivity|].
  apply Nat.eqb_eq, Hlen.
Defined.

Lemma attestation_request_slices_witness :
  args short_log !! "data" = Some (PBytes short_payload)
  /\ accepts_only_32_bytes checked_bytes32
  /\ (exists request : AttestationRequest.t Z,
        AttestationRequest.from_dict short_log 7%Z = Ok request
        /\ exists e,
             AttestationRequest.source_id checked_bytes32 request = Err e)
  /\ exists (request : AttestationRequest.t Z) (type : list byte),
       AttestationRequest.from_dict long_log 7%Z = Ok request
       /\ AttestationRequest.attestation_type checked_bytes32 request
          = checked_bytes32 (PBytes type)
       /\ type !! 0 = long_payload !! 0
       /\ length type = 32.
Proof.
  split; [reflexivity|].
  split; [exact checked_bytes32_accepts_only_32_bytes|].
  split.
  - destruct (attestation_request_slices Z (list byte) (list byte)
                checked_bytes32 checked_bytes32
                short_log 7%Z short_payload eq_refl)
      as (request & type & source & Hfrom & _ & _ & _ & _ & _ & _ & _ & _
          & _ & Hsource).
    exists request. split; [exact Hfrom|].
    apply (proj2 (Hsource checked_bytes32_accepts_only_32_bytes)).
    vm_compute. lia.
  - destruct (attestation_request_slices Z (list byte) (list byte)
                checked_bytes32 checked_bytes32
                long_log 7%Z long_payload eq_refl)
      as (request & type & source & Hfrom & _ & Htype & _ & Hbytes & _ & _
          & _ & Hlen & _).
    exists request, type. split; [exact Hfrom|]. split; [exact Htype|].
    split; [apply Hbytes; lia|].
    apply Hlen. vm_compute. lia.
Defined.

(** C3 (as stated) fails: a log whose payload has 10 bytes decodes.
    [from_dict] returns a value that holds these 10 bytes, whatever
    the constructors of the attestation type and source do; no error
    is raised by the decoding. *)
Lemma attestation_request_short_payload_decodes :
  length short_payload = 10
  /\ args short_log !! "data" = Some (PBytes short_payload)
  /\ AttestationRequest.from_dict short_log 7%Z
     = Ok (AttestationRequest.mk Z 3%Z 100%Z 7%Z (PBytes short_payload))
  /\ forall e, AttestationRequest.from_dict short_log 7%Z <> Err e.
Proof. repeat split; try reflexivity. intros e; discriminate. Qed.

(** ** Registry resolution *)

Lemma Contracts_init_inserted (c1 c2 c3 c4 c5 c6 c7 : Contract.t) :
  Contracts.init
    (<["FastUpdater" := c7]> (<["FdcHub" := c6]> (<["Submission" := c5]>
      (<["Relay" := c4]> (<["FlareSystemsManager" := c3]>
        (<["FlareSystemsCalculator" := c2]>
          (<["VoterRegistry" := c1]> ∅)))))))
  = Ok (Contracts.mk c1 c2 c3 c4 c5 c6 c7).
Proof.
  unfold Contracts.init, Contracts.kwarg.
  repeat (rewrite ?lookup_insert_eq;
          rewrite ?lookup_insert_ne by discriminate; cbn [bind]).
  reflexivity.
Qed.

(** [Contracts.get_contracts] is the sequence of the seven resolutions. *)
Lemma get_contracts_unfold
    (abi_from_file_location : string -> result (list ABIElement))
    (getContractAddressByName : string -> result string) :
  let resolve_name :=
    Contracts.resolve abi_from_file_location getContractAddressByName in
  Contracts.get_contracts abi_from_file_location getContractAddressByName
  = (c1 <- resolve_name "VoterRegistry" ;;
     c2 <- resolve_name "FlareSystemsCalculator" ;;
     c3 <- resolve_name "FlareSystemsManager" ;;
     c4 <- resolve_name "Relay" ;;
     c5 <- resolve_name "Submission" ;;
     c6 <- resolve_name "FdcHub" ;;
     c7 <- resolve_name "FastUpdater" ;;
     Ok (Contracts.mk c1 c2 c3 c4 c5 c6 c7)).
Proof.
  intros resolve_name.
  unfold Contracts.get_contracts, Contracts.attr_names.
  cbn [Contracts.names_loop]. fold resolve_name.
  destruct (resolve_name "VoterRegistry") as [c1|]; [|reflexivity].
  destruct (resolve_name "FlareSystemsCalculator") as [c2|]; [|reflexivity].
  destruct (resolve_name "FlareSystemsManager") as [c3|]; [|reflexivity].
  destruct (resolve_name "Relay") as [c4|]; [|reflexivity].
  destruct (resolve_name "Submission") as [c5|]; [|reflexivity].
  destruct (resolve_name "FdcHub") as [c6|]; [|reflexivity].
  destruct (resolve_name "FastUpdater") as [c7|]; [|reflexivity].
  cbn [bind]. apply Contracts_init_inserted.
Qed.





(** ** Message reconstruction *)

Lemma byte_of_N_to_N (m : N) :
  Byte.to_N (Keccak.byte_of_N m) = (m mod 256)%N.
Proof.
  unfold Keccak.byte_of_N.
  destruct (Byte.of_N (m mod 256)) as [b|] eqn:E.
  - apply Byte.to_of_N, E.
  - apply Byte.of_N_None_iff in E.
    pose proof (N.mod_upper_bound m 256). lia.
Qed.

Lemma big_endian_length (k : nat) (n : Z) : length (big_endian k n) = k.
Proof.
  revert n. induction k as [|k IH]; intros n; [reflexivity|].
  cbn [big_endian]. rewrite length_app, IH. simpl. lia.
Qed.

Lemma from_big_endian_snoc (bs : list byte) (b : byte) :
  from_big_endian (bs ++ [b])
  = (256 * from_big_endian bs + Z.of_N (Byte.to_N b))%Z.
Proof. unfold from_big_endian. rewrite fold_left_app. reflexivity. Qed.

Lemma from_big_endian_big_endian (k : nat) (n : Z) :
  (0 <= n < 256 ^ Z.of_nat k)%Z -> from_big_endian (big_endian k n) = n.
Proof.
  revert n. induction k as [|k IH]; intros n Hn.
  - change (256 ^ Z.of_nat 0)%Z with 1%Z in Hn.
    cbn [big_endian]. unfold from_big_endian. simpl. lia.
  - cbn [big_endian]. rewrite from_big_endian_snoc, byte_of_N_to_N.
    rewrite Nat2Z.inj_succ, Z.pow_succ_r in Hn by lia.
    rewrite IH by (split; [apply Z.div_pos; lia
                          |apply Z.div_lt_upper_bound; lia]).
    rewrite N2Z.inj_mod, Z2N.id by (apply Z.mod_pos_bound; lia).
    change (Z.of_N 256) with 256%Z.
    rewrite Z.mod_mod by lia.
    symmetry. apply Z.div_mod. lia.
Qed.

Lemma to_bytes_in_range (n : Z) (k : nat) :
  (0 <= n < 256 ^ Z.of_nat k)%Z -> to_bytes n k = Ok (big_endian k n).
Proof.
  intros [H0 H1]. unfold to_bytes.
  apply Z.leb_le in H0. apply Z.ltb_lt in H1. rewrite H0, H1. reflexivity.
Qed.

Lemma to_bytes_out_of_range (n : Z) (k : nat) :
  ~ (0 <= n < 256 ^ Z.of_nat k)%Z -> to_bytes n k = Err OverflowError.
Proof.
  intros H. unfold to_bytes.
  destruct (0 <=? n)%Z eqn:H0; [|reflexivity].
  destruct (n <? 256 ^ Z.of_nat k)%Z eqn:H1; [|reflexivity].
  apply Z.leb_le in H0. apply Z.ltb_lt in H1. tauto.
Qed.

Lemma to_bytes_bool (b : bool) :
  to_bytes (Z.b2z b) 1 = Ok [if b then x01 else x00].
Proof. destruct b; reflexivity. Qed.

Lemma hex_char_facts (c : ascii) :
  is_hex_char c = true ->
  is_space c = false /\ (hex_value c < 16)%N
  /\ hex_digit (hex_value c) = lower_char c.
Proof.
  destruct c as [[] [] [] [] [] [] [] []]; vm_compute;
    first [discriminate | intros _; repeat split; reflexivity].
Qed.

Lemma hex_pair (h l : N) :
  (h < 16)%N -> (l < 16)%N ->
  hex [Keccak.byte_of_N (16 * h + l)]
  = String (hex_digit h) (String (hex_digit l) "").
Proof.
  intros Hh Hl. cbn [hex]. rewrite byte_of_N_to_N.
  rewrite (N.mod_small (16 * h + l) 256) by lia.
  replace ((16 * h + l) / 16)%N with h
    by (apply N.div_unique with l; lia).
  replace ((16 * h + l) mod 16)%N with l
    by (apply N.mod_unique with h; lia).
  reflexivity.
Qed.

(** Hexadecimal text of [n] bytes is accepted by [bytes.fromhex] and
    denotes [n] bytes, whose hex encoding is the text in lowercase. *)
Lemma fromhex_hex_string (n : nat) (s : string) :
  is_hex_string n s = true ->
  exists bs, fromhex s = Ok bs /\ length bs = n /\ hex bs = lower s.
Proof.
  unfold is_hex_string. revert s. induction n as [|n IH]; intros s.
  - destruct s; [|discriminate]. intros _. exists []. auto.
  - replace (2 * S n) with (S (S (2 * n))) by lia.
    destruct s as [|c [|c' s]]; try discriminate.
    cbn [String.length Nat.eqb str_forallb].
    intros [Hlen [Hc [Hc' Hs]%andb_true_iff]%andb_true_iff]%andb_true_iff.
    destruct (IH s) as (bs & Hbs & Hl & Hx); [rewrite Hlen, Hs; reflexivity|].
    destruct (hex_char_facts c Hc) as (Hsp & Hv & Hd).
    destruct (hex_char_facts c' Hc') as (_ & Hv' & Hd').
    eexists. cbn [fromhex]. rewrite Hsp, Hc, Hc', Hbs. cbn [andb bind].
    split; [reflexivity|]. split; [simpl; lia|].
    change (?b :: bs) with ([b] ++ bs). rewrite hex_app, hex_pair, Hx, Hd, Hd'
      by assumption.
    reflexivity.
Qed.

Lemma fromhex_error (s : string) (e : PyError) :
  fromhex s = Err e -> e = ValueError.
Proof.
  assert (forall s, (forall e, fromhex s = Err e -> e = ValueError)
                    /\ forall c e, fromhex (String c s) = Err e
                                   -> e = ValueError) as H.
  { clear. induction s as [|c' s [IH1 IH2]].
    - split; [discriminate|]. intros c e. cbn [fromhex].
      destruct (is_space c); [discriminate|congruence].
    - split; [apply IH2|]. intros c e. cbn [fromhex].
      destruct (is_space c); [apply IH2|].
      destruct (is_hex_char c && is_hex_char c'); [|congruence].
      destruct (fromhex s) as [bs|e0] eqn:E; [discriminate|].
      cbn [bind]. intros [= <-]. apply IH1. reflexivity. }
  apply H.
Qed.

Lemma hash_encode_defunct (primitive : list byte) :
  _hash_eip191_message (encode_defunct primitive)
  = Ok (personal_sign_digest primitive).
Proof.
  unfold _hash_eip191_message, encode_defunct, personal_sign_digest.
  cbn [version header body]. reflexivity.
Qed.

(** [to_message] on a message whose fields all convert. *)
Lemma to_message_ok (self : ProtocolMessageRelayed.t) (root : list byte) :
  (0 <= ProtocolMessageRelayed.protocol_id self < 256)%Z ->
  (0 <= ProtocolMessageRelayed.voting_round_id self < 2 ^ 32)%Z ->
  fromhex (ProtocolMessageRelayed.merkle_root self) = Ok root ->
  ProtocolMessageRelayed.to_message self
  = Ok (personal_sign_digest
          (Keccak.keccak256
             (big_endian 1 (ProtocolMessageRelayed.protocol_id self)
                ++ big_endian 4 (ProtocolMessageRelayed.voting_round_id self)
                ++ [if ProtocolMessageRelayed.is_secure_random self
                    then x01 else x00]
                ++ root))).
Proof.
  intros Hp Hv Hroot.
  unfold ProtocolMessageRelayed.to_message,
    ProtocolMessageRelayed.message_bytes.
  rewrite (to_bytes_in_range _ 1) by exact Hp.
  rewrite (to_bytes_in_range _ 4) by exact Hv.
  rewrite to_bytes_bool, Hroot. cbn [bind].
  apply hash_encode_defunct.
Qed.

(** C5 (amended): for a message whose merkle root is hexadecimal text
    of exactly 32 bytes, whose protocol id fits one byte and whose
    voting round id fits four bytes, [to_message] returns the EIP-191
    personal-sign digest of the keccak-256 hash of 38 bytes: the
    protocol id as 1 big-endian byte, the voting round id as 4
    big-endian bytes, 1 byte for the randomness flag (0 or 1) and the
    32 bytes the merkle root denotes. *)
Theorem to_message_is_personal_sign_digest (self : ProtocolMessageRelayed.t) :
  is_hex_string 32 (ProtocolMessageRelayed.merkle_root self) = true ->
  (0 <= ProtocolMessageRelayed.protocol_id self < 256)%Z ->
  (0 <= ProtocolMessageRelayed.voting_round_id self < 2 ^ 32)%Z ->
  exists b1 b2 b3 root : list byte,
    length b1 = 1
    /\ from_big_endian b1 = ProtocolMessageRelayed.protocol_id self
    /\ length b2 = 4
    /\ from_big_endian b2 = ProtocolMessageRelayed.voting_round_id self
    /\ b3 = [if ProtocolMessageRelayed.is_secure_random self then x01 else x00]
    /\ length root = 32
    /\ hex root = lower (ProtocolMessageRelayed.merkle_root self)
    /\ fromhex (ProtocolMessageRelayed.merkle_root self) = Ok root
    /\ length (b1 ++ b2 ++ b3 ++ root) = 38
    /\ ProtocolMessageRelayed.to_message self
       = Ok (personal_sign_digest
               (Keccak.keccak256 (b1 ++ b2 ++ b3 ++ root)))
    /\ length (personal_sign_digest
                 (Keccak.keccak256 (b1 ++ b2 ++ b3 ++ root))) = 32.
Proof.
  intros Hroot Hp Hv.
  destruct (fromhex_hex_string 32 _ Hroot) as (root & Hfrom & Hlen & Hhex).
  exists (big_endian 1 (ProtocolMessageRelayed.protocol_id self)),
         (big_endian 4 (ProtocolMessageRelayed.voting_round_id self)),
         [if ProtocolMessageRelayed.is_secure_random self then x01
          else x00],
         root.
  split; [apply big_endian_length|].
  split; [apply (from_big_endian_big_endian 1), Hp|].
  split; [apply big_endian_length|].
  split; [apply (from_big_endian_big_endian 4), Hv|].
  split; [reflexivity|]. split; [exact Hlen|]. split; [exact Hhex|].
  split; [exact Hfrom|].
  split; [rewrite !length_app, !big_endian_length, Hlen; reflexivity|].
  split; [apply to_message_ok; assumption|].
  apply keccak256_length.
Qed.

(** Range conditions on the fields of a concrete message. *)
Ltac field_range := vm_compute; split; [discriminate|reflexivity].

Lemma to_message_is_personal_sign_digest_witness :
  is_hex_string 32 (ProtocolMessageRelayed.merkle_root golden_message) = true
  /\ (0 <= ProtocolMessageRelayed.protocol_id golden_message < 256)%Z
  /\ (0 <= ProtocolMessageRelayed.voting_round_id golden_message < 2 ^ 32)%Z
  /\ exists digest : list byte,
       ProtocolMessageRelayed.to_message golden_message = Ok digest
       /\ length digest = 32.
Proof.
  split; [reflexivity|]. split; [field_range|]. split; [field_range|].
  destruct (to_message_is_personal_sign_digest golden_message eq_refl)
    as (b1 & b2 & b3 & root & H); [field_range..|].
  eexists. split; [apply H|apply H].
Defined.

(** C5 (as stated) fails: with a valid 32-byte merkle root but a
    protocol id of 256, [to_message] raises [OverflowError]. *)
Lemma to_message_protocol_id_overflow :
  is_hex_string 32 (ProtocolMessageRelayed.merkle_root oversized_message) = true
  /\ ProtocolMessageRelayed.protocol_id oversized_message = 256%Z
  /\ ProtocolMessageRelayed.to_message oversized_message = Err OverflowError.
Proof. repeat split; reflexivity. Qed.

(** [bytes.fromhex] on text without whitespace: accepted exactly when
    it is an even number of hex digits. *)
Lemma fromhex_hex_string_inv (s : string) (bs : list byte) :
  str_forallb (fun c => negb (is_space c)) s = true ->
  fromhex s = Ok bs -> is_hex_string (length bs) s = true.
Proof.
  assert (forall s,
            (forall bs, str_forallb (fun c => negb (is_space c)) s = true ->
                        fromhex s = Ok bs ->
                        is_hex_string (length bs) s = true)
            /\ (forall c bs,
                  str_forallb (fun c => negb (is_space c)) (String c s)
                  = true ->
                  fromhex (String c s) = Ok bs ->
                  is_hex_string (length bs) (String c s) = true)) as H.
  { clear. induction s as [|c' s [IH1 IH2]].
    - split; [intros bs _ [= <-]; reflexivity|].
      intros c bs. cbn [str_forallb fromhex].
      destruct (is_space c); discriminate.
    - split; [apply IH2|]. intros c bs. cbn [str_forallb fromhex].
      destruct (is_space c); [discriminate|]. cbn [negb andb].
      intros [_ Hs]%andb_true_iff.
      destruct (is_hex_char c) eqn:Hc; [|discriminate].
      destruct (is_hex_char c') eqn:Hc'; [|discriminate].
      cbn [andb]. destruct (fromhex s) as [bs'|] eqn:E; [|discriminate].
      cbn [bind]. intros [= <-].
      specialize (IH1 bs' Hs eq_refl). unfold is_hex_string in *.
      apply andb_true_iff in IH1 as [Hlen Hall].
      apply Nat.eqb_eq in Hlen.
      cbn [length String.length str_forallb]. rewrite Hc, Hc', Hall, Hlen.
      cbn [andb]. rewrite andb_true_r. apply Nat.eqb_eq. lia. }
  apply H.
Qed.

(** C6 (amended): for a message whose ids are in range, [to_message]
    fails exactly when [bytes.fromhex] rejects the merkle root, and
    then with [ValueError].  The length of the root is not checked:
    hexadecimal text of any number of bytes is accepted, so with a
    valid 32-byte root it does not fail; text without whitespace that
    is not an even number of hex digits is rejected. *)
Theorem to_message_failure_modes (self : ProtocolMessageRelayed.t) :
  (0 <= ProtocolMessageRelayed.protocol_id self < 256)%Z ->
  (0 <= ProtocolMessageRelayed.voting_round_id self < 2 ^ 32)%Z ->
  (forall e, ProtocolMessageRelayed.to_message self = Err e -> e = ValueError)
  /\ is_ok (ProtocolMessageRelayed.to_message self)
     = is_ok (fromhex (ProtocolMessageRelayed.merkle_root self))
  /\ (forall n,
        is_hex_string n (ProtocolMessageRelayed.merkle_root self) = true ->
        exists digest,
          ProtocolMessageRelayed.to_message self = Ok digest
          /\ length digest = 32)
  /\ (str_forallb (fun c => negb (is_space c))
        (ProtocolMessageRelayed.merkle_root self) = true ->
      (forall n,
         is_hex_string n (ProtocolMessageRelayed.merkle_root self) = false) ->
      ProtocolMessageRelayed.to_message self = Err ValueError).
Proof.
  intros Hp Hv.
  set (root_text := ProtocolMessageRelayed.merkle_root self).
  assert (forall e, fromhex root_text = Err e ->
                    ProtocolMessageRelayed.to_message self = Err ValueError)
    as Herr.
  { intros e He. pose proof (fromhex_error _ _ He) as ->.
    unfold ProtocolMessageRelayed.to_message,
      ProtocolMessageRelayed.message_bytes.
    fold root_text.
    rewrite (to_bytes_in_range _ 1) by exact Hp.
    rewrite (to_bytes_in_range _ 4) by exact Hv.
    rewrite to_bytes_bool, He. reflexivity. }
  split; [|split; [|split]].
  - intros e He. destruct (fromhex root_text) as [root|e0] eqn:E.
    + rewrite (to_message_ok self root Hp Hv E) in He. discriminate.
    + rewrite (Herr e0 eq_refl) in He. congruence.
  - destruct (fromhex root_text) as [root|e0] eqn:E.
    + rewrite (to_message_ok self root Hp Hv E). reflexivity.
    + rewrite (Herr e0 eq_refl). reflexivity.
  - intros n Hn.
    destruct (fromhex_hex_string n _ Hn) as (root & Hroot & _).
    eexists. split; [apply (to_message_ok self root Hp Hv Hroot)|].
    apply keccak256_length.
  - intros Hns Hnot.
    destruct (fromhex root_text) as [root|e0] eqn:E.
    + pose proof (fromhex_hex_string_inv _ _ Hns E) as H.
      rewrite Hnot in H. discriminate.
    + apply (Herr e0 eq_refl).
Qed.

Lemma to_message_failure_modes_witness :
  (0 <= ProtocolMessageRelayed.protocol_id rootless_message < 256)%Z
  /\ (0 <= ProtocolMessageRelayed.voting_round_id rootless_message < 2 ^ 32)%Z
  /\ is_ok (ProtocolMessageRelayed.to_message rootless_message) = true.
Proof.
  split; [field_range|]. split; [field_range|].
  destruct (to_message_failure_modes rootless_message) as (_ & -> & _);
    [field_range..|reflexivity].
Defined.

(** C6 (as stated) fails: an empty merkle root is not 32 bytes of hex
    and [to_message] succeeds on it; and when the protocol id is out
    of range a malformed root is never reported, the error being
    [OverflowError]. *)
Lemma to_message_accepts_short_root :
  is_hex_string 32 (ProtocolMessageRelayed.merkle_root rootless_message) = false
  /\ fromhex (ProtocolMessageRelayed.merkle_root rootless_message) = Ok []
  /\ (exists digest : list byte,
        ProtocolMessageRelayed.to_message rootless_message = Ok digest
        /\ hex digest
           = "2278929bbfc7a643340a0c98ac6aae787f6a41e6c5a78ff85ff3a7268d101569")
  /\ ProtocolMessageRelayed.to_message
       (ProtocolMessageRelayed.mk 256 123456 true "zz" 0)
     = Err OverflowError.
Proof.
  split; [reflexivity|]. split; [reflexivity|].
  split; [|reflexivity].
  eexists. split; vm_compute; reflexivity.
Qed.

(** ** Voter registration *)

(** [VoterRegistered.from_dict] on a log that carries every key. *)
Lemma VoterRegistered_from_dict_ok (d : gmap string PyVal)
    (v_epoch v_weight a1 a2 a3 a4 : PyVal) (epoch weight : Z)
    (part1 part2 : list byte) :
  d !! "rewardEpochId" = Some v_epoch -> py_int v_epoch = Ok epoch ->
  d !! "voter" = Some a1 ->
  d !! "signingPolicyAddress" = Some a2 ->
  d !! "submitAddress" = Some a3 ->
  d !! "submitSignaturesAddress" = Some a4 ->
  d !! "publicKeyPart1" = Some (PBytes part1) ->
  d !! "publicKeyPart2" = Some (PBytes part2) ->
  d !! "registrationWeight" = Some v_weight -> py_int v_weight = Ok weight ->
  VoterRegistered.from_dict d
  = Ok (VoterRegistered.mk epoch a1 a2 a3 a4 (hex part1 +:+ hex part2) weight).
Proof.
  intros H1 H2 H3 H4 H5 H6 H7 H8 H9 H10.
  unfold VoterRegistered.from_dict, lookup_key.
  rewrite H1. cbn [bind]. rewrite H2. cbn [bind].
  rewrite H3, H4, H5, H6, H7. cbn [bind py_hex].
  rewrite H8. cbn [bind py_hex]. rewrite H9. cbn [bind].
  rewrite H10. reflexivity.
Qed.

(** Every successful decoding read its fields from the raw [args]. *)
Lemma VoterRegistered_from_dict_inv (d : gmap string PyVal)
    (decoded : VoterRegistered.t) :
  VoterRegistered.from_dict d = Ok decoded ->
  exists (v_epoch v_weight : PyVal) (part1 part2 : list byte),
    d !! "rewardEpochId" = Some v_epoch
    /\ py_int v_epoch = Ok (VoterRegistered.reward_epoch_id decoded)
    /\ d !! "voter" = Some (VoterRegistered.voter decoded)
    /\ d !! "signingPolicyAddress"
       = Some (VoterRegistered.signing_policy_address decoded)
    /\ d !! "submitAddress" = Some (VoterRegistered.submit_address decoded)
    /\ d !! "submitSignaturesAddress"
       = Some (VoterRegistered.submit_signatures_address decoded)
    /\ d !! "publicKeyPart1" = Some (PBytes part1)
    /\ d !! "publicKeyPart2" = Some (PBytes part2)
    /\ VoterRegistered.public_key decoded = hex part1 +:+ hex part2
    /\ d !! "registrationWeight" = Some v_weight
    /\ py_int v_weight = Ok (VoterRegistered.registration_weight decoded).
Proof.
  unfold VoterRegistered.from_dict, lookup_key.
  destruct (d !! "rewardEpochId") as [v1|]; [|discriminate].
  cbn [bind]. destruct (py_int v1) as [epoch|] eqn:E1; [|discriminate].
  cbn [bind]. destruct (d !! "voter") as [a1|]; [|discriminate].
  destruct (d !! "signingPolicyAddress") as [a2|]; [|discriminate].
  destruct (d !! "submitAddress") as [a3|]; [|discriminate].
  destruct (d !! "submitSignaturesAddress") as [a4|]; [|discriminate].
  destruct (d !! "publicKeyPart1") as [v2|]; [|discriminate].
  cbn [bind]. destruct v2 as [| | | |part1|]; try discriminate.
  cbn [bind py_hex].
  destruct (d !! "publicKeyPart2") as [v3|]; [|discriminate].
  cbn [bind]. destruct v3 as [| | | |part2|]; try discriminate.
  cbn [bind py_hex].
  destruct (d !! "registrationWeight") as [v4|]; [|discriminate].
  cbn [bind]. destruct (py_int v4) as [weight|] eqn:E4; [|discriminate].
  cbn [bind]. intros [= <-]. exists v1, v4, part1, part2.
  repeat split; assumption || reflexivity.
Qed.

(** C7 (amended): decoding a [VoterRegistered] log does not normalize
    addresses.  The four address fields of every decoded value are the
    raw [args] values, whatever their casing, so each is in checksummed
    form exactly when the supplied value is; and a log that carries
    every key decodes. *)
Theorem voter_registered_addresses_pass_through (d : gmap string PyVal) :
  (forall decoded : VoterRegistered.t,
     VoterRegistered.from_dict d = Ok decoded ->
     d !! "voter" = Some (VoterRegistered.voter decoded)
     /\ d !! "signingPolicyAddress"
       = Some (VoterRegistered.signing_policy_address decoded)
     /\ d !! "submitAddress" = Some (VoterRegistered.submit_address decoded)
     /\ d !! "submitSignaturesAddress"
        = Some (VoterRegistered.submit_signatures_address decoded)
     /\ (checksummed <$> d !! "voter")
        = Some (checksummed (VoterRegistered.voter decoded))
     /\ (checksummed <$> d !! "signingPolicyAddress")
        = Some (checksummed (VoterRegistered.signing_policy_address decoded))
     /\ (checksummed <$> d !! "submitAddress")
        = Some (checksummed (VoterRegistered.submit_address decoded))
     /\ (checksummed <$> d !! "submitSignaturesAddress")
        = Some (checksummed
                  (VoterRegistered.submit_signatures_address decoded)))
  /\ (forall (v_epoch v_weight a1 a2 a3 a4 : PyVal) (epoch weight : Z)
             (part1 part2 : list byte),
        d !! "rewardEpochId" = Some v_epoch -> py_int v_epoch = Ok epoch ->
        d !! "voter" = Some a1 ->
        d !! "signingPolicyAddress" = Some a2 ->
        d !! "submitAddress" = Some a3 ->
        d !! "submitSignaturesAddress" = Some a4 ->
        d !! "publicKeyPart1" = Some (PBytes part1) ->
        d !! "publicKeyPart2" = Some (PBytes part2) ->
        d !! "registrationWeight" = Some v_weight ->
        py_int v_weight = Ok weight ->
        exists decoded : VoterRegistered.t,
          VoterRegistered.from_dict d = Ok decoded
          /\ VoterRegistered.voter decoded = a1
          /\ VoterRegistered.signing_policy_address decoded = a2
          /\ VoterRegistered.submit_address decoded = a3
          /\ VoterRegistered.submit_signatures_address decoded = a4).
Proof.
  split.
  - intros decoded H.
    destruct (VoterRegistered_from_dict_inv d decoded H)
      as (_ & _ & _ & _ & _ & _ & H1 & H2 & H3 & H4 & _).
    rewrite H1, H2, H3, H4. repeat split; reflexivity.
  - intros. eexists.
    split; [eapply VoterRegistered_from_dict_ok; eassumption|].
    repeat split; reflexivity.
Qed.

Lemma voter_registered_addresses_pass_through_witness :
  exists decoded : VoterRegistered.t,
    VoterRegistered.from_dict lowercase_voter_args = Ok decoded
    /\ VoterRegistered.voter decoded
       = PStr "0xad67fe66660fb8dfe9d6b1b4240d8650e30f6019".
Proof.
  destruct (proj2 (voter_registered_addresses_pass_through
                     lowercase_voter_args)
              (PInt 5) (PInt 1000)
              (PStr "0xad67fe66660fb8dfe9d6b1b4240d8650e30f6019")
              (PStr "0xad67fe66660fb8dfe9d6b1b4240d8650e30f6019")
              (PStr "0xad67fe66660fb8dfe9d6b1b4240d8650e30f6019")
              (PStr "0xad67fe66660fb8dfe9d6b1b4240d8650e30f6019")
              5%Z 1000%Z [x01; xab] [xcd; x02]
              eq_refl eq_refl eq_refl eq_refl eq_refl eq_refl eq_refl
              eq_refl eq_refl eq_refl)
    as (decoded & Hd & Hv & _).
  exists decoded. split; [exact Hd|exact Hv].
Defined.

(** C7 (as stated) fails: lowercase addresses in the raw [args] come
    out in lowercase, not in the checksummed form
    [0xaD67FE66660Fb8dFE9d6b1b4240d8650e30F6019]. *)
Lemma voter_registered_keeps_lowercase :
  to_checksum_address "0xad67fe66660fb8dfe9d6b1b4240d8650e30f6019"
  = Ok "0xaD67FE66660Fb8dFE9d6b1b4240d8650e30F6019"
  /\ exists decoded : VoterRegistered.t,
       VoterRegistered.from_dict lowercase_voter_args = Ok decoded
       /\ VoterRegistered.voter decoded
          = PStr "0xad67fe66660fb8dfe9d6b1b4240d8650e30f6019"
       /\ checksummed (VoterRegistered.voter decoded) = false
       /\ checksummed (VoterRegistered.signing_policy_address decoded) = false
       /\ checksummed (VoterRegistered.submit_address decoded) = false
       /\ checksummed (VoterRegistered.submit_signatures_address decoded)
          = false.
Proof.
  split; [vm_compute; reflexivity|].
  eexists. split; [vm_compute; reflexivity|].
  repeat split; vm_compute; reflexivity.
Qed.

(** C9: whenever a [VoterRegistered] log decodes, its two key parts
    are bytes and the decoded public key is the hex encoding of
    [publicKeyPart1] immediately followed by the hex encoding of
    [publicKeyPart2]; and a log that carries every key, with two bytes
    parts, decodes. *)
Theorem voter_registered_public_key (d : gmap string PyVal) :
  (forall decoded : VoterRegistered.t,
     VoterRegistered.from_dict d = Ok decoded ->
     exists part1 part2 : list byte,
       d !! "publicKeyPart1" = Some (PBytes part1)
       /\ d !! "publicKeyPart2" = Some (PBytes part2)
       /\ VoterRegistered.public_key decoded = hex part1 +:+ hex part2
       /\ VoterRegistered.public_key decoded = hex (part1 ++ part2)
       /\ String.length (VoterRegistered.public_key decoded)
          = 2 * length part1 + 2 * length part2
       /\ fromhex (VoterRegistered.public_key decoded) = Ok (part1 ++ part2))
  /\ (forall (v_epoch v_weight a1 a2 a3 a4 : PyVal) (epoch weight : Z)
             (part1 part2 : list byte),
        d !! "rewardEpochId" = Some v_epoch -> py_int v_epoch = Ok epoch ->
        d !! "voter" = Some a1 ->
        d !! "signingPolicyAddress" = Some a2 ->
        d !! "submitAddress" = Some a3 ->
        d !! "submitSignaturesAddress" = Some a4 ->
        d !! "publicKeyPart1" = Some (PBytes part1) ->
        d !! "publicKeyPart2" = Some (PBytes part2) ->
        d !! "registrationWeight" = Some v_weight ->
        py_int v_weight = Ok weight ->
        exists decoded : VoterRegistered.t,
          VoterRegistered.from_dict d = Ok decoded
          /\ VoterRegistered.public_key decoded = hex part1 +:+ hex part2).
Proof.
  split.
  - intros decoded H.
    destruct (VoterRegistered_from_dict_inv d decoded H)
      as (_ & _ & part1 & part2 & _ & _ & _ & _ & _ & _ & H1 & H2 & Hk & _).
    exists part1, part2. rewrite Hk.
    split; [exact H1|]. split; [exact H2|]. split; [reflexivity|].
    split; [symmetry; apply hex_app|].
    split; [rewrite str_length_app, !hex_length; reflexivity|].
    rewrite <- hex_app. apply fromhex_hex.
  - intros. eexists.
    split; [eapply VoterRegistered_from_dict_ok; eassumption|reflexivity].
Qed.

Lemma voter_registered_public_key_witness :
  exists decoded : VoterRegistered.t,
    VoterRegistered.from_dict lowercase_voter_args = Ok decoded
    /\ VoterRegistered.public_key decoded = "01abcd02".
Proof.
  destruct (proj2 (voter_registered_public_key lowercase_voter_args)
              (PInt 5) (PInt 1000)
              (PStr "0xad67fe66660fb8dfe9d6b1b4240d8650e30f6019")
              (PStr "0xad67fe66660fb8dfe9d6b1b4240d8650e30f6019")
              (PStr "0xad67fe66660fb8dfe9d6b1b4240d8650e30f6019")
              (PStr "0xad67fe66660fb8dfe9d6b1b4240d8650e30f6019")
              5%Z 1000%Z [x01; xab] [xcd; x02]
              eq_refl eq_refl eq_refl eq_refl eq_refl eq_refl eq_refl
              eq_refl eq_refl eq_refl)
    as (decoded & Hd & Hk).
  exists decoded. split; [exact Hd|exact Hk].
Defined.

(** ** Fast update feeds *)

(** C10: [FastUpdateFeeds.from_dict] reads the voting round from the
    [votingEpochId] key of [args].  Without that key decoding fails,
    whatever else the log carries (a [votingRoundId] key included);
    with it, and with convertible [feeds] and [decimals], decoding
    succeeds and [voting_round_id] is its integer value; and every
    successful decoding took [voting_round_id] from that key. *)
Theorem fast_update_feeds_reads_voting_epoch_id (log : EventData) :
  (args log !! "votingEpochId" = None ->
   FastUpdateFeeds.from_dict log = Err (KeyError "votingEpochId"))
  /\ (forall (v raw_feeds raw_decimals : PyVal) (n : Z)
             (feed_items decimal_items : list PyVal) (fs ds : list Z),
        args log !! "votingEpochId" = Some v -> py_int v = Ok n ->
        args log !! "feeds" = Some raw_feeds ->
        py_iter raw_feeds = Ok feed_items ->
        comprehension py_int feed_items = Ok fs ->
        args log !! "decimals" = Some raw_decimals ->
        py_iter raw_decimals = Ok decimal_items ->
        comprehension py_int decimal_items = Ok ds ->
        FastUpdateFeeds.from_dict log
        = Ok (FastUpdateFeeds.mk n (address log) (transactionHash log) fs ds))
  /\ (forall decoded : FastUpdateFeeds.t,
        FastUpdateFeeds.from_dict log = Ok decoded ->
        exists v, args log !! "votingEpochId" = Some v
                  /\ py_int v = Ok (FastUpdateFeeds.voting_round_id decoded)).
Proof.
  unfold FastUpdateFeeds.from_dict, lookup_key. split; [|split].
  - intros ->. reflexivity.
  - intros v rf rd n fi di fs ds H1 H2 H3 H4 H5 H6 H7 H8.
    rewrite H1. cbn [bind]. rewrite H2. cbn [bind].
    rewrite H3. cbn [bind]. rewrite H4. cbn [bind].
    rewrite H5. cbn [bind]. rewrite H6. cbn [bind].
    rewrite H7. cbn [bind]. rewrite H8. reflexivity.
  - intros decoded.
    destruct (args log !! "votingEpochId") as [v|]; [|discriminate].
    cbn [bind]. destruct (py_int v) as [n|] eqn:Hn; [|discriminate].
    cbn [bind]. intros H. exists v. split; [reflexivity|].
    destruct (args log !! "feeds") as [rf|]; [|discriminate].
    cbn [bind] in H. destruct (py_iter rf) as [fi|]; [|discriminate].
    cbn [bind] in H.
    destruct (comprehension py_int fi) as [fs|]; [|discriminate].
    cbn [bind] in H.
    destruct (args log !! "decimals") as [rd|]; [|discriminate].
    cbn [bind] in H. destruct (py_iter rd) as [di|]; [|discriminate].
    cbn [bind] in H.
    destruct (comprehension py_int di) as [ds|]; [|discriminate].
    cbn [bind] in H. injection H as <-. exact Hn.
Qed.

Lemma fast_update_feeds_reads_voting_epoch_id_witness :
  (args (feeds_log "votingRoundId") !! "votingRoundId" = Some (PInt 42)
   /\ args (feeds_log "votingRoundId") !! "votingEpochId" = None
   /\ FastUpdateFeeds.from_dict (feeds_log "votingRoundId")
      = Err (KeyError "votingEpochId"))
  /\ FastUpdateFeeds.from_dict (feeds_log "votingEpochId")
     = Ok (FastUpdateFeeds.mk 42
             "0xaD67FE66660Fb8dFE9d6b1b4240d8650e30F6019" [xab; xcd]
             [100; 200]%Z [2; 3]%Z).
Proof.
  split.
  - split; [reflexivity|]. split; [reflexivity|].
    exact (proj1 (fast_update_feeds_reads_voting_epoch_id
                    (feeds_log "votingRoundId")) eq_refl).
  - exact (proj1 (proj2 (fast_update_feeds_reads_voting_epoch_id
                           (feeds_log "votingEpochId")))
             (PInt 42) (PList [PInt 100; PInt 200])
             (PList [PInt 2; PInt 3]) 42%Z
             [PInt 100; PInt 200] [PInt 2; PInt 3] [100; 200]%Z [2; 3]%Z
             eq_refl eq_refl eq_refl eq_refl eq_refl eq_refl eq_refl
             eq_refl).
Defined.

(** * Further properties *)

(** ** Prefix removal and event signatures *)

Lemma substring_all (s : string) : substring 0 (String.length s) s = s.
Proof.
  induction s as [|c s IH]; [reflexivity|]. simpl. rewrite IH. reflexivity.
Qed.

Lemma prefix_empty (s : string) : String.prefix "" s = true.
Proof. destruct s; reflexivity. Qed.

(** X1: [un_prefix_0x] removes one leading lowercase [0x] and nothing
    else: a second prefix stays, an uppercase [0X] stays, and a text
    without the prefix is returned as it is. *)
Theorem un_prefix_0x_once (s : string) :
  un_prefix_0x ("0x" +:+ s) = s
  /\ un_prefix_0x ("0X" +:+ s) = "0X" +:+ s
  /\ (String.prefix "0x" s = false -> un_prefix_0x s = s)
  /\ (String.prefix "0x" s = true -> s = "0x" +:+ un_prefix_0x s).
Proof.
  unfold un_prefix_0x, removeprefix.
  split; [|split; [|split]].
  - rewrite !str_app_cons, str_app_nil_l.
    cbn [String.prefix String.length Nat.sub substring].
    destruct (ascii_dec "0" "0") as [_|H]; [|congruence].
    destruct (ascii_dec "x" "x") as [_|H]; [|congruence].
    rewrite prefix_empty, Nat.sub_0_r. apply substring_all.
  - rewrite !str_app_cons, str_app_nil_l. cbn [String.prefix].
    destruct (ascii_dec "0" "0") as [_|H]; [|congruence].
    destruct (ascii_dec "x" "X") as [H|_]; [discriminate H|reflexivity].
  - intros ->. reflexivity.
  - intros H. rewrite H. destruct s as [|c1 [|c2 s]].
    + discriminate H.
    + cbn [String.prefix] in H.
      destruct (ascii_dec "0" c1); discriminate H.
    + cbn [String.prefix] in H.
      destruct (ascii_dec "0" c1) as [<-|]; [|discriminate H].
      destruct (ascii_dec "x" c2) as [<-|]; [|discriminate H].
      cbn [String.length Nat.sub substring]. rewrite Nat.sub_0_r.
      rewrite substring_all. reflexivity.
Qed.

Lemma un_prefix_0x_once_witness :
  String.prefix "0x" "0x0xab" = true
  /\ un_prefix_0x "0x0xab" = "0xab".
Proof.
  split; [reflexivity|].
  exact (proj1 (un_prefix_0x_once "0xab")).
Defined.

Lemma event_signature_of_text (event_abi : ABIElement) (text : string) :
  event_canonical event_abi = Ok text ->
  event_signature event_abi = Ok (hex (keccak_text text)).
Proof.
  intros H. unfold event_signature. rewrite H. cbn [bind].
  rewrite un_prefix_0x_hex. reflexivity.
Qed.

(** X2: the outcomes of [event_signature].  It raises [KeyError] for
    a missing [inputs] key, for a tuple parameter without
    [components] (found before the name is looked at) and for a
    missing [name]; otherwise it returns the hex keccak-256 digest of
    the name and the comma-joined parameter texts.  A returned
    signature is 64 lowercase hex digits. *)
Theorem event_signature_outcomes (event_abi : ABIElement) :
  (el_inputs event_abi = None ->
   event_signature event_abi = Err (KeyError "inputs"))
  /\ (forall inputs,
        el_inputs event_abi = Some inputs ->
        forallb has_components inputs = false ->
        event_signature event_abi = Err (KeyError "components"))
  /\ (forall inputs,
        el_inputs event_abi = Some inputs ->
        forallb has_components inputs = true ->
        el_name event_abi = None ->
        event_signature event_abi = Err (KeyError "name"))
  /\ (forall inputs name,
        el_inputs event_abi = Some inputs ->
        forallb has_components inputs = true ->
        el_name event_abi = Some name ->
        event_signature event_abi
        = Ok (hex (keccak_text
                     (signature_text name
                        (map (fun i => shape_text (type_shape i)) inputs)))))
  /\ (forall signature,
        event_signature event_abi = Ok signature ->
        String.length signature = 64
        /\ str_forallb is_lower_hex signature = true
        /\ String.prefix "0x" signature = false).
Proof.
  unfold event_signature, event_canonical.
  split; [|split; [|split; [|split]]].
  - intros ->. reflexivity.
  - intros inputs -> H. cbn [getitem bind].
    rewrite inputs_loop_missing_components by exact H. reflexivity.
  - intros inputs -> H ->. cbn [getitem bind].
    rewrite inputs_loop_join by exact H. reflexivity.
  - intros inputs name -> H ->. cbn [getitem bind].
    rewrite inputs_loop_join by exact H. cbn [bind].
    rewrite un_prefix_0x_hex. reflexivity.
  - intros signature.
    destruct (el_inputs event_abi) as [inputs|]; [|discriminate].
    cbn [getitem bind].
    destruct (inputs_loop 0 inputs "") as [params|]; [|discriminate].
    cbn [bind]. destruct (el_name event_abi) as [name|]; [|discriminate].
    cbn [getitem bind]. rewrite un_prefix_0x_hex. intros [= <-].
    rewrite hex_length. unfold keccak_text. rewrite keccak256_length.
    split; [reflexivity|]. split; [apply hex_lower|].
    apply prefix_0x_free, lower_hex_not_x, hex_lower.
Qed.

Lemma event_signature_outcomes_witness :
  event_signature (mkABIElement (Some "event") None
                     (Some [mkABIComponent "t" "tuple" None]))
  = Err (KeyError "components")
  /\ event_signature (event_entry "Transfer" transfer_inputs)
     = Ok "ddf252ad1be2c89b69c2b068fc378daa952ba7f163c4a11628f55a4df523b3ef".
Proof.
  split.
  - exact (proj1 (proj2 (event_signature_outcomes
                           (mkABIElement (Some "event") None
                              (Some [mkABIComponent "t" "tuple" None]))))
             _ eq_refl eq_refl).
  - exact (proj1 (proj2 (proj2 (proj2 (event_signature_outcomes
                                         (event_entry "Transfer"
                                            transfer_inputs)))))
             transfer_inputs "Transfer" eq_refl eq_refl eq_refl).
Defined.

Lemma shape_text_non_tuple (input : ABIComponent) :
  is_tuple_type (comp_type input) = false ->
  shape_text (type_shape input) = comp_type input
  /\ has_components input = true.
Proof.
  unfold shape_text, type_shape, has_components, is_tuple_type.
  cbn [fst snd]. intros H. rewrite H.
  apply orb_false_iff in H as [-> ->]. auto.
Qed.

(** X3: on an entry none of whose parameters is a tuple,
    [Function.to_full_name] and the text hashed by [event_signature]
    are the same, so the function selector is the first 8 digits of
    the event signature of the same entry. *)
Theorem function_selector_is_event_signature_prefix
    (name contract : string) (abi : ABIElement)
    (inputs : list ABIComponent) :
  el_name abi = Some name ->
  el_inputs abi = Some inputs ->
  forallb (fun i => negb (is_tuple_type (comp_type i))) inputs = true ->
  Function.to_full_name name abi = event_canonical abi
  /\ exists signature,
       event_signature abi = Ok signature
       /\ Function.init name abi contract
          = Ok (Function.mk name abi contract (str_take 8 signature)).
Proof.
  intros Hname Hinputs Hplain.
  assert (forall l,
            forallb (fun i => negb (is_tuple_type (comp_type i))) l = true ->
            map (fun i => shape_text (type_shape i)) l = map comp_type l
            /\ forallb has_components l = true) as Hall.
  { induction l as [|i l IH]; [auto|].
    cbn [forallb]. intros [Hi Hrest]%andb_true_iff.
    apply negb_true_iff in Hi.
    destruct (shape_text_non_tuple i Hi) as [Ht Hc].
    destruct (IH Hrest) as [IH1 IH2].
    cbn [map forallb]. rewrite Ht, Hc, IH1, IH2. auto. }
  destruct (Hall inputs Hplain) as [Hmap Hcomp].
  assert (event_canonical abi
          = Ok (signature_text name (map comp_type inputs))) as Hcanon.
  { unfold event_canonical. rewrite Hinputs. cbn [getitem bind].
    rewrite inputs_loop_join by exact Hcomp. cbn [bind].
    rewrite Hname, Hmap. reflexivity. }
  assert (Function.to_full_name name abi
          = Ok (signature_text name (map comp_type inputs))) as Hfull.
  { unfold Function.to_full_name. rewrite Hinputs. reflexivity. }
  split; [rewrite Hfull, Hcanon; reflexivity|].
  eexists. split; [apply event_signature_of_text, Hcanon|].
  unfold Function.init. rewrite Hfull. reflexivity.
Qed.

Lemma function_selector_is_event_signature_prefix_witness :
  exists signature,
    event_signature transfer_abi = Ok signature
    /\ Function.init "transfer" transfer_abi "Token"
       = Ok (Function.mk "transfer" transfer_abi "Token"
               (str_take 8 signature)).
Proof.
  exact (proj2 (function_selector_is_event_signature_prefix
                  "transfer" "Token" transfer_abi _
                  eq_refl eq_refl eq_refl)).
Defined.

(** ** The tables of a contract *)

Lemma entry_matches_iff (type name : string) (entry : ABIElement) :
  entry_matches type name entry = true
  <-> el_type entry = Some type /\ el_name entry = Some name.
Proof.
  unfold entry_matches. rewrite andb_true_iff, !bool_decide_eq_true.
  reflexivity.
Qed.

Lemma last_entry_cons (type name : string) (entry : ABIElement)
    (rest : list ABIElement) :
  last_entry type name (entry :: rest)
  = match last_entry type name rest with
    | Some later => Some later
    | None => if entry_matches type name entry then Some entry else None
    end.
Proof. reflexivity. Qed.

Lemma last_entry_skip (type name : string) (entry : ABIElement)
    (rest : list ABIElement) :
  entry_matches type name entry = false ->
  last_entry type name (entry :: rest) = last_entry type name rest.
Proof.
  intros H. rewrite last_entry_cons, H.
  destruct (last_entry type name rest); reflexivity.
Qed.

(** What the loop of [__attrs_post_init__] leaves in the two tables
    under a name: the descriptor of the last entry of that name, or
    what the table held before. *)
Lemma entries_loop_tables (contract : string) (abi : list ABIElement) :
  forall (events events' : gmap string Event.t)
         (functions functions' : gmap string Function.t),
    Contract.entries_loop contract abi events functions
    = Ok (events', functions') ->
    forall k,
      match last_entry "event" k abi with
      | Some entry =>
          exists signature,
            event_signature entry = Ok signature
            /\ events' !! k = Some (Event.mk k entry contract signature)
      | None => events' !! k = events !! k
      end
      /\ match last_entry "function" k abi with
         | Some entry =>
             exists full_name,
               Function.to_full_name k entry = Ok full_name
               /\ functions' !! k
                  = Some (Function.mk k entry contract
                            (function_signature full_name))
         | None => functions' !! k = functions !! k
         end.
Proof.
  induction abi as [|entry rest IH]; intros events events' functions
    functions' Hloop k.
  { injection Hloop as <- <-. cbn [last_entry]. auto. }
  cbn [Contract.entries_loop] in Hloop.
  destruct (el_type entry) as [type|] eqn:Htype; [|discriminate].
  cbn [assert_in getitem bind] in Hloop.
  destruct (String.eqb_spec type "event") as [->|Hne].
  { destruct (el_name entry) as [name|] eqn:Hname; [|discriminate].
    cbn [assert_in getitem bind] in Hloop. unfold Event.init in Hloop.
    destruct (event_signature entry) as [signature|] eqn:Hsig;
      [|discriminate].
    cbn [bind] in Hloop. specialize (IH _ _ _ _ Hloop k).
    destruct IH as [IHe IHf]. split.
    - rewrite last_entry_cons.
      destruct (last_entry "event" k rest); [exact IHe|].
      destruct (entry_matches "event" k entry) eqn:Hm.
      + apply entry_matches_iff in Hm as [_ Hk].
        assert (name = k) as -> by congruence.
        exists signature. split; [exact Hsig|].
        rewrite IHe. apply lookup_insert_eq.
      + rewrite IHe. apply lookup_insert_ne. intros ->.
        assert (entry_matches "event" k entry = true) as Hm'
          by (apply entry_matches_iff; auto).
        congruence.
    - rewrite last_entry_skip; [exact IHf|].
      apply not_true_iff_false. rewrite entry_matches_iff.
      intros [H _]. congruence. }
  destruct (String.eqb_spec type "function") as [->|Hnf].
  { destruct (el_name entry) as [name|] eqn:Hname; [|discriminate].
    cbn [assert_in getitem bind] in Hloop. unfold Function.init in Hloop.
    destruct (Function.to_full_name name entry) as [full_name|] eqn:Hfull;
      [|discriminate].
    cbn [bind] in Hloop. specialize (IH _ _ _ _ Hloop k).
    destruct IH as [IHe IHf]. split.
    - rewrite last_entry_skip; [exact IHe|].
      apply not_true_iff_false. rewrite entry_matches_iff.
      intros [H _]. congruence.
    - rewrite last_entry_cons.
      destruct (last_entry "function" k rest); [exact IHf|].
      destruct (entry_matches "function" k entry) eqn:Hm.
      + apply entry_matches_iff in Hm as [_ Hk].
        assert (name = k) as -> by congruence.
        exists full_name. split; [exact Hfull|].
        rewrite IHf. apply lookup_insert_eq.
      + rewrite IHf. apply lookup_insert_ne. intros ->.
        assert (entry_matches "function" k entry = true) as Hm'
          by (apply entry_matches_iff; auto).
        congruence. }
  specialize (IH _ _ _ _ Hloop k). destruct IH as [IHe IHf].
  rewrite !last_entry_skip; [auto| |].
  - apply not_true_iff_false. rewrite entry_matches_iff.
    intros [H _]. congruence.
  - apply not_true_iff_false. rewrite entry_matches_iff.
    intros [H _]. congruence.
Qed.

Lemma Contract_init_inv
    (abi_from_file_location : string -> result (list ABIElement))
    (name address file_location : string) (contract : Contract.t) :
  Contract.init abi_from_file_location name address file_location
  = Ok contract ->
  abi_from_file_location file_location = Ok (Contract.abi contract)
  /\ Contract.name contract = name
  /\ Contract.address contract = address
  /\ Contract.entries_loop name (Contract.abi contract) ∅ ∅
     = Ok (Contract.events contract, Contract.functions contract).
Proof.
  unfold Contract.init.
  destruct (abi_from_file_location file_location) as [abi|]; [|discriminate].
  cbn [bind].
  destruct (Contract.entries_loop name abi ∅ ∅) as [[events functions]|]
    eqn:Hloop; [|discriminate].
  cbn [bind]. intros [= <-]. cbn. auto.
Qed.

(** X4: the tables of a constructed contract are keyed by entry name
    and keep one descriptor per name, the one of the last entry:
    [events] maps a name to the last [event] entry of that name in the
    ABI and [functions] to the last [function] entry, so that earlier
    overloads are overwritten, names without such an entry are absent
    and entries of other types appear in neither table. *)
Theorem contract_tables_keep_last_entry
    (abi_from_file_location : string -> result (list ABIElement))
    (name address file_location : string) (contract : Contract.t) :
  Contract.init abi_from_file_location name address file_location
  = Ok contract ->
  forall k : string,
    Event.abi <$> Contract.events contract !! k
    = last_entry "event" k (Contract.abi contract)
    /\ Function.abi <$> Contract.functions contract !! k
       = last_entry "function" k (Contract.abi contract).
Proof.
  intros Hinit k.
  destruct (Contract_init_inv _ _ _ _ _ Hinit) as (_ & _ & _ & Hloop).
  destruct (entries_loop_tables _ _ _ _ _ _ Hloop k) as [He Hf].
  split.
  - destruct (last_entry "event" k (Contract.abi contract)).
    + destruct He as (signature & _ & ->). reflexivity.
    + rewrite He, lookup_empty. reflexivity.
  - destruct (last_entry "function" k (Contract.abi contract)).
    + destruct Hf as (full_name & _ & ->). reflexivity.
    + rewrite Hf, lookup_empty. reflexivity.
Qed.

Lemma contract_tables_keep_last_entry_witness :
  exists contract : Contract.t,
    Contract.init (fun _ => Ok overloaded_abi) "Submission" ZERO_ADDRESS
      (artifact_location "Submission") = Ok contract
    /\ Function.abi <$> Contract.functions contract !! "submit"
       = Some (mkABIElement (Some "function") (Some "submit")
                 (Some [ mkABIComponent "a" "uint256" None;
                         mkABIComponent "b" "bytes" None ]))
    /\ Event.abi <$> Contract.events contract !! "submit" = None.
Proof.
  destruct (Contract.init (fun _ => Ok overloaded_abi) "Submission"
              ZERO_ADDRESS (artifact_location "Submission"))
    as [contract|] eqn:Hinit; [|vm_compute in Hinit; discriminate Hinit].
  exists contract. split; [reflexivity|].
  destruct (contract_tables_keep_last_entry _ _ _ _ _ Hinit "submit")
    as [He Hf].
  destruct (Contract_init_inv _ _ _ _ _ Hinit) as (Habi & _).
  injection Habi as Habi. rewrite <- Habi in He, Hf.
  split; [exact Hf|exact He].
Defined.

(** X5: every descriptor in the tables of a constructed contract is
    consistent with its key and its entry: an [Event] stored under a
    name carries that name, the contract's name, an entry of the ABI
    and the signature [event_signature] derives from that entry; a
    [Function] likewise carries the selector of its own full name. *)
Theorem contract_tables_consistent
    (abi_from_file_location : string -> result (list ABIElement))
    (name address file_location : string) (contract : Contract.t) :
  Contract.init abi_from_file_location name address file_location
  = Ok contract ->
  (forall k event,
     Contract.events contract !! k = Some event ->
     Event.name event = k
     /\ Event.contract event = name
     /\ Event.abi event ∈ Contract.abi contract
     /\ el_type (Event.abi event) = Some "event"
     /\ el_name (Event.abi event) = Some k
     /\ event_signature (Event.abi event) = Ok (Event.signature event))
  /\ (forall k function,
        Contract.functions contract !! k = Some function ->
        Function.name function = k
        /\ Function.contract function = name
        /\ Function.abi function ∈ Contract.abi contract
        /\ el_type (Function.abi function) = Some "function"
        /\ el_name (Function.abi function) = Some k
        /\ exists full_name,
             Function.to_full_name k (Function.abi function) = Ok full_name
             /\ Function.signature function = function_signature full_name).
Proof.
  intros Hinit.
  destruct (Contract_init_inv _ _ _ _ _ Hinit) as (_ & _ & _ & Hloop).
  assert (forall abi type k entry,
            last_entry type k abi = Some entry ->
            entry ∈ abi
            /\ el_type entry = Some type /\ el_name entry = Some k) as Hlast.
  { clear. intros abi type k entry. induction abi as [|x l IH];
      [discriminate|].
    rewrite last_entry_cons. destruct (last_entry type k l) as [later|].
    - intros [= ->]. destruct (IH eq_refl) as (Hin & Ht & Hn).
      split; [apply list_elem_of_further, Hin|auto].
    - destruct (entry_matches type k x) eqn:Hm; [|discriminate].
      intros [= ->]. apply entry_matches_iff in Hm as [Ht Hn].
      split; [apply list_elem_of_here|auto]. }
  split.
  - intros k event Hk.
    destruct (entries_loop_tables _ _ _ _ _ _ Hloop k) as [He _].
    destruct (last_entry "event" k (Contract.abi contract)) as [entry|]
      eqn:Hentry.
    + destruct He as (signature & Hsig & Hev).
      rewrite Hk in Hev. injection Hev as ->.
      destruct (Hlast _ _ _ _ Hentry) as (Hin & Ht & Hn).
      cbn. auto 10.
    + rewrite He, lookup_empty in Hk. discriminate.
  - intros k function Hk.
    destruct (entries_loop_tables _ _ _ _ _ _ Hloop k) as [_ Hf].
    destruct (last_entry "function" k (Contract.abi contract)) as [entry|]
      eqn:Hentry.
    + destruct Hf as (full_name & Hfull & Hfn).
      rewrite Hk in Hfn. injection Hfn as ->.
      destruct (Hlast _ _ _ _ Hentry) as (Hin & Ht & Hn).
      cbn. repeat split; try assumption. eauto.
    + rewrite Hf, lookup_empty in Hk. discriminate.
Qed.

Lemma contract_tables_consistent_witness :
  exists contract : Contract.t,
    Contract.init (fun _ => Ok overloaded_abi) "Submission" ZERO_ADDRESS
      (artifact_location "Submission") = Ok contract
    /\ forall k event,
         Contract.events contract !! k = Some event ->
         Event.name event = k.
Proof.
  destruct (Contract.init (fun _ => Ok overloaded_abi) "Submission"
              ZERO_ADDRESS (artifact_location "Submission"))
    as [contract|] eqn:Hinit; [|vm_compute in Hinit; discriminate Hinit].
  exists contract. split; [reflexivity|].
  intros k event Hk.
  exact (proj1 (proj1 (contract_tables_consistent _ _ _ _ _ Hinit)
                  k event Hk)).
Defined.

Lemma event_signature_is_ok (entry : ABIElement) (name : string) :
  el_name entry = Some name ->
  is_ok (event_signature entry)
  = match el_inputs entry with
    | Some inputs => forallb has_components inputs
    | None => false
    end.
Proof.
  intros Hname. unfold event_signature, event_canonical.
  destruct (el_inputs entry) as [inputs|]; [|reflexivity].
  cbn [getitem bind].
  destruct (forallb has_components inputs) eqn:H.
  - rewrite inputs_loop_join by exact H. rewrite Hname. reflexivity.
  - rewrite inputs_loop_missing_components by exact H. reflexivity.
Qed.

Lemma event_signature_error (entry : ABIElement) (name : string)
    (e : PyError) :
  el_name entry = Some name ->
  event_signature entry = Err e ->
  e = KeyError "inputs" \/ e = KeyError "components".
Proof.
  intros Hname. unfold event_signature, event_canonical.
  destruct (el_inputs entry) as [inputs|]; [|intros [= <-]; auto].
  cbn [getitem bind].
  destruct (forallb has_components inputs) eqn:H.
  - rewrite inputs_loop_join by exact H. rewrite Hname. discriminate.
  - rewrite inputs_loop_missing_components by exact H.
    intros [= <-]. auto.
Qed.

Lemma entries_loop_is_ok (contract : string) (abi : list ABIElement) :
  forall (events : gmap string Event.t) (functions : gmap string Function.t),
    is_ok (Contract.entries_loop contract abi events functions)
    = forallb entry_ok abi
    /\ forall e,
         Contract.entries_loop contract abi events functions = Err e ->
         e = AssertionError \/ e = KeyError "inputs"
         \/ e = KeyError "components".
Proof.
  induction abi as [|entry rest IH]; intros events functions.
  { split; [reflexivity|discriminate]. }
  cbn [Contract.entries_loop forallb]. unfold entry_ok.
  destruct (el_type entry) as [type|]; [|split; [reflexivity|]].
  2: { intros e [= <-]. auto. }
  cbn [assert_in getitem bind].
  destruct (String.eqb type "event").
  { destruct (el_name entry) as [name|] eqn:Hname.
    2: { split; [reflexivity|]. intros e [= <-]. auto. }
    cbn [assert_in getitem bind]. unfold Event.init.
    pose proof (event_signature_is_ok entry name Hname) as Hok.
    pose proof (event_signature_error entry name) as Herr.
    destruct (event_signature entry) as [signature|e0].
    - cbn [bind is_ok] in *. rewrite <- Hok.
      rewrite bool_decide_eq_true_2 by eauto. apply IH.
    - cbn [bind is_ok] in *. rewrite <- Hok.
      rewrite andb_false_r. split; [reflexivity|].
      intros e [= <-]. destruct (Herr e0 Hname eq_refl); auto. }
  destruct (String.eqb type "function").
  { destruct (el_name entry) as [name|] eqn:Hname.
    2: { split; [reflexivity|]. intros e [= <-]. auto. }
    cbn [assert_in getitem bind].
    unfold Function.init, Function.to_full_name.
    destruct (el_inputs entry) as [inputs|].
    - cbn [assert_in getitem bind].
      rewrite !bool_decide_eq_true_2 by eauto. apply IH.
    - cbn [assert_in bind is_ok].
      rewrite (bool_decide_eq_false_2 (is_Some None))
        by (intros [? ?]; discriminate).
      rewrite andb_false_r. split; [reflexivity|].
      intros e [= <-]. auto. }
  apply IH.
Qed.

(** X6: which ABIs a contract can be built from.  Construction
    succeeds exactly when the artifact loads and every entry has a
    [type], every [event] entry a [name], an [inputs] key and the
    [components] of its tuple parameters, and every [function] entry a
    [name] and an [inputs] key; entries of any other type are not
    looked into.  When an entry is refused the exception is an
    [AssertionError] or a [KeyError] for [inputs] or [components]. *)
Theorem contract_init_accepts
    (abi_from_file_location : string -> result (list ABIElement))
    (name address file_location : string) :
  is_ok (Contract.init abi_from_file_location name address file_location)
  = match abi_from_file_location file_location with
    | Ok abi => forallb entry_ok abi
    | Err _ => false
    end
  /\ forall e,
       Contract.init abi_from_file_location name address file_location
       = Err e ->
       abi_from_file_location file_location = Err e
       \/ e = AssertionError \/ e = KeyError "inputs"
       \/ e = KeyError "components".
Proof.
  unfold Contract.init.
  destruct (abi_from_file_location file_location) as [abi|e0].
  - cbn [bind]. destruct (entries_loop_is_ok name abi ∅ ∅) as [Hok Herr].
    destruct (Contract.entries_loop name abi ∅ ∅) as [tables|e1].
    + cbn [bind is_ok] in *. split; [exact Hok|discriminate].
    + cbn [bind is_ok] in *. split; [exact Hok|].
      intros e [= <-]. right. apply Herr. reflexivity.
  - split; [reflexivity|]. intros e [= <-]. auto.
Qed.

Lemma contract_init_accepts_witness :
  is_ok (Contract.init (fun _ => Ok overloaded_abi) "Relay"
           "0xaD67FE66660Fb8dFE9d6b1b4240d8650e30F6019"
           (artifact_location "Relay"))
  = true.
Proof.
  rewrite (proj1 (contract_init_accepts (fun _ => Ok overloaded_abi) "Relay"
                    "0xaD67FE66660Fb8dFE9d6b1b4240d8650e30F6019"
                    (artifact_location "Relay"))).
  reflexivity.
Defined.

(** ** Checksummed addresses of the resolved contracts *)

Lemma remove_0x_prefix_0x (s : string) : remove_0x_prefix ("0x" +:+ s) = s.
Proof.
  unfold remove_0x_prefix. rewrite !str_app_cons, str_app_nil_l.
  cbn [String.prefix String.length Nat.sub substring].
  destruct (ascii_dec "0" "0") as [_|H]; [|congruence].
  destruct (ascii_dec "x" "x") as [_|H]; [|congruence].
  rewrite prefix_empty. cbn [orb]. rewrite Nat.sub_0_r. apply substring_all.
Qed.

Lemma str_map_length (f : ascii -> ascii) (s : string) :
  String.length (str_map f s) = String.length s.
Proof. induction s as [|c s IH]; simpl; congruence. Qed.

Lemma hex_char_lower (c : ascii) :
  is_hex_char c = true -> is_lower_hex (lower_char c) = true.
Proof. destruct c as [[] [] [] [] [] [] [] []]; vm_compute; congruence. Qed.

Lemma lower_hex_char_facts (c : ascii) :
  is_lower_hex c = true ->
  lower_char c = c /\ lower_char (upper_char c) = c
  /\ is_hex_char c = true /\ is_hex_char (upper_char c) = true.
Proof.
  destruct c as [[] [] [] [] [] [] [] []]; vm_compute;
    first [discriminate | intros _; repeat split; reflexivity].
Qed.

Lemma lower_is_lower_hex (s : string) :
  str_forallb is_hex_char s = true ->
  str_forallb is_lower_hex (lower s) = true.
Proof.
  induction s as [|c s IH]; [reflexivity|].
  cbn [str_forallb lower str_map]. intros [Hc Hs]%andb_true_iff.
  rewrite (hex_char_lower c Hc). apply IH, Hs.
Qed.

Lemma checksum_chars_facts (addr : string) :
  str_forallb is_lower_hex addr = true ->
  forall hash : string,
    String.length addr <= String.length hash ->
    String.length (checksum_chars addr hash) = String.length addr
    /\ str_forallb is_hex_char (checksum_chars addr hash) = true
    /\ lower (checksum_chars addr hash) = addr.
Proof.
  induction addr as [|a addr IH]; intros Hall hash Hlen.
  { destruct hash; auto. }
  destruct hash as [|h hash]; [simpl in Hlen; lia|].
  cbn [str_forallb] in Hall. apply andb_true_iff in Hall as [Ha Hall].
  destruct (IH Hall hash) as (H1 & H2 & H3); [simpl in Hlen; lia|].
  destruct (lower_hex_char_facts a Ha) as (L1 & L2 & L3 & L4).
  cbn [checksum_chars String.length str_forallb lower str_map].
  fold (lower (checksum_chars addr hash)). rewrite H1, H2, H3.
  destruct (7 <? hex_value h)%N; rewrite ?L1, ?L2, ?L3, ?L4; auto.
Qed.

(** The result of [to_checksum_address] is a fixed point of the
    conversion, 42 characters long, and denotes the address it was
    given. *)
Lemma to_checksum_address_checksummed (value checksum : string) :
  to_checksum_address value = Ok checksum ->
  to_checksum_address checksum = Ok checksum
  /\ is_checksum_address checksum = true
  /\ String.length checksum = 42
  /\ lower (remove_0x_prefix checksum) = lower (remove_0x_prefix value).
Proof.
  unfold to_checksum_address at 1.
  destruct (is_hex_address value) eqn:Hhex; [|discriminate].
  intros [= <-]. unfold is_hex_address in Hhex.
  apply andb_true_iff in Hhex as [Hlen Hall]. apply Nat.eqb_eq in Hlen.
  set (norm := lower (remove_0x_prefix value)) in *.
  assert (String.length norm = 40) as Hnorm
    by (unfold norm, lower; rewrite str_map_length; exact Hlen).
  destruct (checksum_chars_facts norm (lower_is_lower_hex _ Hall)
              (hex (keccak_text norm))) as (H1 & H2 & H3).
  { rewrite hex_length. unfold keccak_text. rewrite keccak256_length.
    rewrite Hnorm. lia. }
  assert (to_checksum_address
            ("0x" +:+ checksum_chars norm (hex (keccak_text norm)))
          = Ok ("0x" +:+ checksum_chars norm (hex (keccak_text norm))))
    as Hfix.
  { unfold to_checksum_address, is_hex_address.
    rewrite remove_0x_prefix_0x, H1, Hnorm, H2, H3. reflexivity. }
  split; [exact Hfix|]. split.
  - unfold is_checksum_address. rewrite Hfix. apply String.eqb_refl.
  - split; [rewrite str_length_app, H1, Hnorm; reflexivity|].
    rewrite remove_0x_prefix_0x. exact H3.
Qed.

Lemma resolve_inv
    (abi_from_file_location : string -> result (list ABIElement))
    (getContractAddressByName : string -> result string)
    (name : string) (contract : Contract.t) :
  Contracts.resolve abi_from_file_location getContractAddressByName name
  = Ok contract ->
  exists raw,
    getContractAddressByName name = Ok raw
    /\ to_checksum_address raw = Ok (Contract.address contract)
    /\ Contract.name contract = name
    /\ abi_from_file_location (artifact_location name)
       = Ok (Contract.abi contract).
Proof.
  unfold Contracts.resolve.
  destruct (getContractAddressByName name) as [raw|]; [|discriminate].
  cbn [bind]. destruct (to_checksum_address raw) as [address|] eqn:Hsum;
    [|discriminate].
  cbn [bind]. intros Hinit.
  destruct (Contract_init_inv _ _ _ _ _ Hinit) as (Habi & Hname & Haddr & _).
  exists raw. rewrite Haddr. auto.
Qed.

(** X7: in a contract set returned by [get_contracts], each of the
    seven attributes holds the contract of its own name, built from
    the artifact of that name, and its address is the checksummed form
    of what the registry answered for that name: a fixed point of
    [to_checksum_address], whatever casing the registry used. *)
Theorem get_contracts_addresses_checksummed
    (abi_from_file_location : string -> result (list ABIElement))
    (getContractAddressByName : string -> result string)
    (contracts : Contracts.t) :
  Contracts.get_contracts abi_from_file_location getContractAddressByName
  = Ok contracts ->
  Forall
    (fun entry : string * Contract.t =>
       Contract.name entry.2 = entry.1
       /\ is_checksum_address (Contract.address entry.2) = true
       /\ String.length (Contract.address entry.2) = 42
       /\ abi_from_file_location (artifact_location entry.1)
          = Ok (Contract.abi entry.2)
       /\ exists raw,
            getContractAddressByName entry.1 = Ok raw
            /\ to_checksum_address raw = Ok (Contract.address entry.2)
            /\ lower (remove_0x_prefix (Contract.address entry.2))
               = lower (remove_0x_prefix raw))
    [ ("VoterRegistry", Contracts.VoterRegistry contracts);
      ("FlareSystemsCalculator", Contracts.FlareSystemsCalculator contracts);
      ("FlareSystemsManager", Contracts.FlareSystemsManager contracts);
      ("Relay", Contracts.Relay contracts);
      ("Submission", Contracts.Submission contracts);
      ("FdcHub", Contracts.FdcHub contracts);
      ("FastUpdater", Contracts.FastUpdater contracts) ].
Proof.
  rewrite get_contracts_unfold. cbv zeta.
  set (resolve_name :=
         Contracts.resolve abi_from_file_location getContractAddressByName).
  assert (forall name contract,
            resolve_name name = Ok contract ->
            Contract.name contract = name
            /\ is_checksum_address (Contract.address contract) = true
            /\ String.length (Contract.address contract) = 42
            /\ abi_from_file_location (artifact_location name)
               = Ok (Contract.abi contract)
            /\ exists raw,
                 getContractAddressByName name = Ok raw
                 /\ to_checksum_address raw = Ok (Contract.address contract)
                 /\ lower (remove_0x_prefix (Contract.address contract))
                    = lower (remove_0x_prefix raw)) as Hone.
  { intros name contract H.
    destruct (resolve_inv _ _ _ _ H) as (raw & Hraw & Hsum & Hname & Habi).
    destruct (to_checksum_address_checksummed _ _ Hsum)
      as (_ & Hck & Hlen & Hsame).
    repeat split; try assumption. exists raw. auto. }
  destruct (resolve_name "VoterRegistry") eqn:E1; [|discriminate].
  destruct (resolve_name "FlareSystemsCalculator") eqn:E2; [|discriminate].
  destruct (resolve_name "FlareSystemsManager") eqn:E3; [|discriminate].
  destruct (resolve_name "Relay") eqn:E4; [|discriminate].
  destruct (resolve_name "Submission") eqn:E5; [|discriminate].
  destruct (resolve_name "FdcHub") eqn:E6; [|discriminate].
  destruct (resolve_name "FastUpdater") eqn:E7; [|discriminate].
  cbn [bind]. intros [= <-]. cbn [Contracts.VoterRegistry
    Contracts.FlareSystemsCalculator Contracts.FlareSystemsManager
    Contracts.Relay Contracts.Submission Contracts.FdcHub
    Contracts.FastUpdater].
  repeat (apply Forall_cons; split; [apply Hone; assumption|]).
  apply Forall_nil. exact I.
Qed.

Lemma get_contracts_addresses_checksummed_witness :
  exists contracts : Contracts.t,
    Contracts.get_contracts mock_artifacts mock_registry = Ok contracts
    /\ is_checksum_address (Contract.address (Contracts.FdcHub contracts))
       = true.
Proof.
  destruct (Contracts.get_contracts mock_artifacts mock_registry)
    as [contracts|] eqn:Hget; [|vm_compute in Hget; discriminate Hget].
  exists contracts. split; [reflexivity|].
  pose proof (get_contracts_addresses_checksummed _ _ _ Hget) as Hall.
  rewrite Forall_forall in Hall.
  apply (Hall ("FdcHub", Contracts.FdcHub contracts)).
  do 5 apply list_elem_of_further. apply list_elem_of_here.
Defined.

(** ** Chains and timing modules *)

Lemma chain_in_all (chain_id : Z) :
  chain_id ∈ ChainId.all
  <-> chain_id = 16%Z \/ chain_id = 19%Z \/ chain_id = 114%Z
      \/ chain_id = 14%Z.
Proof.
  unfold ChainId.all, ChainId.COSTON, ChainId.SONGBIRD, ChainId.COSTON2,
    ChainId.FLARE.
  rewrite !elem_of_cons, elem_of_nil. tauto.
Qed.

(** X8: the chain tables of [config.py] agree.  [get_epoch] and
    [ChainId.id_to_name] succeed on exactly the chain ids of
    [ChainId.all] and raise [ValueError] on every other id; on a known
    id the epoch is taken from the timing module that bears the
    chain's name; and no two chain ids share a name. *)
Theorem chain_tables_agree
    (VotingEpochFn RewardEpochFn VotingEpochFactory RewardEpochFactory : Type)
    (module_voting_epoch : TimingModule -> VotingEpochFn)
    (module_reward_epoch : TimingModule -> RewardEpochFn)
    (module_voting_epoch_factory : TimingModule -> VotingEpochFactory)
    (module_reward_epoch_factory : TimingModule -> RewardEpochFactory)
    (chain_id : Z) :
  let epoch_of :=
    get_epoch _ _ _ _ module_voting_epoch module_reward_epoch
      module_voting_epoch_factory module_reward_epoch_factory in
  (chain_id ∈ ChainId.all ->
   exists module,
     ChainId.id_to_name chain_id = Ok (module_name module)
     /\ epoch_of chain_id
        = Ok (Epoch.mk (module_voting_epoch module)
                (module_reward_epoch module)
                (module_voting_epoch_factory module)
                (module_reward_epoch_factory module)))
  /\ (chain_id ∉ ChainId.all ->
      ChainId.id_to_name chain_id = Err ValueError
      /\ epoch_of chain_id = Err ValueError)
  /\ (forall other name,
        ChainId.id_to_name chain_id = Ok name ->
        ChainId.id_to_name other = Ok name -> other = chain_id).
Proof.
  intros epoch_of. unfold epoch_of, get_epoch, timing_module,
    ChainId.id_to_name, ChainId.COSTON, ChainId.SONGBIRD, ChainId.COSTON2,
    ChainId.FLARE.
  split; [|split].
  - rewrite chain_in_all. intros [-> | [-> | [-> | ->]]].
    + exists coston. auto.
    + exists songbird. auto.
    + exists coston2. auto.
    + exists flare. auto.
  - rewrite chain_in_all. intros Hnot.
    destruct (Z.eqb_spec chain_id 16); [tauto|].
    destruct (Z.eqb_spec chain_id 19); [tauto|].
    destruct (Z.eqb_spec chain_id 114); [tauto|].
    destruct (Z.eqb_spec chain_id 14); [tauto|]. auto.
  - intros other name.
    destruct (Z.eqb_spec chain_id 16) as [->|];
      [|destruct (Z.eqb_spec chain_id 19) as [->|];
        [|destruct (Z.eqb_spec chain_id 114) as [->|];
          [|destruct (Z.eqb_spec chain_id 14) as [->|];
            [|discriminate]]]];
      intros [= <-];
      destruct (Z.eqb_spec other 16) as [->|];
      try discriminate; try reflexivity;
      destruct (Z.eqb_spec other 19) as [->|];
      try discriminate; try reflexivity;
      destruct (Z.eqb_spec other 114) as [->|];
      try discriminate; try reflexivity;
      destruct (Z.eqb_spec other 14) as [->|];
      try discriminate; try reflexivity.
Qed.

Lemma chain_tables_agree_witness :
  14%Z ∈ ChainId.all
  /\ ChainId.id_to_name 14 = Ok "flare"
  /\ get_epoch _ _ _ _ module_name module_name module_name module_name 14
     = Ok (Epoch.mk "flare" "flare" "flare" "flare").
Proof.
  split; [apply chain_in_all; auto|].
  destruct (proj1 (chain_tables_agree _ _ _ _ module_name module_name
                     module_name module_name 14))
    as (module & Hname & Hepoch); [apply chain_in_all; auto|].
  destruct module; try discriminate Hname.
  split; [exact Hname|exact Hepoch].
Defined.

(** ** Notification settings *)

Lemma split_cons (sep c : ascii) (rest : string) :
  split sep (String c rest)
  = if Ascii.eqb c sep then "" :: split sep rest
    else match split sep rest with
         | part :: parts => String c part :: parts
         | [] => [String c ""]
         end.
Proof. reflexivity. Qed.

Lemma split_nonempty (sep : ascii) (s : string) : split sep s <> [].
Proof.
  induction s as [|c s IH]; [discriminate|].
  rewrite split_cons. destruct (Ascii.eqb c sep); [discriminate|].
  destruct (split sep s); discriminate.
Qed.

Lemma join_split (s : string) : join "," (split "," s) = s.
Proof.
  induction s as [|c s IH]; [reflexivity|].
  rewrite split_cons. destruct (Ascii.eqb_spec c ",") as [->|Hc].
  - rewrite join_cons. pose proof (split_nonempty "," s) as Hne.
    destruct (split "," s) as [|p ps]; [congruence|].
    rewrite join_rest_cons, IH. reflexivity.
  - pose proof (split_nonempty "," s) as Hne.
    destruct (split "," s) as [|p ps]; [congruence|].
    rewrite join_cons in *. rewrite str_app_cons, IH. reflexivity.
Qed.

Lemma split_free (s : string) :
  Forall (fun item => free_of "," item = true) (split "," s).
Proof.
  induction s as [|c s IH]; [repeat constructor|].
  rewrite split_cons. destruct (Ascii.eqb c ",") eqn:Hc.
  - constructor; [reflexivity|exact IH].
  - destruct (split "," s) as [|p ps]; [repeat constructor|].
    + rewrite free_of_cons, Hc. reflexivity.
    + inversion IH as [|? ? Hp Hps]; subst. constructor; [|exact Hps].
      rewrite free_of_cons, Hc, Hp. reflexivity.
Qed.

Lemma split_length (s : string) :
  length (split "," s) = S (count_char "," s).
Proof.
  induction s as [|c s IH]; [reflexivity|].
  rewrite split_cons. cbn [count_char].
  pose proof (split_nonempty "," s) as Hne.
  destruct (Ascii.eqb c ","); [simpl; rewrite IH; reflexivity|].
  destruct (split "," s) as [|p ps]; [congruence|].
  simpl in *. exact IH.
Qed.

Lemma webhooks_comma_separated (value : option string) :
  comma_separated value (webhooks value).
Proof.
  destruct value as [text|]; [|reflexivity].
  cbn [comma_separated webhooks app].
  split; [reflexivity|]. split; [apply split_nonempty|].
  split; [apply join_split|]. split; [apply split_free|apply split_length].
Qed.

(** X9: the webhook lists of [get_notification_config].  For each of
    the Discord, Slack and generic variables the list is empty when
    the variable is not set; when it is set, the list is the text cut
    at every comma: never empty (a variable set to the empty text
    gives one empty url), one item more than there are commas, items
    free of commas, and joining the items with commas gives the text
    back. *)
Theorem notification_webhooks (environ : gmap string string) :
  let notification := get_notification_config environ in
  comma_separated (environ !! "NOTIFICATION_DISCORD_WEBHOOK")
    (NotificationDiscord.webhook_url (Notification.discord notification))
  /\ comma_separated (environ !! "NOTIFICATION_SLACK_WEBHOOK")
       (NotificationSlack.webhook_url (Notification.slack notification))
  /\ comma_separated (environ !! "NOTIFICATION_GENERIC_WEBHOOK")
       (NotificationGeneric.webhook_url (Notification.generic notification))
  /\ (environ !! "NOTIFICATION_DISCORD_WEBHOOK" = Some "" ->
      NotificationDiscord.webhook_url (Notification.discord notification)
      = [""]).
Proof.
  intros notification. unfold notification, get_notification_config.
  cbn [Notification.discord Notification.slack Notification.generic
       NotificationDiscord.webhook_url NotificationSlack.webhook_url
       NotificationGeneric.webhook_url].
  split; [apply webhooks_comma_separated|].
  split; [apply webhooks_comma_separated|].
  split; [apply webhooks_comma_separated|].
  intros ->. reflexivity.
Qed.

(** X10: the Telegram bots of [get_notification_config].  Bots are
    configured only when both the token and the chat id variables are
    set; tokens and chat ids are paired by position and the longer
    list is cut to the shorter one, so that unpaired tokens or chat
    ids are dropped without an error. *)
Theorem notification_telegram_bots (environ : gmap string string) :
  let bots :=
    NotificationTelegram.bot
      (Notification.telegram (get_notification_config environ)) in
  (environ !! "NOTIFICATION_TELEGRAM_BOT_TOKEN" = None -> bots = [])
  /\ (environ !! "NOTIFICATION_TELEGRAM_CHAT_ID" = None -> bots = [])
  /\ (forall token chat,
        environ !! "NOTIFICATION_TELEGRAM_BOT_TOKEN" = Some token ->
        environ !! "NOTIFICATION_TELEGRAM_CHAT_ID" = Some chat ->
        length bots
        = Nat.min (S (count_char "," token)) (S (count_char "," chat))
        /\ map TelegramBot.bot_token bots
           = firstn (length bots) (split "," token)
        /\ map TelegramBot.chat_id bots
           = firstn (length bots) (split "," chat)).
Proof.
  intros bots. unfold bots, get_notification_config.
  cbn [Notification.telegram NotificationTelegram.bot].
  split; [intros ->; reflexivity|].
  split.
  { intros ->. destruct (environ !! "NOTIFICATION_TELEGRAM_BOT_TOKEN");
      reflexivity. }
  intros token chat -> ->.
  rewrite <- !split_length.
  generalize (split "," token) (split "," chat). clear.
  intros tokens chats. rewrite length_map.
  revert chats. induction tokens as [|t tokens IH]; intros [|c chats];
    try (repeat split; reflexivity).
  destruct (IH chats) as (H1 & H2 & H3).
  cbn [combine map length Nat.min firstn TelegramBot.bot_token
       TelegramBot.chat_id fst snd] in *.
  rewrite H1. split; [reflexivity|].
  rewrite <- H1. split; f_equal; assumption.
Qed.

Lemma notification_telegram_bots_witness :
  NotificationTelegram.bot
    (Notification.telegram (get_notification_config good_environ))
  = [TelegramBot.mk "t1" "c1"; TelegramBot.mk "t2" "c2"]
  /\ length
       (NotificationTelegram.bot
          (Notification.telegram (get_notification_config good_environ)))
     = Nat.min (S (count_char "," "t1,t2,t3")) (S (count_char "," "c1,c2")).
Proof.
  split; [reflexivity|].
  exact (proj1 (proj2 (proj2 (notification_telegram_bots good_environ))
                  "t1,t2,t3" "c1,c2" eq_refl eq_refl)).
Defined.

Lemma notification_webhooks_witness :
  NotificationDiscord.webhook_url
    (Notification.discord (get_notification_config good_environ))
  = ["https://a.example"; "https://b.example"]
  /\ NotificationSlack.webhook_url
       (Notification.slack (get_notification_config good_environ))
     = [].
Proof.
  destruct (notification_webhooks good_environ) as ((-> & _) & -> & _).
  split; reflexivity.
Defined.

(** ** Loading the configuration *)

(** X11: [get_config] never returns a configuration.  It raises
    [ConfigError] when [RPC_URL] is not set, when the node is not
    connected, when the chain id is not one of [ChainId.all] and when
    [IDENTITY_ADDRESS] is not set, in that order; an invalid identity
    address or a failing contract resolution propagates; and when
    everything else succeeds, the call of [Configuration], which
    passes neither [p_chain_rpc_url] nor [fee_threshold], raises
    [TypeError]. *)
Theorem get_config_never_returns
    (VotingEpochFn RewardEpochFn VotingEpochFactory RewardEpochFactory : Type)
    (module_voting_epoch : TimingModule -> VotingEpochFn)
    (module_reward_epoch : TimingModule -> RewardEpochFn)
    (module_voting_epoch_factory : TimingModule -> VotingEpochFactory)
    (module_reward_epoch_factory : TimingModule -> RewardEpochFactory)
    (environ : gmap string string)
    (is_connected : string -> bool) (eth_chain_id : string -> Z)
    (abi_from_file_location : string -> result (list ABIElement))
    (getContractAddressByName : string -> string -> result string) :
  let config :=
    get_config _ _ _ _ module_voting_epoch module_reward_epoch
      module_voting_epoch_factory module_reward_epoch_factory
      environ is_connected eth_chain_id abi_from_file_location
      getContractAddressByName in
  (forall configuration, config <> Returned configuration)
  /\ (environ !! "RPC_URL" = None ->
      config = RaisedConfigError RpcUrlNotSet)
  /\ (forall rpc_url,
        environ !! "RPC_URL" = Some rpc_url ->
        (is_connected rpc_url = false ->
         config = RaisedConfigError (UnableToConnect rpc_url))
        /\ (is_connected rpc_url = true ->
            eth_chain_id rpc_url ∉ ChainId.all ->
            config = RaisedConfigError (UnknownChain (eth_chain_id rpc_url)))
        /\ (is_connected rpc_url = true ->
            eth_chain_id rpc_url ∈ ChainId.all ->
            (environ !! "IDENTITY_ADDRESS" = None ->
             config = RaisedConfigError IdentityAddressNotSet)
            /\ (forall identity_address,
                  environ !! "IDENTITY_ADDRESS" = Some identity_address ->
                  (is_hex_address identity_address = false ->
                   config = Raised ValueError)
                  /\ (forall contracts,
                        is_hex_address identity_address = true ->
                        Contracts.get_contracts abi_from_file_location
                          (getContractAddressByName rpc_url)
                        = Ok contracts ->
                        config = Raised TypeError)
                  /\ (forall e,
                        is_hex_address identity_address = true ->
                        Contracts.get_contracts abi_from_file_location
                          (getContractAddressByName rpc_url)
                        = Err e ->
                        config = Raised e)))).
Proof.
  intros config. unfold config, get_config.
  split.
  { intros configuration.
    destruct (environ !! "RPC_URL") as [rpc_url|]; [|discriminate].
    destruct (is_connected rpc_url); [|discriminate]. cbn [negb].
    destruct (bool_decide (eth_chain_id rpc_url ∈ ChainId.all));
      [|discriminate].
    cbn [negb].
    destruct (environ !! "IDENTITY_ADDRESS") as [identity|]; [|discriminate].
    destruct (to_checksum_address identity); [|discriminate].
    cbn [propagate].
    destruct (Contracts.get_contracts _ _); [|discriminate].
    cbn [propagate].
    destruct (get_epoch _ _ _ _ _ _ _ _ _); discriminate. }
  split; [intros ->; reflexivity|].
  intros rpc_url ->. split; [intros ->; reflexivity|].
  split.
  { intros -> Hnot. cbn [negb].
    rewrite bool_decide_eq_false_2 by exact Hnot. reflexivity. }
  intros -> Hin. cbn [negb].
  rewrite bool_decide_eq_true_2 by exact Hin. cbn [negb].
  split; [intros ->; reflexivity|].
  intros identity ->. unfold to_checksum_address.
  split; [intros ->; reflexivity|].
  split.
  - intros contracts -> ->. cbn [propagate].
    unfold get_epoch. apply chain_in_all in Hin.
    destruct Hin as [-> | [-> | [-> | ->]]]; reflexivity.
  - intros e -> ->. reflexivity.
Qed.

Lemma get_config_never_returns_witness :
  good_environ !! "RPC_URL" = Some "http://localhost:9650/ext/C/rpc"
  /\ get_config _ _ _ _ module_name module_name module_name module_name
       good_environ (fun _ => true) (fun _ => 14%Z) mock_artifacts
       good_registry
     = Raised TypeError.
Proof.
  split; [reflexivity|].
  destruct (proj2 (proj2 (proj2 (proj2 (get_config_never_returns
              _ _ _ _ module_name module_name module_name module_name
              good_environ (fun _ => true) (fun _ => 14%Z) mock_artifacts
              good_registry)) _ eq_refl)) eq_refl)
    as [_ Hid]; [apply chain_in_all; auto|].
  destruct (Contracts.get_contracts mock_artifacts
              (good_registry "http://localhost:9650/ext/C/rpc"))
    as [contracts|] eqn:Hget; [|vm_compute in Hget; discriminate Hget].
  exact (proj1 (proj2 (Hid _ eq_refl)) contracts eq_refl eq_refl).
Defined.

(** ** Outcomes of message reconstruction *)

Lemma to_bytes_inv (n : Z) (k : nat) (bs : list byte) :
  to_bytes n k = Ok bs -> in_range n k /\ bs = big_endian k n.
Proof.
  unfold to_bytes, in_range.
  destruct (0 <=? n)%Z eqn:H0; [|discriminate].
  destruct (n <? 256 ^ Z.of_nat k)%Z eqn:H1; [|discriminate].
  cbn [andb]. intros [= <-].
  apply Z.leb_le in H0. apply Z.ltb_lt in H1. auto.
Qed.

Lemma to_bytes_outcome (n : Z) (k : nat) :
  (in_range n k /\ to_bytes n k = Ok (big_endian k n))
  \/ (~ in_range n k /\ to_bytes n k = Err OverflowError).
Proof.
  unfold to_bytes, in_range.
  destruct (Z.leb_spec 0 n); [|right; split; [lia|reflexivity]].
  destruct (Z.ltb_spec n (256 ^ Z.of_nat k));
    [left|right]; split; (lia || reflexivity).
Qed.

(** X12: [to_message] raises [OverflowError] exactly when the protocol
    id does not fit one byte or the voting round id does not fit four;
    the ids are converted before the merkle root is parsed, so an
    out-of-range id is reported whatever the root is. *)
Theorem to_message_overflow (self : ProtocolMessageRelayed.t) :
  ProtocolMessageRelayed.to_message self = Err OverflowError
  <-> ~ (in_range (ProtocolMessageRelayed.protocol_id self) 1
         /\ in_range (ProtocolMessageRelayed.voting_round_id self) 4).
Proof.
  unfold ProtocolMessageRelayed.to_message,
    ProtocolMessageRelayed.message_bytes.
  destruct (to_bytes_outcome (ProtocolMessageRelayed.protocol_id self) 1)
    as [[Hp ->]|[Hp ->]]; [|split; [tauto|reflexivity]].
  destruct (to_bytes_outcome (ProtocolMessageRelayed.voting_round_id self) 4)
    as [[Hv ->]|[Hv ->]]; [|split; [tauto|reflexivity]].
  rewrite to_bytes_bool. cbn [bind].
  destruct (fromhex (ProtocolMessageRelayed.merkle_root self))
    as [root|e] eqn:Hroot.
  - cbn [bind]. rewrite hash_encode_defunct. split; [discriminate|tauto].
  - cbn [bind]. rewrite (fromhex_error _ _ Hroot).
    split; [discriminate|tauto].
Qed.

Lemma to_message_overflow_witness :
  ~ (in_range (ProtocolMessageRelayed.protocol_id
                 (ProtocolMessageRelayed.mk (-1) 0 false "zz" 0)) 1
     /\ in_range (ProtocolMessageRelayed.voting_round_id
                    (ProtocolMessageRelayed.mk (-1) 0 false "zz" 0)) 4)
  /\ ProtocolMessageRelayed.to_message
       (ProtocolMessageRelayed.mk (-1) 0 false "zz" 0)
     = Err OverflowError.
Proof.
  assert (~ (in_range (ProtocolMessageRelayed.protocol_id
                         (ProtocolMessageRelayed.mk (-1) 0 false "zz" 0)) 1
             /\ in_range (ProtocolMessageRelayed.voting_round_id
                            (ProtocolMessageRelayed.mk (-1) 0 false "zz" 0))
                  4)) as H.
  { unfold in_range. cbn [ProtocolMessageRelayed.protocol_id]. lia. }
  split; [exact H|].
  exact (proj2 (to_message_overflow _) H).
Defined.

(** X13: the bytes that [to_message] hashes determine the message.
    Two messages with the same byte string have the same protocol id,
    the same voting round id, the same randomness flag and merkle
    roots denoting the same bytes; the byte string is 6 bytes longer
    than the root. *)
Theorem message_bytes_unambiguous
    (self other : ProtocolMessageRelayed.t) (message : list byte) :
  ProtocolMessageRelayed.message_bytes self = Ok message ->
  ProtocolMessageRelayed.message_bytes other = Ok message ->
  ProtocolMessageRelayed.protocol_id self
  = ProtocolMessageRelayed.protocol_id other
  /\ ProtocolMessageRelayed.voting_round_id self
     = ProtocolMessageRelayed.voting_round_id other
  /\ ProtocolMessageRelayed.is_secure_random self
     = ProtocolMessageRelayed.is_secure_random other
  /\ fromhex (ProtocolMessageRelayed.merkle_root self)
     = fromhex (ProtocolMessageRelayed.merkle_root other)
  /\ exists root,
       fromhex (ProtocolMessageRelayed.merkle_root self) = Ok root
       /\ length message = 6 + length root.
Proof.
  assert (forall m bs,
            ProtocolMessageRelayed.message_bytes m = Ok bs ->
            exists root,
              in_range (ProtocolMessageRelayed.protocol_id m) 1
              /\ in_range (ProtocolMessageRelayed.voting_round_id m) 4
              /\ fromhex (ProtocolMessageRelayed.merkle_root m) = Ok root
              /\ bs = big_endian 1 (ProtocolMessageRelayed.protocol_id m)
                      ++ big_endian 4
                           (ProtocolMessageRelayed.voting_round_id m)
                      ++ [if ProtocolMessageRelayed.is_secure_random m
                          then x01 else x00]
                      ++ root) as Hinv.
  { intros m bs. unfold ProtocolMessageRelayed.message_bytes.
    destruct (to_bytes (ProtocolMessageRelayed.protocol_id m) 1)
      as [b1|] eqn:H1; [|discriminate].
    destruct (to_bytes (ProtocolMessageRelayed.voting_round_id m) 4)
      as [b2|] eqn:H2; [|discriminate].
    rewrite to_bytes_bool. cbn [bind].
    destruct (fromhex (ProtocolMessageRelayed.merkle_root m)) as [root|];
      [|discriminate].
    cbn [bind]. intros [= <-].
    apply to_bytes_inv in H1 as [R1 ->]. apply to_bytes_inv in H2 as [R2 ->].
    exists root. auto. }
  intros Hself Hother.
  destruct (Hinv _ _ Hself) as (root & Rp & Rv & Hroot & ->).
  destruct (Hinv _ _ Hother) as (root' & Rp' & Rv' & Hroot' & Heq).
  apply app_inj_1 in Heq as [E1 Heq];
    [|rewrite !big_endian_length; reflexivity].
  apply app_inj_1 in Heq as [E2 Heq];
    [|rewrite !big_endian_length; reflexivity].
  injection Heq as E3 E4.
  apply (f_equal from_big_endian) in E1, E2.
  rewrite !from_big_endian_big_endian in E1, E2 by assumption.
  split; [exact E1|]. split; [exact E2|].
  split.
  { destruct (ProtocolMessageRelayed.is_secure_random self),
      (ProtocolMessageRelayed.is_secure_random other);
      reflexivity || discriminate E3. }
  split; [rewrite Hroot, Hroot', E4; reflexivity|].
  exists root. split; [exact Hroot|].
  rewrite !length_app, !big_endian_length. reflexivity.
Qed.

Lemma message_bytes_unambiguous_witness :
  ProtocolMessageRelayed.message_bytes golden_message
  = ProtocolMessageRelayed.message_bytes
      (ProtocolMessageRelayed.mk 200 123456 true
         (zero_root +:+ " ") 99)
  /\ fromhex zero_root = fromhex (zero_root +:+ " ").
Proof.
  split; [reflexivity|].
  destruct (ProtocolMessageRelayed.message_bytes golden_message)
    as [message|] eqn:H; [|vm_compute in H; discriminate H].
  exact (proj1 (proj2 (proj2 (proj2
           (message_bytes_unambiguous golden_message
              (ProtocolMessageRelayed.mk 200 123456 true
                 (zero_root +:+ " ") 99) message H
              (eq_trans (eq_sym eq_refl) H)))))).
Defined.

(** X14: a merkle root written by [bytes.hex()], as [from_dict] stores
    it, is always accepted by [to_message], whatever its length: with
    ids in range the result is the personal-sign digest of the hash of
    the six header bytes followed by the very bytes that were
    encoded. *)
Theorem to_message_of_hex_root
    (protocol_id voting_round_id timestamp : Z) (is_secure_random : bool)
    (root : list byte) :
  in_range protocol_id 1 ->
  in_range voting_round_id 4 ->
  ProtocolMessageRelayed.to_message
    (ProtocolMessageRelayed.mk protocol_id voting_round_id is_secure_random
       (hex root) timestamp)
  = Ok (personal_sign_digest
          (Keccak.keccak256
             (big_endian 1 protocol_id ++ big_endian 4 voting_round_id
                ++ [if is_secure_random then x01 else x00] ++ root))).
Proof.
  intros Hp Hv.
  apply (to_message_ok
           (ProtocolMessageRelayed.mk protocol_id voting_round_id
              is_secure_random (hex root) timestamp) root Hp Hv).
  apply fromhex_hex.
Qed.

Lemma to_message_of_hex_root_witness :
  in_range 200 1 /\ in_range 123456 4
  /\ is_ok (ProtocolMessageRelayed.to_message
              (ProtocolMessageRelayed.mk 200 123456 true
                 (hex [x01; x02; x03]) 0)) = true.
Proof.
  assert (in_range 200 1) as H1 by (unfold in_range; simpl; lia).
  assert (in_range 123456 4) as H2 by (unfold in_range; simpl; lia).
  split; [exact H1|]. split; [exact H2|].
  rewrite (to_message_of_hex_root 200 123456 0 true [x01; x02; x03] H1 H2).
  reflexivity.
Defined.

(** ** List fields of the decoders *)

Lemma comprehension_Forall2 {A B : Type} (f : A -> result B)
    (items : list A) (values : list B) :
  comprehension f items = Ok values
  <-> Forall2 (fun item value => f item = Ok value) items values.
Proof.
  revert values. induction items as [|item items IH]; intros values.
  - cbn [comprehension]. split.
    + intros [= <-]. constructor.
    + intros H. inversion H. reflexivity.
  - cbn [comprehension]. split.
    + destruct (f item) as [value|] eqn:Hitem; [|discriminate].
      cbn [bind].
      destruct (comprehension f items) as [rest|] eqn:Hrest; [|discriminate].
      cbn [bind]. intros [= <-]. constructor; [exact Hitem|].
      apply IH. reflexivity.
    + intros H. inversion H as [|? value ? rest Hitem Hrest]; subst.
      rewrite Hitem. cbn [bind].
      apply IH in Hrest. rewrite Hrest. reflexivity.
Qed.

Lemma comprehension_first_error {A B : Type} (f : A -> result B)
    (done : list A) (bad : A) (rest : list A) (values : list B)
    (e : PyError) :
  comprehension f done = Ok values ->
  f bad = Err e ->
  comprehension f (done ++ bad :: rest) = Err e.
Proof.
  revert values. induction done as [|item done IH]; intros values.
  - intros _ Hbad. cbn [app comprehension]. rewrite Hbad. reflexivity.
  - cbn [app comprehension].
    destruct (f item) as [value|]; [|discriminate]. cbn [bind].
    destruct (comprehension f done) as [vs|] eqn:Hdone; [|discriminate].
    intros _ Hbad. rewrite (IH vs eq_refl Hbad). reflexivity.
Qed.

Lemma py_hex_inv (v : PyVal) (s : string) :
  py_hex v = Ok s -> exists bs, v = PBytes bs /\ s = hex bs.
Proof.
  destruct v; try discriminate. intros [= <-]. eauto.
Qed.

(** Rewriting with the lookups and conversions a decoder performs. *)
Ltac use_lookups :=
  repeat (cbn [bind];
          match goal with
          | H : _ !! _ = Some _ |- _ => rewrite H; clear H
          | H : py_int _ = _ |- _ => rewrite H; clear H
          | H : py_iter _ = _ |- _ => rewrite H; clear H
          end);
  cbn [bind].

(** X15: the weights of a decoded signing policy are the integers of
    the raw [weights], one for one and in order: weight [i] is [int]
    of item [i].  The [voters] and the [signingPolicyBytes] are stored
    as the log carried them; nothing relates the number of voters to
    the number of weights.  A raw weight that [int] refuses makes the
    decoding fail with the error of the first such item. *)
Theorem signing_policy_weights (d : gmap string PyVal) :
  (forall decoded,
     SigningPolicyInitialized.from_dict d = Ok decoded ->
     d !! "voters" = Some (SigningPolicyInitialized.voters decoded)
     /\ d !! "signingPolicyBytes"
        = Some (SigningPolicyInitialized.signing_policy_bytes decoded)
     /\ exists raw items,
          d !! "weights" = Some raw /\ py_iter raw = Ok items
          /\ length (SigningPolicyInitialized.weights decoded) = length items
          /\ forall i item,
               items !! i = Some item ->
               exists weight,
                 SigningPolicyInitialized.weights decoded !! i = Some weight
                 /\ py_int item = Ok weight)
  /\ (forall (v1 v2 v3 v4 v5 voters policy_bytes : PyVal)
             (n1 n2 n3 n4 n5 : Z) (weights : list Z),
        d !! "rewardEpochId" = Some v1 -> py_int v1 = Ok n1 ->
        d !! "startVotingRoundId" = Some v2 -> py_int v2 = Ok n2 ->
        d !! "threshold" = Some v3 -> py_int v3 = Ok n3 ->
        d !! "seed" = Some v4 -> py_int v4 = Ok n4 ->
        d !! "voters" = Some voters ->
        d !! "weights" = Some (PList (map PInt weights)) ->
        d !! "signingPolicyBytes" = Some policy_bytes ->
        d !! "timestamp" = Some v5 -> py_int v5 = Ok n5 ->
        SigningPolicyInitialized.from_dict d
        = Ok (SigningPolicyInitialized.mk n1 n2 n3 n4 voters weights
                policy_bytes n5))
  /\ (forall (v1 v2 v3 v4 voters : PyVal) (n1 n2 n3 n4 : Z)
             (done : list Z) (bad : PyVal) (rest : list PyVal)
             (e : PyError),
        d !! "rewardEpochId" = Some v1 -> py_int v1 = Ok n1 ->
        d !! "startVotingRoundId" = Some v2 -> py_int v2 = Ok n2 ->
        d !! "threshold" = Some v3 -> py_int v3 = Ok n3 ->
        d !! "seed" = Some v4 -> py_int v4 = Ok n4 ->
        d !! "voters" = Some voters ->
        d !! "weights" = Some (PList (map PInt done ++ bad :: rest)) ->
        py_int bad = Err e ->
        SigningPolicyInitialized.from_dict d = Err e).
Proof.
  assert (forall ws, comprehension py_int (map PInt ws) = Ok ws) as Hints.
  { induction ws as [|w ws IH]; [reflexivity|].
    cbn [map comprehension py_int bind]. rewrite IH. reflexivity. }
  unfold SigningPolicyInitialized.from_dict, lookup_key.
  split; [|split].
  - intros decoded.
    destruct (d !! "rewardEpochId") as [v1|]; [|discriminate]. cbn [bind].
    destruct (py_int v1); [|discriminate]. cbn [bind].
    destruct (d !! "startVotingRoundId") as [v2|]; [|discriminate].
    cbn [bind]. destruct (py_int v2); [|discriminate]. cbn [bind].
    destruct (d !! "threshold") as [v3|]; [|discriminate]. cbn [bind].
    destruct (py_int v3); [|discriminate]. cbn [bind].
    destruct (d !! "seed") as [v4|]; [|discriminate]. cbn [bind].
    destruct (py_int v4); [|discriminate]. cbn [bind].
    destruct (d !! "voters") as [voters|]; [|discriminate]. cbn [bind].
    destruct (d !! "weights") as [raw|]; [|discriminate]. cbn [bind].
    destruct (py_iter raw) as [items|] eqn:Hiter; [|discriminate].
    cbn [bind].
    destruct (comprehension py_int items) as [ws|] eqn:Hws; [|discriminate].
    cbn [bind].
    destruct (d !! "signingPolicyBytes") as [spb|]; [|discriminate].
    cbn [bind].
    destruct (d !! "timestamp") as [v5|]; [|discriminate]. cbn [bind].
    destruct (py_int v5); [|discriminate]. cbn [bind].
    intros [= <-]. cbn.
    split; [reflexivity|]. split; [reflexivity|].
    exists raw, items. split; [reflexivity|]. split; [exact Hiter|].
    apply comprehension_Forall2 in Hws.
    split; [symmetry; eapply Forall2_length, Hws|].
    intros i item Hi.
    destruct (Forall2_lookup_l _ _ _ _ _ Hws Hi) as (w & Hw & Hint).
    eauto.
  - intros v1 v2 v3 v4 v5 voters spb n1 n2 n3 n4 n5 ws. intros.
    use_lookups. cbn [py_iter bind]. rewrite Hints. use_lookups.
    reflexivity.
  - intros v1 v2 v3 v4 voters n1 n2 n3 n4 done bad rest e.
    intros H1 H2 H3 H4 H5 H6 H7 H8 H9 H10 Hbad.
    pose proof (comprehension_first_error py_int _ bad rest done e
                  (Hints done) Hbad) as Hfail.
    clear Hbad. use_lookups. cbn [py_iter bind].
    rewrite Hfail. reflexivity.
Qed.

Lemma signing_policy_weights_witness :
  SigningPolicyInitialized.from_dict signing_policy_args
  = Ok (SigningPolicyInitialized.mk 5 9 3 7 (PList []) [1; 2]%Z
          (PBytes []) 11).
Proof.
  exact (proj1 (proj2 (signing_policy_weights signing_policy_args))
           (PInt 5) (PInt 9) (PInt 3) (PInt 7) (PInt 11) (PList [])
           (PBytes []) 5%Z 9%Z 3%Z 7%Z 11%Z [1; 2]%Z
           eq_refl eq_refl eq_refl eq_refl eq_refl eq_refl eq_refl eq_refl
           eq_refl eq_refl eq_refl eq_refl eq_refl).
Defined.

Lemma comprehension_py_hex (items : list PyVal) (texts : list string) :
  comprehension py_hex items = Ok texts ->
  exists ids : list (list byte),
    items = map PBytes ids /\ texts = map hex ids
    /\ comprehension fromhex texts = Ok ids.
Proof.
  revert texts. induction items as [|item items IH]; intros texts.
  - intros [= <-]. exists []. auto.
  - cbn [comprehension].
    destruct (py_hex item) as [text|] eqn:Hitem; [|discriminate].
    cbn [bind].
    destruct (comprehension py_hex items) as [rest|]; [|discriminate].
    cbn [bind]. intros [= <-].
    apply py_hex_inv in Hitem as (bs & -> & ->).
    destruct (IH rest eq_refl) as (ids & -> & -> & Hback).
    exists (bs :: ids). cbn [map comprehension].
    rewrite fromhex_hex. cbn [bind]. rewrite Hback. auto.
Qed.

Lemma comprehension_py_int_ints (values : list Z) :
  comprehension py_int (map PInt values) = Ok values.
Proof.
  induction values as [|v values IH]; [reflexivity|].
  cbn [map comprehension py_int bind]. rewrite IH. reflexivity.
Qed.

Lemma comprehension_py_hex_bytes (ids : list (list byte)) :
  comprehension py_hex (map PBytes ids) = Ok (map hex ids).
Proof.
  induction ids as [|i ids IH]; [reflexivity|].
  cbn [map comprehension py_hex bind]. rewrite IH. reflexivity.
Qed.

(** X16: the node ids of a decoded voter registration are the hex
    encodings of the raw [nodeIds], one for one and in order, and
    [bytes.fromhex] gives the raw ids back; a log decodes only if
    every node id is a bytes value.  The node weights are the integers
    of the raw [nodeWeights]; nothing relates the number of node ids
    to the number of node weights. *)
Theorem registration_info_node_ids (d : gmap string PyVal) :
  (forall decoded,
     VoterRegistrationInfo.from_dict d = Ok decoded ->
     exists (raw : PyVal) (ids : list (list byte)),
       d !! "nodeIds" = Some raw
       /\ py_iter raw = Ok (map PBytes ids)
       /\ VoterRegistrationInfo.node_ids decoded = map hex ids
       /\ comprehension fromhex (VoterRegistrationInfo.node_ids decoded)
          = Ok ids
       /\ exists raw_weights items,
            d !! "nodeWeights" = Some raw_weights
            /\ py_iter raw_weights = Ok items
            /\ Forall2 (fun item weight => py_int item = Ok weight) items
                 (VoterRegistrationInfo.node_weights decoded))
  /\ (forall (v1 v2 v3 v4 voter delegation : PyVal) (n1 n2 n3 n4 : Z)
             (ids : list (list byte)) (weights : list Z),
        d !! "rewardEpochId" = Some v1 -> py_int v1 = Ok n1 ->
        d !! "voter" = Some voter ->
        d !! "delegationAddress" = Some delegation ->
        d !! "delegationFeeBIPS" = Some v2 -> py_int v2 = Ok n2 ->
        d !! "wNatWeight" = Some v3 -> py_int v3 = Ok n3 ->
        d !! "wNatCappedWeight" = Some v4 -> py_int v4 = Ok n4 ->
        d !! "nodeIds" = Some (PList (map PBytes ids)) ->
        d !! "nodeWeights" = Some (PList (map PInt weights)) ->
        VoterRegistrationInfo.from_dict d
        = Ok (VoterRegistrationInfo.mk n1 voter delegation n2 n3 n4
                (map hex ids) weights)).
Proof.
  unfold VoterRegistrationInfo.from_dict, lookup_key. split.
  - intros decoded.
    destruct (d !! "rewardEpochId") as [v1|]; [|discriminate]. cbn [bind].
    destruct (py_int v1); [|discriminate]. cbn [bind].
    destruct (d !! "voter") as [voter|]; [|discriminate]. cbn [bind].
    destruct (d !! "delegationAddress") as [delegation|]; [|discriminate].
    cbn [bind].
    destruct (d !! "delegationFeeBIPS") as [v2|]; [|discriminate].
    cbn [bind]. destruct (py_int v2); [|discriminate]. cbn [bind].
    destruct (d !! "wNatWeight") as [v3|]; [|discriminate]. cbn [bind].
    destruct (py_int v3); [|discriminate]. cbn [bind].
    destruct (d !! "wNatCappedWeight") as [v4|]; [|discriminate].
    cbn [bind]. destruct (py_int v4); [|discriminate]. cbn [bind].
    destruct (d !! "nodeIds") as [raw|]; [|discriminate]. cbn [bind].
    destruct (py_iter raw) as [id_items|] eqn:Hiter; [|discriminate].
    cbn [bind].
    destruct (comprehension py_hex id_items) as [texts|] eqn:Hids;
      [|discriminate].
    cbn [bind].
    destruct (d !! "nodeWeights") as [raw_weights|]; [|discriminate].
    cbn [bind].
    destruct (py_iter raw_weights) as [items|] eqn:Hiter'; [|discriminate].
    cbn [bind].
    destruct (comprehension py_int items) as [ws|] eqn:Hws; [|discriminate].
    cbn [bind]. intros [= <-]. cbn.
    destruct (comprehension_py_hex _ _ Hids) as (ids & -> & -> & Hback).
    exists raw, ids. split; [reflexivity|]. split; [exact Hiter|].
    split; [reflexivity|]. split; [exact Hback|].
    exists raw_weights, items. split; [reflexivity|]. split; [exact Hiter'|].
    apply comprehension_Forall2, Hws.
  - intros v1 v2 v3 v4 voter delegation n1 n2 n3 n4 ids weights. intros.
    use_lookups. cbn [py_iter bind]. rewrite comprehension_py_hex_bytes.
    use_lookups. cbn [py_iter bind]. rewrite comprehension_py_int_ints.
    reflexivity.
Qed.

Lemma registration_info_node_ids_witness :
  VoterRegistrationInfo.from_dict registration_info_args
  = Ok (VoterRegistrationInfo.mk 5
          (PStr "0xad67fe66660fb8dfe9d6b1b4240d8650e30f6019")
          (PStr "0xad67fe66660fb8dfe9d6b1b4240d8650e30f6019")
          2000 10 9 ["0a0b"; "ff"] [4; 6]%Z).
Proof.
  exact (proj2 (registration_info_node_ids registration_info_args)
           (PInt 5) (PInt 2000) (PInt 10) (PInt 9)
           (PStr "0xad67fe66660fb8dfe9d6b1b4240d8650e30f6019")
           (PStr "0xad67fe66660fb8dfe9d6b1b4240d8650e30f6019")
           5%Z 2000%Z 10%Z 9%Z [[x0a; x0b]; [xff]] [4; 6]%Z
           eq_refl eq_refl eq_refl eq_refl eq_refl eq_refl eq_refl eq_refl
           eq_refl eq_refl eq_refl eq_refl).
Defined.

(** X17: the feeds and the decimals of a decoded [FastUpdateFeeds]
    log are the integers of the raw lists, one for one and in order,
    each list on its own: nothing relates the number of feeds to the
    number of decimals.  The emitter address and the transaction hash
    come from the log record, not from [args].  A raw feed that [int]
    refuses makes the decoding fail with the error of the first such
    item. *)
Theorem fast_update_feeds_lists (log : EventData) :
  (forall decoded,
     FastUpdateFeeds.from_dict log = Ok decoded ->
     FastUpdateFeeds.emitter_address decoded = address log
     /\ FastUpdateFeeds.transaction_hash decoded = transactionHash log
     /\ (exists raw items,
           args log !! "feeds" = Some raw /\ py_iter raw = Ok items
           /\ Forall2 (fun item feed => py_int item = Ok feed) items
                (FastUpdateFeeds.feeds decoded))
     /\ (exists raw items,
           args log !! "decimals" = Some raw /\ py_iter raw = Ok items
           /\ Forall2 (fun item decimal => py_int item = Ok decimal) items
                (FastUpdateFeeds.decimals decoded)))
  /\ (forall (v : PyVal) (n : Z) (feeds decimals : list Z),
        args log !! "votingEpochId" = Some v -> py_int v = Ok n ->
        args log !! "feeds" = Some (PList (map PInt feeds)) ->
        args log !! "decimals" = Some (PList (map PInt decimals)) ->
        FastUpdateFeeds.from_dict log
        = Ok (FastUpdateFeeds.mk n (address log) (transactionHash log)
                feeds decimals))
  /\ (forall (v : PyVal) (n : Z) (done : list Z) (bad : PyVal)
             (rest : list PyVal) (e : PyError),
        args log !! "votingEpochId" = Some v -> py_int v = Ok n ->
        args log !! "feeds" = Some (PList (map PInt done ++ bad :: rest)) ->
        py_int bad = Err e ->
        FastUpdateFeeds.from_dict log = Err e).
Proof.
  unfold FastUpdateFeeds.from_dict, lookup_key. split; [|split].
  - intros decoded.
    destruct (args log !! "votingEpochId") as [v|]; [|discriminate].
    cbn [bind]. destruct (py_int v); [|discriminate]. cbn [bind].
    destruct (args log !! "feeds") as [rf|]; [|discriminate]. cbn [bind].
    destruct (py_iter rf) as [fi|] eqn:Hfi; [|discriminate]. cbn [bind].
    destruct (comprehension py_int fi) as [fs|] eqn:Hfs; [|discriminate].
    cbn [bind].
    destruct (args log !! "decimals") as [rd|]; [|discriminate]. cbn [bind].
    destruct (py_iter rd) as [di|] eqn:Hdi; [|discriminate]. cbn [bind].
    destruct (comprehension py_int di) as [ds|] eqn:Hds; [|discriminate].
    cbn [bind]. intros [= <-]. cbn.
    split; [reflexivity|]. split; [reflexivity|].
    split; [exists rf, fi|exists rd, di];
      (split; [reflexivity|]; split; [assumption|]);
      apply comprehension_Forall2; assumption.
  - intros v n feeds decimals. intros.
    use_lookups. cbn [py_iter bind]. rewrite comprehension_py_int_ints.
    use_lookups. cbn [py_iter bind]. rewrite comprehension_py_int_ints.
    reflexivity.
  - intros v n done bad rest e H1 H2 H3 Hbad.
    pose proof (comprehension_first_error py_int _ bad rest done e
                  (comprehension_py_int_ints done) Hbad) as Hfail.
    clear Hbad. use_lookups. cbn [py_iter bind].
    rewrite Hfail. reflexivity.
Qed.

Lemma fast_update_feeds_lists_witness :
  FastUpdateFeeds.from_dict (feeds_log "votingEpochId")
  = Ok (FastUpdateFeeds.mk 42
          "0xaD67FE66660Fb8dFE9d6b1b4240d8650e30F6019" [xab; xcd]
          [100; 200]%Z [2; 3]%Z).
Proof.
  exact (proj1 (proj2 (fast_update_feeds_lists (feeds_log "votingEpochId")))
           (PInt 42) 42%Z [100; 200]%Z [2; 3]%Z
           eq_refl eq_refl eq_refl eq_refl).
Defined.

(** ** Decoders do not check the kind of the event *)

(** X18: [from_dict] never checks which event a log belongs to; a
    decoder accepts every log that carries the keys it reads.  So the
    [args] of a log that decodes as [VotePowerBlockSelected] also
    decode as [RandomAcquisitionStarted], the [args] that decode as
    [VoterRegistered] also decode as [VoterRemoved], and a log decodes
    as [VoterPreRegistered] exactly when its [args] decode as
    [VoterRemoved], each time with the same reward epoch, timestamp
    or voter. *)
Theorem decoders_ignore_event_kind :
  (forall d selected,
     VotePowerBlockSelected.from_dict d = Ok selected ->
     RandomAcquisitionStarted.from_dict d
     = Ok (RandomAcquisitionStarted.mk
             (VotePowerBlockSelected.reward_epoch_id selected)
             (VotePowerBlockSelected.timestamp selected)))
  /\ (forall d registered,
        VoterRegistered.from_dict d = Ok registered ->
        VoterRemoved.from_dict d
        = Ok (VoterRemoved.mk (VoterRegistered.reward_epoch_id registered)
                (VoterRegistered.voter registered)))
  /\ (forall data pre,
        VoterPreRegistered.from_dict data = Ok pre
        <-> exists removed,
              VoterRemoved.from_dict (args data) = Ok removed
              /\ pre = VoterPreRegistered.mk (blockNumber data)
                         (address data) (transactionHash data)
                         (VoterRemoved.voter removed)
                         (VoterRemoved.reward_epoch_id removed)).
Proof.
  split; [|split].
  - intros d selected.
    unfold VotePowerBlockSelected.from_dict,
      RandomAcquisitionStarted.from_dict, lookup_key.
    destruct (d !! "rewardEpochId") as [v1|]; [|discriminate]. cbn [bind].
    destruct (py_int v1); [|discriminate]. cbn [bind].
    destruct (d !! "votePowerBlock") as [v2|]; [|discriminate]. cbn [bind].
    destruct (py_int v2); [|discriminate]. cbn [bind].
    destruct (d !! "timestamp") as [v3|]; [|discriminate]. cbn [bind].
    destruct (py_int v3); [|discriminate]. cbn [bind].
    intros [= <-]. reflexivity.
  - intros d registered H.
    destruct (VoterRegistered_from_dict_inv d registered H)
      as (v_epoch & _ & _ & _ & H1 & H2 & H3 & _).
    unfold VoterRemoved.from_dict, lookup_key.
    rewrite H1. cbn [bind]. rewrite H2. cbn [bind]. rewrite H3.
    reflexivity.
  - intros data pre.
    unfold VoterPreRegistered.from_dict, VoterRemoved.from_dict, lookup_key.
    cbn [py_int bind]. split.
    + destruct (args data !! "voter") as [voter|]; [|discriminate].
      cbn [bind].
      destruct (args data !! "rewardEpochId") as [v|]; [|discriminate].
      cbn [bind]. destruct (py_int v) as [n|]; [|discriminate].
      cbn [bind]. intros [= <-]. eexists. split; reflexivity.
    + intros (removed & H & ->).
      destruct (args data !! "rewardEpochId") as [v|]; [|discriminate].
      cbn [bind] in *. destruct (py_int v) as [n|]; [|discriminate].
      cbn [bind] in *.
      destruct (args data !! "voter") as [voter|]; [|discriminate].
      cbn [bind] in *. injection H as <-. reflexivity.
Qed.

Lemma decoders_ignore_event_kind_witness :
  VoterRemoved.from_dict lowercase_voter_args
  = Ok (VoterRemoved.mk 5
          (PStr "0xad67fe66660fb8dfe9d6b1b4240d8650e30f6019")).
Proof.
  exact (proj1 (proj2 decoders_ignore_event_kind)
           lowercase_voter_args _ eq_refl).
Defined.
